(* ===== verification/_CoqProject ===== *)
-Q . S2P
Prelude.v
Errors.v
Client.v
Duration.v
Format.v
Template.v
TextTemplate.v
Render.v
Rules.v
Json.v
Report.v
Flag.v
Load.v
Engine.v
Roundtrip.v
Trace.v
EngineTest.v
Pipeline.v
