(* ===== verification/Prelude.v ===== *)
(** * A verification development for prom-verifier

    prom-verifier (Go) replays the alerting rules of a Prometheus rule
    file against historical data and classifies each returned series as
    SILENT, PENDING or FIRING, rendering the rule's annotation templates
    for the firing ones.  This library models the program in Rocq and
    proves what makes it correct, and where it is not.

    ** The program and how its parts interact

    - src/internal/config/config.go: [Load] reads the flags, the replay
      window (at most four hours, a start at most three months back) and
      the rule file; src/internal/config/rules.go: the rule file's data.
    - src/internal/engine/engine.go: [Run] walks the groups and rules;
      [evaluateRule] issues one range query per rule and hands the
      returned matrix to [calculateAlerts], which computes for each series
      the elapsed duration and the state, calling [renderAnnotations] for
      the firing ones; each result goes to the reporter ([AddResult]) and
      [Run] ends with one [Flush].  engine_test.go: [TestCalculateAlerts].
    - src/internal/report/report.go: the [Reporter] interface, its text,
      JSON and YAML implementations and the factory [New].
    - src/internal/client/client.go: [NewAPI] builds the Prometheus API
      client from the server's address, wrapping the library's error.

    ** Files, in dependency order

    - [Prelude] (this file): Go's runtime panics as values (the [go]
      type), slice indexing, [(value, error)] results, int64/uint64 wrap
      and saturation, string helpers, the [prom] hint database, the
      rewrite databases [go_rw] and [int_rw], and the tactics [go_simpl],
      [go_app], [int_lia], [zbool], [if_cases], [zcase].
    - [Errors]: Go's error values ([errors.New] identity, [fmt.Errorf]
      with and without [%w], [errors.Unwrap], [errors.Is]).
    - [Client]: [client.NewAPI] against the client library (a section
      variable).
    - [Duration]: [time.Duration] as a [Z]; [time.ParseDuration]
      (uint64 accumulation with Go's overflow checks, the fraction in
      IEEE binary64 through [SpecFloat]); [time.Time] as [GoTime] with
      [time.Unix], [model.Time.Time], [Sub] (saturating), [Add] and
      [addSec] (saturating), [Before].
    - [Format]: [Duration.String] with [fmtFrac] and [fmtInt], and the
      error texts of [ParseDuration] with [time.quote].
    - [Template]: the class [TemplateEngine], what the renderer needs of
      [text/template]; [TextTemplate]: an instance modelling the fragment
      of [text/template] annotations use (splitting, trim markers,
      comments, tokens, declarations and printing of fields and
      variables, Go's parse and execution errors and messages).
    - [Render]: [renderAnnotations], proved against the class.
    - [Rules]: the rule file and [Config] records.
    - [Json]: the string escaping of [encoding/json] with the UTF-8
      decoding it needs, and a reference decoder of JSON literals.
    - [Report]: the [Reporter] class, [TextReporter], [JSONReporter],
      [YAMLReporter] as instances, [New] with a dispatching instance,
      [model.Metric.String], the indented JSON document.
    - [Flag]: Go's [flag] package for string flags: [FlagSet.Parse] over
      [parseOne], its errors, the usage message and the exit status.
    - [Load]: [config.Load] from the command line ([LoadArgs]: the five
      [flag.String] declarations and [flag.Parse]), with the clock, the
      time parser, [AddDate], [Format], [os.ReadFile] and
      [yaml.Unmarshal] as section variables; its errors as Go error
      values ([LoadError_go]).
    - [Engine]: the Prometheus sample types ([Model]), [calculateAlerts]
      and its per-series body, [evaluateRule] and [Run]; the query is a
      function, the reporter calls are the events of a trace.
    - [Roundtrip]: [Duration.String] read back by [ParseDuration] and
      by the engine's [parseFor].
    - [Trace]: the shape of every event of a run ([event_wf]) and the
      reporting of every rule.
    - [EngineTest]: the unit test's table and checks.
    - [Pipeline]: the trace of [Run] performed on a reporter from [New].

    ** What is proved

    - Engine: [calculateAlerts] refines a per-series specification
      (duration, state, annotations, order); its panic on a series
      without float samples; zero, negative and malformed [for]
      thresholds; the SILENT result of an empty matrix, query errors and
      non-matrix results (no per-series result); the trace of [Run] (one [Flush], last; all or
      nothing per rule on a panic).
    - Render: one output per template key, per-key isolation of errors,
      independence from Go's map iteration order, the [<no value>] of a
      missing label with Go's template engine.
    - Duration: [ParseDuration] on numerals with units, the int64 range
      of its result, enough fuel; [Time.Sub] on millisecond timestamps.
    - Roundtrip: [ParseDuration (Duration.String d) = d] for every whole
      number of milliseconds [d] in the int64 range (the resolution of
      the durations [calculateAlerts] computes from millisecond
      timestamps), and [parseFor] gives back the same threshold.  The
      sub-second part goes through
      binary64 arithmetic; its exactness for the 1110 fractions of at
      most three digits is checked by evaluation ([frac_check]).
    - The unit test passes exactly for the clock readings ten minutes or
      more above the int64 minimum.
    - Load: each error wraps the library error that caused it, except
      the two safety blocks; an undeclared flag exits with status 2 and
      the usage before the body runs.
    - Load: every combination of flag values reaches the body of [Load]
      unchanged, and no argument gives the defaults.
    - Load: the window and look-back guarantees of a loaded
      configuration, the inclusive four-hour cap, and the acceptance of a
      negative window, with an inverted range.
    - Client: the error of [NewAPI] is the library's error behind a
      fixed prefix, still visible to [errors.Unwrap] and [errors.Is].
    - Trace: every reporter call of a run has a state string of the
      three, an int64 duration, annotations exactly on FIRING results,
      and the SILENT shape; a run that ends normally reports every rule.
    - Report: the text output does not depend on Go's map iteration
      order except for the order of the annotation lines, and prints the
      labels sorted.
    - Report and Pipeline: the JSON document of a run; every annotation
      handed to the JSON reporter is in the document [Flush] prints, as a
      literal that decodes back to the rendered text and holds no [<],
      [>] or [&]; nothing printed by the JSON and YAML reporters when a
      rule panics.

    ** Bounds and fuel

    [ParseDuration]'s loop takes the length of its input as fuel, never
    exhausted ([parse_components_fuel]); [fmtInt] has 20 rounds, the
    digits of a uint64.  Go's int64 and uint64 arithmetic is written out
    with [wrap_i64], [wrap_u64] and [clamp_int64] where it can overflow.
    [flag.Parse]'s loop takes [length args + 1] rounds of fuel: each
    round that goes on consumes an argument, and the lemma
    [parse_loop_fuel] shows that any more changes nothing.

    ** Not modelled

    The client library's internals ([api.NewClient]'s URL parsing, the
    HTTP transport) and the query protocol (a function from a query to
    its result), bool and numeric flags (Load declares none), YAML
    decoding and encoding, file and terminal I/O beyond the bytes
    written, the monotonic clock, Go's
    random map iteration (a parameter where output depends on it), the
    printing of [float64] values (a parameter of the template model), and
    Unicode printability in [strconv.Quote]. *)

From stdpp Require Export base gmap strings list.
From Stdlib Require Export ZArith Lia Ascii.

Declare Scope go_scope.
Delimit Scope go_scope with go.

(** ** Runtime panics *)

(** The Go runtime errors the modelled code can raise. *)
Inductive Panic : Type :=
| IndexOutOfRange (index len : Z).

#[export] Instance Panic_eq_dec : EqDecision Panic.
Proof. solve_decision. Defined.

(** A computation of Go code that either returns or panics. *)
Inductive go (A : Type) : Type :=
| GoOk (a : A)
| GoPanic (p : Panic).
Arguments GoOk {A} a.
Arguments GoPanic {A} p.

#[export] Instance go_ret : MRet go := λ A a, GoOk a.
#[export] Instance go_bind : MBind go :=
  λ A B f m, match m with GoOk a => f a | GoPanic p => GoPanic p end.
#[export] Instance go_fmap : FMap go :=
  λ A B f m, match m with GoOk a => GoOk (f a) | GoPanic p => GoPanic p end.

Notation "'ok?' m" := (match m with GoOk _ => true | GoPanic _ => false end)
  (at level 10) : go_scope.

(** Go's slice index [l[i]]: the element, or the runtime panic. *)
Definition go_index {A} (l : list A) (i : Z) : go A :=
  match (if (i <? 0)%Z then None else l !! Z.to_nat i) with
  | Some x => GoOk x
  | None => GoPanic (IndexOutOfRange i (Z.of_nat (length l)))
  end.

(** Go's [(value, error)] pairs where the caller inspects the error. *)
Inductive result (A E : Type) : Type :=
| Ok (a : A)
| Err (e : E).
Arguments Ok {A E} a.
Arguments Err {A E} e.

Definition result_bind {A B E} (m : result A E) (f : A → result B E) : result B E :=
  match m with Ok a => f a | Err e => Err e end.

Notation "'let?' x ':=' m 'in' k" := (result_bind m (λ x, k))
  (at level 10, x name, m at level 100, k at level 200) : go_scope.
Notation "'let?' ' p ':=' m 'in' k" := (result_bind m (λ p, k))
  (at level 10, p pattern, m at level 100, k at level 200) : go_scope.

(** ** Machine integers *)

Definition int64_min : Z := (- 2 ^ 63)%Z.
Definition int64_max : Z := (2 ^ 63 - 1)%Z.
Definition in_int64 (z : Z) : Prop := (int64_min <= z <= int64_max)%Z.

(** Saturation to the int64 range. *)
Definition clamp_int64 (z : Z) : Z := Z.max int64_min (Z.min int64_max z).

(** uint64 wrap-around. *)
Definition wrap_u64 (z : Z) : Z := (z mod 2 ^ 64)%Z.

(** int64 wrap-around (two's complement). *)
Definition wrap_i64 (z : Z) : Z := ((z + 2 ^ 63) mod 2 ^ 64 - 2 ^ 63)%Z.

(** ** Strings *)

(** Go's order on strings ([sort.Strings], [strings.Compare]): bytewise. *)
Definition string_le (a b : string) : Prop := String.compare a b ≠ Gt.

#[export] Instance string_le_dec : RelDecision string_le.
Proof. intros a b. unfold string_le. apply _. Defined.

(** The newline byte. *)
Definition newline : string := String "010" EmptyString.

(** ** Hint databases *)

Create HintDb prom discriminated.
Create Rewrite HintDb go_rw.
Create Rewrite HintDb int_rw.

(** The powers of two of the machine widths, as literals for [lia]. *)
Lemma two_pow_63 : (2 ^ 63 = 9223372036854775808)%Z.
Proof. reflexivity. Qed.
Lemma two_pow_64 : (2 ^ 64 = 18446744073709551616)%Z.
Proof. reflexivity. Qed.
#[export] Hint Rewrite two_pow_63 two_pow_64 : int_rw.

(** ** Lemmas on [go] *)

Lemma go_bind_ok {A B} (a : A) (f : A → go B) : (GoOk a ≫= f) = f a.
Proof. done. Qed.

Lemma go_bind_panic {A B} (p : Panic) (f : A → go B) : (GoPanic p ≫= f) = GoPanic p.
Proof. done. Qed.

Lemma go_ret_ok {A} (a : A) : mret (M:=go) a = GoOk a.
Proof. done. Qed.

Lemma go_bind_ok_inv {A B} (m : go A) (f : A → go B) (b : B) :
  (m ≫= f) = GoOk b → ∃ a, m = GoOk a ∧ f a = GoOk b.
Proof. destruct m; simpl; [eauto | discriminate]. Qed.

Lemma go_bind_assoc {A B C} (m : go A) (f : A → go B) (g : B → go C) :
  ((m ≫= f) ≫= g) = (m ≫= (λ a, f a ≫= g)).
Proof. by destruct m. Qed.

#[export] Hint Rewrite @go_bind_ok @go_bind_panic @go_ret_ok : go_rw.

(** ** Lemmas on slice indexing *)

Lemma go_index_lookup {A} (l : list A) (n : nat) :
  go_index l (Z.of_nat n) = match l !! n with
                            | Some x => GoOk x
                            | None => GoPanic (IndexOutOfRange (Z.of_nat n) (Z.of_nat (length l)))
                            end.
Proof.
  unfold go_index. rewrite Nat2Z.id.
  by destruct (Z.ltb_spec (Z.of_nat n) 0); [lia |].
Qed.

Lemma go_index_in_range {A} (l : list A) (n : nat) (x : A) :
  l !! n = Some x → go_index l (Z.of_nat n) = GoOk x.
Proof. intros H. by rewrite go_index_lookup, H. Qed.

Lemma go_index_negative {A} (l : list A) (i : Z) :
  (i < 0)%Z → go_index l i = GoPanic (IndexOutOfRange i (Z.of_nat (length l))).
Proof. intros H. unfold go_index. by destruct (Z.ltb_spec i 0); [| lia]. Qed.

(** The last element [l[len(l)-1]] of a non-empty slice. *)
Lemma go_index_last {A} (l : list A) (x : A) :
  last l = Some x → go_index l (Z.of_nat (length l) - 1) = GoOk x.
Proof.
  intros H. destruct l as [|y l] using rev_ind; [discriminate |].
  rewrite last_snoc in H. injection H as ->.
  rewrite length_app. simpl.
  replace (Z.of_nat (length l + 1) - 1)%Z with (Z.of_nat (length l)) by lia.
  apply go_index_in_range. by rewrite lookup_app_r, Nat.sub_diag by lia.
Qed.

Lemma go_index_first {A} (l : list A) (x : A) :
  head l = Some x → go_index l 0 = GoOk x.
Proof. destruct l; simpl; [discriminate | by intros [= ->]]. Qed.

#[export] Hint Resolve go_index_last go_index_first go_index_in_range : prom.

(** ** Lemmas on the int64 range *)

Lemma clamp_int64_in_range (z : Z) : in_int64 (clamp_int64 z).
Proof. unfold in_int64, clamp_int64, int64_min, int64_max. lia. Qed.

Lemma clamp_int64_id (z : Z) : in_int64 z → clamp_int64 z = z.
Proof. unfold in_int64, clamp_int64, int64_min, int64_max. lia. Qed.

Lemma clamp_int64_mono (x y : Z) : (x <= y)%Z → (clamp_int64 x <= clamp_int64 y)%Z.
Proof. unfold clamp_int64. lia. Qed.

Lemma clamp_int64_nonneg (z : Z) : (0 <= z)%Z → (0 <= clamp_int64 z)%Z.
Proof. unfold clamp_int64, int64_min, int64_max. lia. Qed.

Lemma wrap_i64_id (z : Z) : in_int64 z → wrap_i64 z = z.
Proof.
  unfold in_int64, int64_min, int64_max, wrap_i64. intros H.
  rewrite Z.mod_small by lia. lia.
Qed.

Lemma wrap_i64_in_range (z : Z) : in_int64 (wrap_i64 z).
Proof.
  unfold in_int64, int64_min, int64_max, wrap_i64.
  pose proof (Z.mod_pos_bound (z + 2 ^ 63) (2 ^ 64)). lia.
Qed.

#[export] Hint Resolve clamp_int64_in_range clamp_int64_id clamp_int64_nonneg
  wrap_i64_id wrap_i64_in_range : prom.

(** ** Lemmas on lists *)

(** A list related, element by element, to its own image. *)
Lemma Forall2_map_self {A B} (P : A → B → Prop) (f : A → B) (l : list A) :
  Forall (λ x, P x (f x)) l → Forall2 P l (map f l).
Proof. induction 1; simpl; constructor; auto. Qed.

(** A decidable-by-cases property holds everywhere or fails somewhere. *)
Lemma Forall_or_Exists_not {A} (P Q : A → Prop) (l : list A) :
  (∀ x, P x ∨ Q x) → (∀ x, Q x → ¬ P x) → Forall P l ∨ Exists (λ x, ¬ P x) l.
Proof.
  intros Hdec HQ. induction l as [|x l [IH|IH]].
  - by left.
  - destruct (Hdec x) as [Hx|Hx]; [left; by constructor | right; constructor; by apply HQ].
  - right. by apply Exists_cons; right.
Qed.

(** ** Lemmas on strings *)

Lemma string_length_app (s t : string) :
  String.length (s +:+ t) = (String.length s + String.length t)%nat.
Proof. induction s as [|c s IH]; simpl; [done | by rewrite IH]. Qed.

Lemma string_app_nil_l (s : string) : EmptyString +:+ s = s.
Proof. done. Qed.

Lemma string_app_cons (c : ascii) (s t : string) : String c s +:+ t = String c (s +:+ t).
Proof. done. Qed.

(** [string_le] is stdpp's order on strings, a total order. *)
Lemma string_le_leb (a b : string) : string_le a b ↔ String.le a b.
Proof. unfold string_le, String.le, String.leb. destruct (String.compare a b); naive_solver. Qed.

#[export] Instance string_le_po : PartialOrder string_le.
Proof.
  split; [split |].
  - intros a. apply string_le_leb. reflexivity.
  - intros a b c ?%string_le_leb ?%string_le_leb. apply string_le_leb. by etrans.
  - intros a b ?%string_le_leb ?%string_le_leb. by apply (anti_symm String.le).
Qed.

#[export] Instance string_le_total : Total string_le.
Proof. intros a b. rewrite !string_le_leb. apply total, _. Qed.

Lemma string_app_nil_r (s : string) : s +:+ EmptyString = s.
Proof. induction s as [|c s IH]; [done |]. by rewrite string_app_cons, IH. Qed.

Lemma string_app_assoc (s t u : string) : (s +:+ t) +:+ u = s +:+ (t +:+ u).
Proof. induction s as [|c s IH]; [done |]. by rewrite !string_app_cons, IH. Qed.

(** An element of a list occurs in the list's [String.concat]. *)
Lemma string_concat_elem (sep x : string) (l : list string) :
  x ∈ l → ∃ pre post, String.concat sep l = pre +:+ x +:+ post.
Proof.
  induction l as [|y l IH]; [by intros ?%elem_of_nil |].
  intros [->|Hx]%elem_of_cons.
  - destruct l as [|z l]; simpl.
    + exists EmptyString, EmptyString. by rewrite string_app_nil_r.
    + by exists EmptyString, (sep +:+ String.concat sep (z :: l)).
  - destruct (IH Hx) as (pre & post & Hc). destruct l as [|z l]; [by apply elem_of_nil in Hx |].
    change (String.concat sep (y :: z :: l)) with (y +:+ sep +:+ String.concat sep (z :: l)).
    rewrite Hc. exists (y +:+ sep +:+ pre), post. by rewrite !string_app_assoc.
Qed.

#[export] Hint Rewrite string_length_app string_app_nil_l string_app_cons : go_rw.

(** ** Tactics *)

(** Push string concatenation through its literal left operands (stdpp
    makes [String.append] opaque to [simpl] and [cbn]). *)
Ltac go_app := rewrite ?string_app_cons, ?string_app_nil_l.

(** Push the binds of [go] through concrete [GoOk]/[GoPanic] results. *)
Ltac go_simpl := repeat (autorewrite with go_rw in *; simpl in *).

(** [lia] after the machine-width constants are made literals. *)
Ltac int_lia :=
  unfold in_int64, int64_min, int64_max, wrap_u64, wrap_i64 in *;
  autorewrite with int_rw in *; Z.to_euclidean_division_equations; lia.

(** Boolean Z tests in the hypotheses, as the propositions [lia] reads. *)
Ltac zbool :=
  repeat match goal with
  | H : (_ && _)%bool = true |- _ => apply andb_prop in H as [? ?]
  | H : (_ || _)%bool = false |- _ => apply orb_false_iff in H as [? ?]
  | H : negb _ = true |- _ => apply negb_true_iff in H
  | H : negb _ = false |- _ => apply negb_false_iff in H
  | H : (_ <=? _)%Z = true |- _ => apply Z.leb_le in H
  | H : (_ <=? _)%Z = false |- _ => apply Z.leb_gt in H
  | H : (_ <? _)%Z = true |- _ => apply Z.ltb_lt in H
  | H : (_ <? _)%Z = false |- _ => apply Z.ltb_ge in H
  | H : (_ =? _)%Z = true |- _ => apply Z.eqb_eq in H
  | H : (_ =? _)%Z = false |- _ => apply Z.eqb_neq in H
  end.

(** Case on every [if] of the goal, keeping each test as a hypothesis. *)
Ltac if_cases :=
  repeat match goal with
  | |- context [if ?b then _ else _] => let E := fresh "E" in destruct b eqn:E
  end; zbool.

(** Case on a boolean Z comparison in the goal, with its Prop meaning. *)
Ltac zcase :=
  match goal with
  | |- context [(?a <? ?b)%Z] => destruct (Z.ltb_spec a b)
  | |- context [(?a <=? ?b)%Z] => destruct (Z.leb_spec a b)
  | |- context [(?a =? ?b)%Z] => destruct (Z.eqb_spec a b)
  end.
