(* ===== verification/Errors.v ===== *)
(** * Go errors

    The [error] values the program creates and passes on, modelled by
    what wrapping touches: an error made by [errors.New] (or by
    [fmt.Errorf] without [%w]) has an identity, Go comparing such errors
    by pointer, and a text; a wrapping error ([fmt.Errorf] with [%w], or
    a library error such as [*url.Error]) has a text and the error it
    wraps, which [errors.Unwrap] returns and [errors.Is] follows.  These
    follow Go's errors and fmt packages; [client.NewAPI] and
    [config.Load] build their errors with them. *)

From S2P Require Import Prelude.

Module Errors.

Inductive GoError : Type :=
| ErrNew (id : positive) (msg : string)
| ErrWrapped (msg : string) (inner : GoError).

#[export] Instance GoError_eq_dec : EqDecision GoError.
Proof. solve_decision. Defined.

(** [err.Error()] *)
Definition Error (e : GoError) : string :=
  match e with ErrNew _ m => m | ErrWrapped m _ => m end.

(** [errors.Unwrap(err)] *)
Definition Unwrap (e : GoError) : option GoError :=
  match e with ErrNew _ _ => None | ErrWrapped _ inner => Some inner end.

(** [errors.Is(err, target)]: [err] or an error of its chain equals
    [target]; neither modelled error type has an [Is] method. *)
Fixpoint Is (e target : GoError) : bool :=
  bool_decide (e = target) ||
  match e with ErrNew _ _ => false | ErrWrapped _ inner => Is inner target end.

(** [fmt.Errorf(prefix + "%w", err)]: the text of [err] after the
    prefix, and [err] wrapped. *)
Definition Errorf_w (prefix : string) (err : GoError) : GoError :=
  ErrWrapped (prefix +:+ Error err) err.

(** [fmt.Errorf(format)] without [%w], and [errors.New]: a new error
    with the text; [id] names the call site, the error's identity. *)
Definition Errorf (id : positive) (msg : string) : GoError := ErrNew id msg.

(** ** Lemmas *)

Lemma Is_refl (e : GoError) : Is e e = true.
Proof. destruct e; simpl; by rewrite bool_decide_true. Qed.

(** Wrapping keeps every error of the chain visible to [errors.Is]. *)
Lemma Is_wrapped (m : string) (inner t : GoError) :
  Is inner t = true → Is (ErrWrapped m inner) t = true.
Proof. intros H. simpl. by rewrite H, orb_true_r. Qed.

End Errors.
