(* ===== verification/Client.v ===== *)
(** * The Prometheus client

    [client.NewAPI] (src/internal/client/client.go) builds the HTTP
    client of the Prometheus API from the server's address and wraps its
    error with [fmt.Errorf] and the verb [%w] (Go's errors are in
    [Errors]).  The client library ([api.NewClient], [v1.NewAPI]) is a
    section variable: its internals (URL parsing, the HTTP transport)
    are not code of this repository. *)

From S2P Require Import Prelude Errors.
Import Errors.

Module Client.

(** ** [NewAPI] *)

(** [api.Config]: the address; the HTTP client and round tripper are
    left at their zero value (nil) by [NewAPI]. *)
Record Config : Type := mkConfig { Address : string }.

Section NewAPI.

Context {HTTPClient API : Type}.

(** [api.NewClient(cfg)] and [v1.NewAPI(client)]. *)
Variable NewClient : Config → result HTTPClient GoError.
Variable v1_NewAPI : HTTPClient → API.

Definition create_error_prefix : string := "error creating prometheus client: ".

(** [client.NewAPI(url)] *)
Definition NewAPI (url : string) : result API GoError :=
  match NewClient (mkConfig url) with
  | Err err => Err (Errorf_w create_error_prefix err)
  | Ok client => Ok (v1_NewAPI client)
  end.

End NewAPI.

(** ** Theorems *)

Section Theorems.

Context {HTTPClient API : Type}.
Variable NewClient : Config → result HTTPClient GoError.
Variable v1_NewAPI : HTTPClient → API.

(** C35. When the client library refuses the address, [NewAPI] returns
    an error whose text is the library's error after the prefix
    [error creating prometheus client: ], which [errors.Unwrap] opens to
    the library's error, and which [errors.Is] matches against every
    error the library's error matches ([%w], not [%v]). *)
Theorem NewAPI_error (url : string) (err : GoError) :
  NewClient (mkConfig url) = Err err →
  ∃ e, NewAPI NewClient v1_NewAPI url = Err e ∧
       Error e = create_error_prefix +:+ Error err ∧ Unwrap e = Some err ∧
       (∀ t, Is err t = true → Is e t = true).
Proof.
  intros H. unfold NewAPI. rewrite H.
  exists (Errorf_w create_error_prefix err). split_and!; try done.
  intros t. apply Is_wrapped.
Qed.

End Theorems.

(** ** Witnesses *)

Lemma NewAPI_error_witness :
  ∃ e, NewAPI (λ _ : Config, @Err unit GoError (ErrNew 1 "missing ']' in host")) (λ c : unit, c)
         "http://[::1" = Err e ∧
       Error e = "error creating prometheus client: missing ']' in host".
Proof.
  destruct (NewAPI_error (λ _ : Config, @Err unit GoError (ErrNew 1 "missing ']' in host")) (λ c : unit, c)
              "http://[::1" (ErrNew 1 "missing ']' in host") eq_refl) as (e & H1 & H2 & _).
  exists e. split; [exact H1 | rewrite H2; reflexivity].
Defined.

End Client.
