(* ===== verification/Duration.v ===== *)
(** * Durations and sample timestamps

    Go's [time.Duration] is an int64 count of nanoseconds, here a [Z].
    A rule's [for:] string is read by [time.ParseDuration]
    (src/internal/engine/engine.go, calculateAlerts); the standard
    library is not code of this repository, so [ParseDuration] follows
    Go's documented algorithm ([time/format.go]): a sign, then components
    [digits[.digits]unit], the integer part accumulated as a uint64 with
    its overflow checks, the fraction through [float64] arithmetic (here
    the IEEE binary64 operations of Stdlib's [SpecFloat]).

    A Prometheus sample timestamp ([model.Time]) is an int64 count of
    milliseconds; [model.Time.Time] turns it into a [time.Time] through
    [time.Unix], and [time.Time.Sub] returns the difference, saturated to
    the int64 range. *)

From S2P Require Import Prelude.
From Stdlib Require Import SpecFloat.

Local Open Scope Z_scope.

Module Duration.

(** ** Units *)

Definition Nanosecond : Z := 1.
Definition Microsecond : Z := 1000 * Nanosecond.
Definition Millisecond : Z := 1000 * Microsecond.
Definition Second : Z := 1000 * Millisecond.
Definition Minute : Z := 60 * Second.
Definition Hour : Z := 60 * Minute.

(** [unitMap]: the unit suffixes, among them U+00B5 and U+03BC in UTF-8. *)
Definition unitMap (u : string) : option Z :=
  if String.eqb u "ns" then Some Nanosecond
  else if String.eqb u "us" then Some Microsecond
  else if String.eqb u "µs" then Some Microsecond
  else if String.eqb u "μs" then Some Microsecond
  else if String.eqb u "ms" then Some Millisecond
  else if String.eqb u "s" then Some Second
  else if String.eqb u "m" then Some Minute
  else if String.eqb u "h" then Some Hour
  else None.

(** ** Bytes *)

Definition byte_val (c : ascii) : Z := Z.of_N (Ascii.N_of_ascii c).
Definition is_digit (c : ascii) : bool := (48 <=? byte_val c) && (byte_val c <=? 57).
Definition digit_val (c : ascii) : Z := byte_val c - 48.
Definition is_dot (c : ascii) : bool := Ascii.eqb c ".".

(** ** float64 *)

Definition float_of_Z (z : Z) : spec_float := binary_normalize 53 1024 z 0 false.
Definition float_mul : spec_float → spec_float → spec_float := SFmul 53 1024.
Definition float_div : spec_float → spec_float → spec_float := SFdiv 53 1024.

(** [uint64(x)] of a finite non-negative float: truncation toward zero. *)
Definition trunc_float (x : spec_float) : Z :=
  match x with
  | S754_finite false m e => if 0 <=? e then Z.pos m * 2 ^ e else Z.shiftr (Z.pos m) (- e)
  | _ => 0
  end.

(** ** The scanners of [time/format.go] *)

(** [leadingInt]: consumes [[0-9]*]; [None] is [errLeadingInt]. *)
Fixpoint leadingInt_aux (x : Z) (s : string) : option (Z * string) :=
  match s with
  | EmptyString => Some (x, EmptyString)
  | String c s' =>
      if negb (is_digit c) then Some (x, s)
      else if 2 ^ 63 / 10 <? x then None
      else let x' := x * 10 + digit_val c in
           if 2 ^ 63 <? x' then None else leadingInt_aux x' s'
  end.

Definition leadingInt (s : string) : option (Z * string) := leadingInt_aux 0 s.

(** [leadingFraction]: consumes [[0-9]*]; past 2^63 it stops accumulating
    precision. *)
Fixpoint leadingFraction_aux (x : Z) (scale : spec_float) (overflow : bool) (s : string)
    : Z * spec_float * string :=
  match s with
  | EmptyString => (x, scale, EmptyString)
  | String c s' =>
      if negb (is_digit c) then (x, scale, s)
      else if overflow then leadingFraction_aux x scale true s'
      else if (2 ^ 63 - 1) / 10 <? x then leadingFraction_aux x scale true s'
      else let y := x * 10 + digit_val c in
           if 2 ^ 63 <? y then leadingFraction_aux x scale true s'
           else leadingFraction_aux y (float_mul scale (float_of_Z 10)) false s'
  end.

Definition leadingFraction (s : string) : Z * spec_float * string :=
  leadingFraction_aux 0 (float_of_Z 1) false s.

(** The unit: the bytes up to the next ['.'] or digit. *)
Fixpoint span_unit (s : string) : string * string :=
  match s with
  | EmptyString => (EmptyString, EmptyString)
  | String c s' =>
      if is_dot c || is_digit c then (EmptyString, s)
      else let '(u, r) := span_unit s' in (String c u, r)
  end.

(** The optional fraction [.digits] after the integer part: the fraction, its
    scale, the rest, and whether a digit was consumed ([post]). *)
Definition fraction_part (s : string) : Z * spec_float * string * bool :=
  match s with
  | String c r =>
      if is_dot c then
        let '(f, scale, r') := leadingFraction r in
        (f, scale, r', negb (String.length r' =? String.length r)%nat)
      else (0, float_of_Z 1, s, false)
  | EmptyString => (0, float_of_Z 1, s, false)
  end.

(** ** [ParseDuration] *)

Inductive DurationError : Type :=
| InvalidDuration (orig : string)
| MissingUnit (orig : string)
| UnknownUnit (u orig : string).

(** The value of one component [v] with its unit, before it is added. *)
Definition component_value (orig : string) (v f : Z) (scale : spec_float) (unit : Z)
    : result Z DurationError :=
  if 2 ^ 63 / unit <? v then Err (InvalidDuration orig)
  else
    let v := v * unit in
    if 0 <? f then
      let v := v + trunc_float (float_mul (float_of_Z f) (float_div (float_of_Z unit) scale)) in
      if 2 ^ 63 <? v then Err (InvalidDuration orig) else Ok v
    else Ok v.

(** One round of the loop [for s != ""]: the component at the front of
    [s] added to the uint64 accumulator [d], and the rest of [s]. *)
Inductive step_outcome : Type :=
| StepErr (e : DurationError)
| StepNext (d : Z) (rest : string).

Definition parse_component (orig : string) (d : Z) (s : string) : step_outcome :=
  match s with
  | EmptyString => StepNext d s
  | String c _ =>
    if negb (is_dot c || is_digit c) then StepErr (InvalidDuration orig) else
    match leadingInt s with
    | None => StepErr (InvalidDuration orig)
    | Some (v, s1) =>
      let pre := negb (String.length s1 =? String.length s)%nat in
      let '(f, scale, s2, post) := fraction_part s1 in
      if negb (pre || post) then StepErr (InvalidDuration orig) else
      let '(u, s3) := span_unit s2 in
      if String.eqb u "" then StepErr (MissingUnit orig) else
      match unitMap u with
      | None => StepErr (UnknownUnit u orig)
      | Some unit =>
        match component_value orig v f scale unit with
        | Err e => StepErr e
        | Ok v =>
          let d := wrap_u64 (d + v) in
          if 2 ^ 63 <? d then StepErr (InvalidDuration orig) else StepNext d s3
        end
      end
    end
  end.

(** The loop itself.  Each round consumes at least one byte
    ([parse_component_shorter]), so the length of [s] is enough fuel
    ([parse_components_fuel]). *)
Fixpoint parse_components (fuel : nat) (orig : string) (d : Z) (s : string)
    : result Z DurationError :=
  match s with
  | EmptyString => Ok d
  | String _ _ =>
    match fuel with
    | O => Err (InvalidDuration orig)
    | S fuel' =>
      match parse_component orig d s with
      | StepErr e => Err e
      | StepNext d' s' => parse_components fuel' orig d' s'
      end
    end
  end.

(** "Consume [-+]?". *)
Definition split_sign (orig : string) : bool * string :=
  match orig with
  | String c s' =>
      if Ascii.eqb c "-" then (true, s')
      else if Ascii.eqb c "+" then (false, s')
      else (false, orig)
  | EmptyString => (false, orig)
  end.

(** The sign, the special case ["0"], the components, and the int64 range. *)
Definition ParseDuration (orig : string) : result Z DurationError :=
  let '(neg, s) := split_sign orig in
  if String.eqb s "0" then Ok 0
  else if String.eqb s "" then Err (InvalidDuration orig)
  else
    match parse_components (String.length s) orig 0 s with
    | Err e => Err e
    | Ok d =>
        if neg then Ok (- d)
        else if 2 ^ 63 - 1 <? d then Err (InvalidDuration orig)
        else Ok d
    end.

(** Decimal numerals, to state what [ParseDuration] reads. *)
Fixpoint all_digits (s : string) : bool :=
  match s with
  | EmptyString => true
  | String c s' => is_digit c && all_digits s'
  end.

Fixpoint decimal_value (acc : Z) (s : string) : Z :=
  match s with
  | EmptyString => acc
  | String c s' => decimal_value (acc * 10 + digit_val c) s'
  end.

(** Where a scan of digits stops, and where a component may follow. *)
Definition starts_non_digit (s : string) : bool :=
  match s with EmptyString => true | String c _ => negb (is_digit c) end.

Definition starts_digit_or_end (s : string) : bool :=
  match s with EmptyString => true | String c _ => is_digit c end.

(** ** Timestamps *)

(** A [time.Time] without monotonic reading: Unix seconds and the
    nanoseconds within the second, in [[0, 1e9)]. *)
Record GoTime : Type := mkTime { sec : Z; nsec : Z }.

(** [time.Unix]: normalizes [nsec] into [[0, 1e9)]. *)
Definition Unix (s n : Z) : GoTime :=
  if (n <? 0) || (1000000000 <=? n) then
    let q := Z.quot n 1000000000 in
    let s := s + q in
    let n := n - q * 1000000000 in
    if n <? 0 then mkTime (s - 1) (n + 1000000000) else mkTime s n
  else mkTime s n.

(** [model.Time.Time]: [time.Unix(t/1000, (t%1000)*1e6)] with Go's
    truncating division. *)
Definition Time (t : Z) : GoTime := Unix (Z.quot t 1000) (Z.rem t 1000 * 1000000).

(** [time.Time.Sub]: the difference, or the int64 bound it overflows. *)
Definition Sub (t u : GoTime) : Z :=
  clamp_int64 ((sec t - sec u) * Second + (nsec t - nsec u)).

(** Seconds from January 1 of year 1 to the Unix epoch: a [time.Time]
    keeps its seconds from year 1 in an int64 ([t.ext]). *)
Definition unixToInternal : Z := (1969 * 365 + 1969 / 4 - 1969 / 100 + 1969 / 400) * 86400.

(** [t.addSec(d)]: the seconds from year 1 move by [d], saturating at
    the int64 bounds instead of wrapping. *)
Definition addSec (t : GoTime) (d : Z) : GoTime :=
  let ext := sec t + unixToInternal in
  let sum := wrap_i64 (ext + d) in
  let ext' := if Bool.eqb (ext <? sum) (0 <? d) then sum
              else if 0 <? d then int64_max else - int64_max in
  mkTime (ext' - unixToInternal) (nsec t).

(** [time.Time.Add]: whole seconds and nanoseconds of [d] added
    separately, the nanoseconds carried into [[0, 1e9)]. *)
Definition Add (t : GoTime) (d : Z) : GoTime :=
  let dsec := Z.quot d 1000000000 in
  let ns := nsec t + Z.rem d 1000000000 in
  let '(dsec, ns) :=
    if 1000000000 <=? ns then (dsec + 1, ns - 1000000000)
    else if ns <? 0 then (dsec - 1, ns + 1000000000)
    else (dsec, ns) in
  addSec (mkTime (sec t) ns) dsec.

(** [time.Time.Before], on the wall clock. *)
Definition Before (t u : GoTime) : bool :=
  (sec t <? sec u) || ((sec t =? sec u) && (nsec t <? nsec u)).

(** The instant a [GoTime] denotes, in nanoseconds from the Unix epoch,
    and the range of its nanoseconds that every [time.Time] keeps. *)
Definition instant (t : GoTime) : Z := sec t * 1000000000 + nsec t.
Definition valid_time (t : GoTime) : Prop := 0 <= nsec t < 1000000000.

(** [t.Add(d)] does not reach the int64 bounds of the seconds from year 1. *)
Definition addable (t : GoTime) (d : Z) : Prop :=
  Z.abs (sec t + unixToInternal) + Z.abs (Z.quot d 1000000000) + 1 <= int64_max.

(** ** Lemmas *)

(** The scanners never lengthen the input. *)
Lemma leadingInt_aux_length (x v : Z) (s r : string) :
  leadingInt_aux x s = Some (v, r) → (String.length r <= String.length s)%nat.
Proof.
  revert x. induction s as [|c s IH]; intros x; simpl; [by intros [= _ <-] |].
  destruct (is_digit c); simpl; [| intros [= _ <-]; simpl; lia].
  destruct (_ <? x); [discriminate |].
  destruct (_ <? _); [discriminate |].
  intros H. apply IH in H. lia.
Qed.

Lemma leadingFraction_aux_length (x : Z) (sc : spec_float) (o : bool) (s : string) :
  (String.length (leadingFraction_aux x sc o s).2 <= String.length s)%nat.
Proof.
  revert x sc o. induction s as [|c s IH]; intros x sc o; simpl; [lia |].
  destruct (is_digit c); simpl; [| lia].
  destruct o; [| destruct (_ <? x); [| cbv zeta; destruct (_ <? _)]];
    (etrans; [apply IH | lia]).
Qed.

Lemma fraction_part_length (s r : string) (f : Z) (sc : spec_float) (post : bool) :
  fraction_part s = (f, sc, r, post) → (String.length r <= String.length s)%nat.
Proof.
  destruct s as [|c s]; simpl; [by intros [= _ _ <- _] |].
  destruct (is_dot c); [| intros [= _ _ <- _]; simpl; lia].
  unfold leadingFraction.
  pose proof (leadingFraction_aux_length 0 (float_of_Z 1) false s) as Hl.
  destruct (leadingFraction_aux _ _ _ _) as [[f' sc'] r'].
  intros [= _ _ <- _]. simpl in *. lia.
Qed.

Lemma span_unit_length (s u r : string) :
  span_unit s = (u, r) → (String.length u + String.length r = String.length s)%nat.
Proof.
  revert u r. induction s as [|c s IH]; intros u r; simpl; [by intros [= <- <-] |].
  destruct (is_dot c || is_digit c); [by intros [= <- <-] |].
  destruct (span_unit s) as [u' r'] eqn:E. intros [= <- <-].
  simpl. specialize (IH _ _ eq_refl). lia.
Qed.

(** Each round of the component loop consumes at least one byte. *)
Lemma parse_component_shorter (orig : string) (d d' : Z) (c : ascii) (s s' : string) :
  parse_component orig d (String c s) = StepNext d' s' →
  (String.length s' < String.length (String c s))%nat.
Proof.
  unfold parse_component.
  destruct (negb _); [discriminate |].
  destruct (leadingInt _) as [[v s1]|] eqn:Hi; [| discriminate].
  apply leadingInt_aux_length in Hi.
  destruct (fraction_part s1) as [[[f sc] s2] post] eqn:Hf.
  apply fraction_part_length in Hf.
  destruct (negb _); [discriminate |].
  destruct (span_unit s2) as [u s3] eqn:Hs.
  apply span_unit_length in Hs.
  destruct (String.eqb_spec u ""); [discriminate |].
  destruct u as [|cu u]; [done |]. simpl in Hs.
  destruct (unitMap _); [| discriminate].
  destruct (component_value _ _ _ _ _); [| discriminate].
  destruct (_ <? _); [discriminate |].
  intros [= _ <-]. lia.
Qed.

(** The component accumulator stays in [[0, 2^63]]. *)
Lemma parse_component_bound (orig : string) (d d' : Z) (s s' : string) :
  (0 <= d <= 2 ^ 63) → parse_component orig d s = StepNext d' s' → (0 <= d' <= 2 ^ 63).
Proof.
  intros Hd. unfold parse_component. destruct s as [|c s]; [by intros [= <- _] |].
  repeat match goal with
         | |- context [match ?x with _ => _ end] => destruct x eqn:?
         end; try discriminate.
  intros [= <- _]. unfold wrap_u64 in *.
  pose proof (Z.mod_pos_bound (d + a) (2 ^ 64)). lia.
Qed.

(** Fuel: any amount at least the length of the input gives the same
    result, so [ParseDuration]'s choice never runs out. *)
Lemma parse_components_fuel (n m : nat) (orig : string) (d : Z) (s : string) :
  (String.length s <= n)%nat → (String.length s <= m)%nat →
  parse_components n orig d s = parse_components m orig d s.
Proof.
  revert m d s. induction n as [|n IH]; intros m d s Hn Hm.
  - destruct s; simpl in *; [by destruct m | lia].
  - destruct s as [|c s]; [by destruct m |].
    destruct m as [|m]; simpl in Hm; [lia |]. cbn [parse_components].
    destruct (parse_component orig d (String c s)) as [e|d' s'] eqn:E; [done |].
    apply parse_component_shorter in E. simpl in *. apply IH; lia.
Qed.

Lemma parse_components_bound (n : nat) (orig : string) (d r : Z) (s : string) :
  (0 <= d <= 2 ^ 63) → parse_components n orig d s = Ok r → (0 <= r <= 2 ^ 63).
Proof.
  revert d s. induction n as [|n IH]; intros d s Hd; destruct s as [|c s];
    cbn [parse_components]; try (by intros [= <-]); try discriminate.
  destruct (parse_component orig d (String c s)) as [e|d' s'] eqn:E; [discriminate |].
  apply parse_component_bound in E; [| done]. apply IH, E.
Qed.

(** The result of [ParseDuration] is an int64. *)
Lemma ParseDuration_in_int64 (orig : string) (d : Z) :
  ParseDuration orig = Ok d → in_int64 d.
Proof.
  unfold ParseDuration, in_int64, int64_min, int64_max.
  destruct (split_sign orig) as [neg s].
  destruct (String.eqb s "0"); [intros [= <-]; lia |].
  destruct (String.eqb s ""); [discriminate |].
  destruct (parse_components _ _ _ _) as [r|e] eqn:E; [| discriminate].
  apply parse_components_bound in E; [| lia].
  destruct neg; [intros [= <-]; lia |].
  zcase; [discriminate | intros [= <-]; lia].
Qed.

Lemma digit_val_range (c : ascii) : is_digit c = true → (0 <= digit_val c <= 9).
Proof. unfold is_digit, digit_val. intros [H1%Z.leb_le H2%Z.leb_le]%andb_prop. lia. Qed.

Lemma decimal_value_ge (acc : Z) (s : string) :
  all_digits s = true → (0 <= acc) → (acc <= decimal_value acc s).
Proof.
  revert acc. induction s as [|c s IH]; intros acc; simpl; [lia |].
  intros [Hc Hs]%andb_prop Hacc. pose proof (digit_val_range c Hc).
  etrans; [| apply IH; [done | lia]]; lia.
Qed.

(** [leadingInt] reads a numeral whose value fits. *)
Lemma leadingInt_aux_numeral (x : Z) (ds rest : string) :
  all_digits ds = true → (0 <= x) → (decimal_value x ds <= 2 ^ 63) →
  starts_non_digit rest = true →
  leadingInt_aux x (ds ++ rest) = Some (decimal_value x ds, rest).
Proof.
  revert x. induction ds as [|c ds IH]; intros x; simpl.
  - intros _ _ _. destruct rest as [|c r]; [done |]. simpl.
    by intros ->%negb_true_iff.
  - intros [Hc Hds]%andb_prop Hx Hv Hr. rewrite Hc. simpl.
    pose proof (digit_val_range c Hc).
    pose proof (decimal_value_ge (x * 10 + digit_val c) ds Hds ltac:(lia)).
    destruct (Z.ltb_spec (2 ^ 63 / 10) x); [int_lia |].
    destruct (Z.ltb_spec (2 ^ 63) (x * 10 + digit_val c)); [int_lia |].
    apply IH; auto with lia.
Qed.

Lemma unitMap_Some (u : string) (k : Z) :
  unitMap u = Some k →
  (u = "ns" ∧ k = Nanosecond) ∨ (u = "us" ∧ k = Microsecond) ∨
  (u = "µs" ∧ k = Microsecond) ∨ (u = "μs" ∧ k = Microsecond) ∨
  (u = "ms" ∧ k = Millisecond) ∨ (u = "s" ∧ k = Second) ∨
  (u = "m" ∧ k = Minute) ∨ (u = "h" ∧ k = Hour).
Proof.
  unfold unitMap.
  repeat match goal with
         | |- context [String.eqb u ?l] => destruct (String.eqb_spec u l)
         end; intros [=]; subst; tauto.
Qed.

(** What a unit name, followed by the next component, looks like to
    the scanners. *)
Lemma unit_scan (u rest : string) (k : Z) :
  unitMap u = Some k → starts_digit_or_end rest = true →
  starts_non_digit (u ++ rest) = true ∧
  fraction_part (u ++ rest) = (0, float_of_Z 1, (u ++ rest)%string, false) ∧
  span_unit (u ++ rest) = (u, rest) ∧ String.eqb u "" = false ∧ (0 < k) ∧
  (String.length u > 0)%nat.
Proof.
  intros H Hr. apply unitMap_Some in H.
  assert (Hs : span_unit rest = (EmptyString, rest)).
  { destruct rest as [|c r]; [done |]. simpl in Hr. simpl. by rewrite Hr, orb_true_r. }
  destruct_or! H; destruct H as [-> ->]; go_app; cbn [span_unit]; rewrite ?Hs;
    repeat split; first [reflexivity | simpl; lia].
Qed.

(** One component [<numeral><unit>] read by the loop, with the total so
    far [d] and the components after it. *)
Lemma parse_component_int (orig ds u rest : string) (d k : Z) :
  all_digits ds = true → ds ≠ EmptyString → unitMap u = Some k →
  starts_digit_or_end rest = true → (0 <= d) →
  (d + decimal_value 0 ds * k <= 2 ^ 63) →
  parse_component orig d (ds ++ u ++ rest) = StepNext (d + decimal_value 0 ds * k) rest.
Proof.
  intros Hds Hne Hu Hr Hd Hv.
  destruct (unit_scan u rest k Hu Hr) as (Hstart & Hfrac & Hspan & Hempty & Hk & Hlen).
  pose proof (decimal_value_ge 0 ds Hds ltac:(lia)).
  assert (decimal_value 0 ds <= 2 ^ 63).
  { destruct (Z.eq_dec (decimal_value 0 ds) 0); [lia | nia]. }
  assert (Hint : leadingInt (ds ++ (u ++ rest)) = Some (decimal_value 0 ds, (u ++ rest)%string)).
  { apply leadingInt_aux_numeral; auto with lia. }
  destruct ds as [|c ds']; [done |].
  simpl in Hds. apply andb_prop in Hds as [Hc _].
  unfold parse_component. rewrite Hint.
  change (String c ds' ++ (u ++ rest))%string with (String c (ds' ++ (u ++ rest))). cbn beta iota.
  rewrite Hc, orb_true_r. cbn [negb].
  rewrite Hfrac. cbn beta iota zeta.
  cbn [String.length]. rewrite !string_length_app.
  destruct (Nat.eqb_spec (String.length u + String.length rest)
              (S (String.length ds' + (String.length u + String.length rest)))); [lia |].
  cbn [negb orb]. rewrite Hspan, Hempty, Hu. unfold component_value.
  destruct (Z.ltb_spec (2 ^ 63 / k) (decimal_value 0 (String c ds'))).
  { pose proof (Z.div_le_lower_bound (2 ^ 63) k (decimal_value 0 (String c ds'))). nia. }
  cbn [Z.ltb Z.compare]. unfold wrap_u64. rewrite Z.mod_small by int_lia.
  by destruct (Z.ltb_spec (2 ^ 63) (d + decimal_value 0 (String c ds') * k)); [lia |].
Qed.

(** A lone component. *)
Lemma parse_component_numeral (orig ds u : string) (k : Z) :
  all_digits ds = true → ds ≠ EmptyString → unitMap u = Some k →
  (decimal_value 0 ds * k <= 2 ^ 63) →
  parse_component orig 0 (ds ++ u) = StepNext (decimal_value 0 ds * k) EmptyString.
Proof.
  intros. rewrite <- (string_app_nil_r u), (parse_component_int orig ds u EmptyString 0 k);
    by (done || lia).
Qed.

Lemma parse_components_numeral (n : nat) (orig ds u : string) (k : Z) :
  all_digits ds = true → ds ≠ EmptyString → unitMap u = Some k →
  (decimal_value 0 ds * k <= 2 ^ 63) → (1 <= n)%nat →
  parse_components n orig 0 (ds ++ u) = Ok (decimal_value 0 ds * k).
Proof.
  intros Hds Hne Hu Hv Hn. destruct n as [|n]; [lia |].
  destruct ds as [|c ds']; [done |].
  change (String c ds' ++ u)%string with (String c (ds' ++ u)). cbn [parse_components].
  change (String c (ds' ++ u)) with (String c ds' ++ u)%string.
  rewrite (parse_component_numeral orig _ u k) by done. by destruct n.
Qed.

Lemma split_sign_digit (c : ascii) (s : string) :
  is_digit c = true → split_sign (String c s) = (false, String c s).
Proof.
  unfold split_sign. intros Hc.
  destruct (Ascii.eqb_spec c "-"); [subst; discriminate |].
  by destruct (Ascii.eqb_spec c "+"); [subst; discriminate |].
Qed.

Lemma split_sign_minus (s : string) : split_sign (String "-" s) = (true, s).
Proof. reflexivity. Qed.

Lemma numeral_unit_shape (ds u : string) (k : Z) :
  all_digits ds = true → ds ≠ EmptyString → unitMap u = Some k →
  (∃ c s, (ds ++ u)%string = String c s ∧ is_digit c = true) ∧
  String.eqb (ds ++ u) "0" = false ∧ String.eqb (ds ++ u) "" = false ∧
  (1 <= String.length (ds ++ u))%nat.
Proof.
  intros Hds Hne Hu. destruct (unit_scan u EmptyString k Hu eq_refl) as (_ & _ & _ & _ & _ & Hlen).
  destruct ds as [|c ds']; [done |]. simpl in Hds. apply andb_prop in Hds as [Hc _].
  assert (Hl : (2 <= String.length (String c ds' ++ u))%nat).
  { change (String c ds' ++ u)%string with (String c (ds' ++ u)). cbn [String.length]. rewrite string_length_app. lia. }
  split_and!; [by eexists _, _ | | | lia];
    (destruct (String.eqb_spec (String c ds' ++ u) "0"), (String.eqb_spec (String c ds' ++ u) "");
     try done; exfalso; match goal with H : _ = _ |- _ => rewrite H in Hl; simpl in Hl; lia end).
Qed.

(** ** Timestamps *)

(** [time.Unix] keeps the instant: only the split into seconds and
    nanoseconds changes. *)
Lemma Unix_total (s n : Z) : sec (Unix s n) * 1000000000 + nsec (Unix s n) = s * 1000000000 + n.
Proof. unfold Unix. destruct (_ || _); [| done]. cbv zeta. destruct (_ <? 0); simpl; lia. Qed.


(** [model.Time.Time] then [Time.Sub]: the difference of two millisecond
    timestamps, in nanoseconds, saturated to the int64 range. *)
Lemma Sub_Time (a b : Z) : Sub (Time a) (Time b) = clamp_int64 ((a - b) * Millisecond).
Proof.
  unfold Sub, Time. f_equal.
  pose proof (Unix_total (Z.quot a 1000) (Z.rem a 1000 * 1000000)).
  pose proof (Unix_total (Z.quot b 1000) (Z.rem b 1000 * 1000000)).
  pose proof (Z.quot_rem' a 1000). pose proof (Z.quot_rem' b 1000).
  unfold Second, Millisecond, Microsecond, Nanosecond. lia.
Qed.

(** Away from the int64 bounds, [addSec] moves the seconds by [d]. *)
Lemma addSec_exact (t : GoTime) (d : Z) :
  in_int64 (sec t + unixToInternal) → in_int64 (sec t + unixToInternal + d) →
  addSec t d = mkTime (sec t + d) (nsec t).
Proof.
  intros Ht Hd. unfold addSec. rewrite wrap_i64_id by done.
  destruct (Z.ltb_spec (sec t + unixToInternal) (sec t + unixToInternal + d)),
           (Z.ltb_spec 0 d); simpl; try lia; f_equal; lia.
Qed.

(** [Time.Add] adds [d] to the instant and keeps the nanoseconds in range. *)
Lemma Add_instant (t : GoTime) (d : Z) :
  valid_time t → addable t d →
  instant (Add t d) = instant t + d ∧ valid_time (Add t d).
Proof.
  unfold valid_time, addable, instant, Add. intros Hv Ha.
  pose proof (Z.quot_rem' d 1000000000) as Hqr.
  pose proof (Z.rem_bound_abs d 1000000000 ltac:(lia)) as Hr.
  pose proof (Z.abs_nonneg (sec t + unixToInternal)).
  repeat zcase; cbv zeta; rewrite addSec_exact; simpl; (split; [lia | lia]) || int_lia.
Qed.

(** [Before] compares the instants. *)
Lemma Before_instant (t u : GoTime) :
  valid_time t → valid_time u → Before t u = (instant t <? instant u).
Proof.
  unfold valid_time, instant, Before. intros Ht Hu.
  repeat zcase; simpl; lia.
Qed.

(** A numeral followed by a unit reads as the numeral times the unit. *)
Theorem ParseDuration_numeral_unit (ds u : string) (k : Z) :
  all_digits ds = true → ds ≠ EmptyString → unitMap u = Some k →
  (decimal_value 0 ds * k <= int64_max) →
  ParseDuration (ds ++ u) = Ok (decimal_value 0 ds * k).
Proof.
  intros Hds Hne Hu Hv. unfold int64_max in Hv.
  destruct (numeral_unit_shape ds u k Hds Hne Hu) as ((c & s & Hcs & Hc) & H0 & He & Hl).
  unfold ParseDuration. rewrite Hcs, split_sign_digit, <- Hcs, H0, He by done.
  rewrite (parse_components_numeral _ _ ds u k) by (done || lia).
  by destruct (Z.ltb_spec (2 ^ 63 - 1) (decimal_value 0 ds * k)); [lia |].
Qed.

(** With a leading ['-'] the same numeral reads negated, down to -2^63. *)
Theorem ParseDuration_neg_numeral_unit (ds u : string) (k : Z) :
  all_digits ds = true → ds ≠ EmptyString → unitMap u = Some k →
  (decimal_value 0 ds * k <= - int64_min) →
  ParseDuration (String "-" (ds ++ u)) = Ok (- (decimal_value 0 ds * k)).
Proof.
  intros Hds Hne Hu Hv. unfold int64_min in Hv.
  destruct (numeral_unit_shape ds u k Hds Hne Hu) as (_ & H0 & He & Hl).
  unfold ParseDuration. rewrite split_sign_minus. cbv beta iota. rewrite H0, He.
  by rewrite (parse_components_numeral _ _ ds u k) by (done || lia).
Qed.


(** ** Witnesses *)

Lemma ParseDuration_numeral_unit_witness : ParseDuration "15m" = Ok 900000000000.
Proof.
  apply (ParseDuration_numeral_unit "15" "m" Minute);
    [reflexivity | discriminate | reflexivity | unfold int64_max; vm_compute; discriminate].
Defined.

Lemma ParseDuration_neg_numeral_unit_witness :
  ParseDuration "-9223372036854775808ns" = Ok (-9223372036854775808).
Proof.
  apply (ParseDuration_neg_numeral_unit "9223372036854775808" "ns" Nanosecond);
    [reflexivity | discriminate | reflexivity | unfold int64_min; vm_compute; discriminate].
Defined.

Lemma ParseDuration_in_int64_witness : in_int64 (-9223372036854775808).
Proof. apply (ParseDuration_in_int64 "-9223372036854775808ns"). vm_compute. reflexivity. Defined.

Lemma parse_components_fuel_witness :
  parse_components 5 "1h30m" 0 "1h30m" = parse_components 100 "1h30m" 0 "1h30m".
Proof. apply parse_components_fuel; simpl; lia. Defined.

End Duration.
