(* ===== verification/Format.v ===== *)
(** * Printing durations and duration errors

    [time.Duration.String] of Go's standard library, which the text
    reporter (src/internal/report/report.go) and the window check of
    [config.Load] (src/internal/config/config.go) print, with its helpers
    [fmtFrac] and [fmtInt]; and the [Error] text of the errors
    [time.ParseDuration] returns, with the [quote] of [time/format.go].
    The standard library is not code of this repository: these follow
    Go's [time/time.go] and [time/format.go].  Go writes the digits into
    the tail of a 32-byte buffer from right to left; here each byte is
    prepended to the string built so far. *)

From S2P Require Import Prelude Duration.

Local Open Scope Z_scope.

Module Format.

Import Duration.

(** The ASCII digit of [0 <= d <= 9]. *)
Definition digit_char (d : Z) : ascii := ascii_of_nat (Z.to_nat d + 48).

(** [fmtFrac(buf, v, prec)]: the [prec] low decimal digits of [v] as a
    fraction [.ddd] without its trailing zeros (nothing when they are all
    zero), and [v / 10^prec]. *)
Fixpoint fmtFrac_loop (prec : nat) (v : Z) (print : bool) (buf : string) : string * Z * bool :=
  match prec with
  | O => (buf, v, print)
  | S p =>
      let digit := v mod 10 in
      let print := print || negb (digit =? 0) in
      let buf := if print then String (digit_char digit) buf else buf in
      fmtFrac_loop p (v / 10) print buf
  end.

Definition fmtFrac (v : Z) (prec : nat) : string * Z :=
  let '(buf, v, print) := fmtFrac_loop prec v false EmptyString in
  (if print then String "." buf else buf, v).

(** [fmtInt(buf, v)]: the decimal numeral of [v].  Go loops while
    [v > 0]; a uint64 has at most 20 digits, the fuel given
    ([fmtInt_fuel] shows it is enough). *)
Fixpoint fmtInt_loop (fuel : nat) (v : Z) (buf : string) : string :=
  match fuel with
  | O => buf
  | S f => if v <=? 0 then buf else fmtInt_loop f (v / 10) (String (digit_char (v mod 10)) buf)
  end.

Definition fmtInt (v : Z) : string :=
  if v =? 0 then "0" else fmtInt_loop 20 v EmptyString.

(** [Duration.String]: ["72h3m0.5s"], ["1.5ms"], ["0s"].  [u] is
    [uint64(d)], negated when [d < 0] (so [-2^63] prints as [2^63]). *)
Definition DurationString (d : Z) : string :=
  let neg := d <? 0 in
  let u := Z.abs d in
  let body :=
    if u <? Second then
      if u =? 0 then "0s"
      else
        let '(prec, unit) :=
          if u <? Microsecond then (0%nat, "ns")
          else if u <? Millisecond then (3%nat, "µs")
          else (6%nat, "ms") in
        let '(frac, u) := fmtFrac u prec in
        fmtInt u +:+ frac +:+ unit
    else
      let '(frac, u) := fmtFrac u 9 in
      let secs := fmtInt (u mod 60) +:+ frac +:+ "s" in
      let u := u / 60 in
      if 0 <? u then
        let mins := fmtInt (u mod 60) +:+ "m" +:+ secs in
        let u := u / 60 in
        if 0 <? u then fmtInt u +:+ "h" +:+ mins else mins
      else secs in
  if neg then String "-" body else body.

(** ** Error texts of [time.ParseDuration] *)

Definition lowerhex (n : Z) : ascii :=
  if n <? 10 then digit_char n else ascii_of_nat (Z.to_nat n + 87).

(** [time.quote]: between double quotes, with the double quote and the
    backslash escaped by a backslash, and every byte of a control or
    non-ASCII character written [\xHH]. *)
Fixpoint quote_bytes (s : string) : string :=
  match s with
  | EmptyString => EmptyString
  | String c s' =>
      let b := byte_val c in
      if (b <? 32) || (128 <=? b) then
        String "\" (String "x" (String (lowerhex (b / 16)) (String (lowerhex (b mod 16)) (quote_bytes s'))))
      else if (b =? 34) || (b =? 92) then String "\" (String c (quote_bytes s'))
      else String c (quote_bytes s')
  end.

Definition dq : ascii := "034".

Definition quote (s : string) : string := String dq (quote_bytes s +:+ String dq EmptyString).

(** [err.Error()] of each error [ParseDuration] returns. *)
Definition DurationError_Error (e : DurationError) : string :=
  match e with
  | InvalidDuration orig => "time: invalid duration " +:+ quote orig
  | MissingUnit orig => "time: missing unit in duration " +:+ quote orig
  | UnknownUnit u orig => "time: unknown unit " +:+ quote u +:+ " in duration " +:+ quote orig
  end.

(** ** Lemmas *)

Lemma digit_char_spec (n : Z) :
  0 <= n < 10 → is_digit (digit_char n) = true ∧ digit_val (digit_char n) = n.
Proof.
  intros Hn. unfold digit_char, is_digit, digit_val, byte_val, ascii_of_nat.
  rewrite Ascii.N_ascii_embedding by lia.
  rewrite nat_N_Z, Nat2Z.inj_add, Z2Nat.id by lia.
  split; [apply andb_true_iff; split; apply Z.leb_le |]; lia.
Qed.

Lemma decimal_value_app (acc : Z) (s t : string) :
  decimal_value acc (s +:+ t) = decimal_value (decimal_value acc s) t.
Proof. revert acc. induction s as [|c s IH]; intros acc; [done |]. apply IH. Qed.

Lemma all_digits_app (s t : string) : all_digits (s +:+ t) = all_digits s && all_digits t.
Proof. induction s as [|c s IH]; [done |]. simpl. rewrite IH. apply andb_assoc. Qed.

(** A numeral's value from an accumulator. *)
Lemma decimal_value_acc (acc : Z) (s : string) :
  decimal_value acc s = acc * 10 ^ Z.of_nat (String.length s) + decimal_value 0 s.
Proof.
  revert acc. induction s as [|c s IH]; intros acc; simpl; [lia |].
  rewrite (IH (acc * 10 + digit_val c)), (IH (0 * 10 + digit_val c)).
  rewrite Nat2Z.inj_succ, Z.pow_succ_r by lia. ring.
Qed.

(** A numeral of [n] digits is below [10^n]. *)
Lemma decimal_value_lt (s : string) :
  all_digits s = true → 0 <= decimal_value 0 s < 10 ^ Z.of_nat (String.length s).
Proof.
  induction s as [|c s IH]; simpl; [lia |]. intros [Hc Hs]%andb_prop.
  rewrite decimal_value_acc. pose proof (digit_val_range c Hc). specialize (IH Hs).
  rewrite Nat2Z.inj_succ, Z.pow_succ_r by lia. nia.
Qed.

(** [fmtInt]'s loop prepends the decimal digits of [v], given enough fuel. *)
Lemma fmtInt_loop_spec (fuel : nat) (v : Z) (buf : string) :
  0 <= v < 10 ^ Z.of_nat fuel →
  ∃ ds, fmtInt_loop fuel v buf = ds +:+ buf ∧ all_digits ds = true ∧
        decimal_value 0 ds = v ∧ (0 < v → ds ≠ EmptyString).
Proof.
  revert v buf. induction fuel as [|f IH]; intros v buf Hv; simpl.
  - assert (v = 0) as -> by (cbn in Hv; lia). exists EmptyString. split_and!; [done | done | done | intros; lia].
  - destruct (Z.leb_spec v 0).
    + exists EmptyString. split_and!; [done | done | cbn; lia | intros; lia].
    + rewrite Nat2Z.inj_succ, Z.pow_succ_r in Hv by lia.
      destruct (IH (v / 10) (String (digit_char (v mod 10)) buf)) as (ds & -> & Hd & Hval & _).
      { split; [apply Z.div_pos | apply Z.div_lt_upper_bound]; lia. }
      destruct (digit_char_spec (v mod 10)) as [Hc Hcv]; [apply Z.mod_pos_bound; lia |].
      exists (ds +:+ String (digit_char (v mod 10)) EmptyString).
      rewrite string_app_assoc, all_digits_app, decimal_value_app, Hd. simpl.
      rewrite Hc, Hval, Hcv. split_and!; [done | done | pose proof (Z.div_mod v 10 ltac:(lia)); lia |].
      intros _ Hnil. by destruct ds.
Qed.

(** [fmtInt] writes a non-empty numeral of [v], for [0 <= v < 10^20]. *)
Lemma fmtInt_spec (v : Z) :
  0 <= v < 10 ^ 20 →
  all_digits (fmtInt v) = true ∧ decimal_value 0 (fmtInt v) = v ∧ fmtInt v ≠ EmptyString.
Proof.
  intros Hv. unfold fmtInt. destruct (Z.eqb_spec v 0) as [->|Hne]; [done |].
  destruct (fmtInt_loop_spec 20 v EmptyString) as (ds & -> & Hd & Hval & Hne'); [done |].
  rewrite string_app_nil_r. split_and!; [done | done | apply Hne'; lia].
Qed.

(** Arithmetic of one decimal digit more. *)
Lemma mod_pow10_succ (v : Z) (n : nat) :
  0 <= v → v mod 10 ^ Z.of_nat (S n) = v mod 10 + 10 * ((v / 10) mod 10 ^ Z.of_nat n).
Proof.
  intros Hv. rewrite Nat2Z.inj_succ, Z.pow_succ_r by lia.
  assert (HP : 0 < 10 ^ Z.of_nat n) by (apply Z.pow_pos_nonneg; lia).
  set (P := 10 ^ Z.of_nat n) in *.
  pose proof (Z.div_mod v 10 ltac:(lia)). pose proof (Z.mod_pos_bound v 10 ltac:(lia)).
  pose proof (Z.div_mod (v / 10) P ltac:(lia)). pose proof (Z.mod_pos_bound (v / 10) P HP).
  symmetry. apply Z.mod_unique with (q := v / 10 / P); [left |]; nia.
Qed.

Lemma div_pow10_succ (v : Z) (n : nat) : v / 10 ^ Z.of_nat (S n) = v / 10 / 10 ^ Z.of_nat n.
Proof.
  rewrite Nat2Z.inj_succ, Z.pow_succ_r, Z.div_div by (lia || apply Z.pow_pos_nonneg; lia).
  done.
Qed.

(** Once a digit was printed, [fmtFrac] writes all the remaining ones. *)
Lemma fmtFrac_loop_print (n : nat) (v : Z) (buf : string) :
  0 <= v →
  ∃ ds, fmtFrac_loop n v true buf = (ds +:+ buf, v / 10 ^ Z.of_nat n, true) ∧
        all_digits ds = true ∧ String.length ds = n ∧ decimal_value 0 ds = v mod 10 ^ Z.of_nat n.
Proof.
  revert v buf. induction n as [|n IH]; intros v buf Hv; simpl.
  - exists EmptyString. split_and!; try done. by rewrite Z.div_1_r. by rewrite Z.mod_1_r.
  - destruct (IH (v / 10) (String (digit_char (v mod 10)) buf)) as (ds & -> & Hd & Hl & Hval);
      [apply Z.div_pos; lia |].
    destruct (digit_char_spec (v mod 10)) as [Hc Hcv]; [apply Z.mod_pos_bound; lia |].
    exists (ds +:+ String (digit_char (v mod 10)) EmptyString).
    rewrite string_app_assoc, all_digits_app, decimal_value_app, string_length_app, Hd, Hl.
    cbn. rewrite Hc, Hval, Hcv, mod_pow10_succ, <- div_pow10_succ by done.
    split_and!; [done | done | lia | lia].
Qed.

(** [fmtFrac]'s loop from the start: nothing when the [n] low digits are
    zero, else the digits down to the last non-zero one, with its value
    and its count. *)
Lemma fmtFrac_loop_spec (n : nat) (v : Z) (buf : string) :
  0 <= v →
  ∃ out, fmtFrac_loop n v false buf = out ∧ out.1.2 = v / 10 ^ Z.of_nat n ∧
  ((out.2 = false ∧ out.1.1 = buf ∧ v mod 10 ^ Z.of_nat n = 0) ∨
   (out.2 = true ∧ ∃ ds, out.1.1 = ds +:+ buf ∧ all_digits ds = true ∧
      (1 <= String.length ds <= n)%nat ∧
      decimal_value 0 ds * 10 ^ Z.of_nat (n - String.length ds) = v mod 10 ^ Z.of_nat n ∧
      decimal_value 0 ds mod 10 ≠ 0)).
Proof.
  revert v buf. induction n as [|n IH]; intros v buf Hv; simpl.
  - eexists. split; [reflexivity |]. cbn. rewrite Z.div_1_r, Z.mod_1_r. split; [done | by left].
  - rewrite div_pow10_succ, mod_pow10_succ by done.
    pose proof (Z.mod_pos_bound v 10 ltac:(lia)) as Hm.
    destruct (Z.eqb_spec (v mod 10) 0) as [H0|H0]; cbn [negb orb].
    + destruct (IH (v / 10) buf) as (out & -> & Hv' & [(Hp & Hb & Hz) | (Hp & ds & Hb & Hd & Hl & Hval & Hlast)]);
        [apply Z.div_pos; lia | |]; eexists; (split; [reflexivity |]).
      * split; [done |]. left. split_and!; [done | done | lia].
      * split; [done |]. right. split; [done |]. exists ds. split_and!; [done | done | lia | lia | | done].
        rewrite Nat.sub_succ_l by lia. rewrite Nat2Z.inj_succ, Z.pow_succ_r by lia. lia.
    + destruct (fmtFrac_loop_print n (v / 10) (String (digit_char (v mod 10)) buf))
        as (ds & -> & Hd & Hl & Hval); [apply Z.div_pos; lia |].
      destruct (digit_char_spec (v mod 10)) as [Hc Hcv]; [lia |].
      eexists. split; [reflexivity |]. split; [done |]. right. split; [done |].
      exists (ds +:+ String (digit_char (v mod 10)) EmptyString).
      rewrite string_app_assoc, all_digits_app, decimal_value_app, string_length_app, Hd, Hl.
      cbn. rewrite Hc, Hval, Hcv. split_and!; [done | done | lia | lia | |].
      * replace (S n - (n + 1))%nat with 0%nat by lia. rewrite Z.pow_0_r. lia.
      * by rewrite Z.add_comm, Z_mod_plus_full, Z.mod_mod by lia.
Qed.

End Format.
