(* ===== verification/Template.v ===== *)
(** * The template engine seen by the annotation renderer

    [renderAnnotations] (src/internal/engine/engine.go) builds a data
    value with the series' labels and the sample value, parses each
    annotation with [template.New("validity").Parse] and executes it with
    [Execute].  The renderer depends only on this contract, stated here
    as the class [TemplateEngine]: a parser that returns a tree or a
    parse error, an executor that returns the output or an execution
    error, and the [%v] printing of both errors.  [TextTemplate] gives an
    instance modelling the fragment of Go's [text/template] that alert
    annotations use. *)

From S2P Require Import Prelude.
From Stdlib Require Import SpecFloat.

Module Template.

(** The anonymous struct of [renderAnnotations]:
    [struct { Labels map[string]string; Value float64 }]. *)
Record TemplateData : Type := mkData {
  Labels : gmap string string;
  Value : spec_float
}.

(** What [text/template] promises to the renderer. *)
Class TemplateEngine : Type := {
  tmpl_tree : Type;
  tmpl_parse_error : Type;
  tmpl_exec_error : Type;
  (** [template.New("validity").Parse(text)] *)
  tmpl_parse : string → result tmpl_tree tmpl_parse_error;
  (** [tmpl.Execute(&buf, data)]: the text written, or the error. *)
  tmpl_execute : tmpl_tree → TemplateData → result string tmpl_exec_error;
  (** [fmt.Sprintf("%v", err)] of each kind of error. *)
  show_parse_error : tmpl_parse_error → string;
  show_exec_error : tmpl_exec_error → string
}.

End Template.
