(* ===== verification/TextTemplate.v ===== *)
(** * Go's text/template on the fragment of alert annotations

    An instance of [TemplateEngine] modelling Go's [text/template]
    (not code of this repository: modelled from its documented
    behaviour, [text/template/parse/lex.go], [parse.go] and [exec.go]) on
    the templates alert annotations are written in: text, comments,
    trim markers, and actions that print or declare an operand [.],
    [.F1.F2...], [$x] or [$x.F1...].  Inside the fragment the parser
    reports Go's errors (unclosed action or comment, undefined variable,
    undefined function, empty command); a template that uses anything
    else (literals, pipelines, function calls, control structures) parses
    to [PUnsupported], on which the model claims nothing.

    Execution follows [exec.go]: a field of the data struct, a key of a
    [map[string]string] (a missing key is the invalid value, printed
    [<no value>]), and the error "can't evaluate field" on a string or a
    float.  Values print as [fmt.Fprint] prints them; the printing of a
    [float64] is the parameter [fmt_float]. *)

From S2P Require Import Prelude Template.
From stdpp Require Import pretty sorting.
From Stdlib Require Import SpecFloat.
Import Template.

Local Open Scope Z_scope.
Local Open Scope go_scope.

Module TextTemplate.

(** ** Bytes *)

Definition is_space (c : ascii) : bool :=
  Ascii.eqb c " " || Ascii.eqb c "009" || Ascii.eqb c "013" || Ascii.eqb c "010".

Definition is_alnum (c : ascii) : bool :=
  let n := Ascii.nat_of_ascii c in
  ((48 <=? n) && (n <=? 57))%nat || ((65 <=? n) && (n <=? 90))%nat ||
  ((97 <=? n) && (n <=? 122))%nat || Ascii.eqb c "_".

Definition nl : ascii := "010".

(** ** Splitting into text, actions and comments *)

(** The lexical errors of the fragment. *)
Inductive lex_error : Type :=
| UnclosedAction
| UnclosedComment
| CommentEndsBeforeDelim.

(** A piece of the template: text, or the inside of an action with the
    byte offset and line where it starts. *)
Inductive piece : Type :=
| PText (s : string)
| PAction (content : string) (pos line : Z).

Inductive split_mode : Type :=
| SText (buf : string)                     (** text read so far, reversed *)
| SAction (buf : string) (pos line : Z)    (** action content, reversed *)
| SComment.                                (** inside [/* ... */] *)

Fixpoint string_rev_app (s acc : string) : string :=
  match s with
  | EmptyString => acc
  | String c s' => string_rev_app s' (String c acc)
  end.

Definition string_rev (s : string) : string := string_rev_app s EmptyString.

(** [rightTrimLength]: drop trailing white space (on the reversed buffer,
    the leading one). *)
Fixpoint drop_spaces (s : string) : string :=
  match s with
  | String c s' => if is_space c then drop_spaces s' else s
  | EmptyString => EmptyString
  end.

Definition emit_text (rbuf : string) (acc : list piece) : list piece :=
  match rbuf with
  | EmptyString => acc
  | _ => PText (string_rev rbuf) :: acc
  end.

(** Whether [s] starts with the byte [c]. *)
Definition starts (c : ascii) (s : string) : bool :=
  match s with String c' _ => Ascii.eqb c' c | EmptyString => false end.

Definition starts_space (s : string) : bool :=
  match s with String c _ => is_space c | EmptyString => false end.

Definition next_line (c : ascii) (line : Z) : Z := if Ascii.eqb c nl then line + 1 else line.

(** The lexer's delimiter handling, byte by byte: [pos] is the offset of
    the head of [s], [line] its line, [trimR] whether the text that
    follows loses its leading spaces ([" -}}"]).  The result lists the
    pieces in reverse. *)
Fixpoint split_pieces (s : string) (mode : split_mode) (pos line : Z) (trimR : bool)
    (acc : list piece) : result (list piece) (lex_error * Z) :=
  match s with
  | EmptyString =>
      match mode with
      | SText buf => Ok (emit_text buf acc)
      | SAction _ _ _ => Err (UnclosedAction, line)
      | SComment => Err (UnclosedComment, line)
      end
  | String c rest =>
      match mode with
      | SText buf =>
          if Ascii.eqb c "{" && starts "{" rest then
            match rest with
            | String _ r1 =>
                (** after ["{{"]: a trim marker ["- "], then a comment or an action *)
                match r1 with
                | String "-" ((String c2 r2) as r1') =>
                    if is_space c2 then
                      match r2 with
                      | String "/" (String "*" r3) =>
                          split_pieces r3 SComment (pos + 6) line false (emit_text (drop_spaces buf) acc)
                      | _ => split_pieces r2 (SAction EmptyString (pos + 4) line) (pos + 4) line false
                               (emit_text (drop_spaces buf) acc)
                      end
                    else split_pieces r1 (SAction EmptyString (pos + 2) line) (pos + 2) line false
                           (emit_text buf acc)
                | String "/" (String "*" r3) =>
                    split_pieces r3 SComment (pos + 4) line false (emit_text buf acc)
                | _ => split_pieces r1 (SAction EmptyString (pos + 2) line) (pos + 2) line false
                         (emit_text buf acc)
                end
            | EmptyString => Ok (emit_text buf acc)
            end
          else if trimR && is_space c then
            split_pieces rest (SText buf) (pos + 1) (next_line c line) true acc
          else split_pieces rest (SText (String c buf)) (pos + 1) (next_line c line) false acc
      | SAction buf p l =>
          if is_space c && String.prefix "-}}" rest then
            match rest with
            | String _ (String _ (String _ r3)) =>
                split_pieces r3 (SText EmptyString) (pos + 4) (next_line c line) true
                  (PAction (string_rev buf) p l :: acc)
            | _ => Err (UnclosedAction, line)
            end
          else if Ascii.eqb c "}" && starts "}" rest then
            match rest with
            | String _ r2 =>
                split_pieces r2 (SText EmptyString) (pos + 2) line false
                  (PAction (string_rev buf) p l :: acc)
            | EmptyString => Err (UnclosedAction, line)
            end
          else split_pieces rest (SAction (String c buf) p l) (pos + 1) (next_line c line) false acc
      | SComment =>
          if Ascii.eqb c "*" && starts "/" rest then
            match rest with
            | String _ r1 =>
                if String.prefix "}}" r1 then
                  match r1 with
                  | String _ (String _ r3) => split_pieces r3 (SText EmptyString) (pos + 4) line false acc
                  | _ => Err (CommentEndsBeforeDelim, line)
                  end
                else if starts_space r1 && String.prefix "-}}" (String.substring 1 3 r1) then
                  match r1 with
                  | String _ (String _ (String _ (String _ r5))) =>
                      split_pieces r5 (SText EmptyString) (pos + 6) line true acc
                  | _ => Err (CommentEndsBeforeDelim, line)
                  end
                else Err (CommentEndsBeforeDelim, line)
            | EmptyString => Err (UnclosedComment, line)
            end
          else split_pieces rest SComment (pos + 1) (next_line c line) false acc
      end
  end.

Definition pieces (t : string) : result (list piece) (lex_error * Z) :=
  match split_pieces t (SText EmptyString) 0 1 false [] with
  | Ok ps => Ok (rev ps)
  | Err e => Err e
  end.

(** ** Tokens of an action *)

Inductive token : Type :=
| TSpace
| TDeclare
| TVar (name : string)      (** [$x], the name with its [$] *)
| TField (name : string)    (** [.x], the name without the dot *)
| TDot
| TIdent (name : string)
| TOther.                   (** anything outside the fragment *)

(** A token and the byte offset where it starts. *)
Definition tk : Type := token * Z.

Inductive word : Type := WVar | WField | WIdent.

Definition flush (cur : option (word * string * Z)) (acc : list tk) : list tk :=
  match cur with
  | None => acc
  | Some (WVar, buf, p) => (TVar (string_rev buf), p) :: acc
  | Some (WField, EmptyString, p) => (TDot, p) :: acc
  | Some (WField, buf, p) => (TField (string_rev buf), p) :: acc
  | Some (WIdent, buf, p) => (TIdent (string_rev buf), p) :: acc
  end.

Definition is_letter (c : ascii) : bool :=
  is_alnum c && negb (let n := Ascii.nat_of_ascii c in ((48 <=? n) && (n <=? 57))%nat).

(** A byte outside a word: [:=] (which takes the next byte too), the
    start of a variable, a field or an identifier, a space, or a byte
    outside the fragment. *)
Definition byte_step (c : ascii) (rest : string) (pos : Z) (acc : list tk)
    : list tk * option (word * string * Z) * bool :=
  if Ascii.eqb c ":" && starts "=" rest then ((TDeclare, pos) :: acc, None, true)
  else if Ascii.eqb c "$" then (acc, Some (WVar, "$", pos), false)
  else if Ascii.eqb c "." then (acc, Some (WField, EmptyString, pos), false)
  else if is_letter c then (acc, Some (WIdent, String c EmptyString, pos), false)
  else ((if is_space c then TSpace else TOther, pos) :: acc, None, false).

(** [lexInsideAction] on the fragment, byte by byte; [cur] is the word
    being read. The tokens come out reversed. *)
Fixpoint tokenize (s : string) (cur : option (word * string * Z)) (pos : Z) (acc : list tk)
    : list tk :=
  match s with
  | EmptyString => flush cur acc
  | String c rest =>
      match cur with
      | Some (w, buf, p) =>
          if is_alnum c then tokenize rest (Some (w, String c buf, p)) (pos + 1) acc
          else
            let '(acc', cur', skip) := byte_step c rest pos (flush cur acc) in
            if skip then
              match rest with
              | String _ rest' => tokenize rest' cur' (pos + 2) acc'
              | EmptyString => acc'
              end
            else tokenize rest cur' (pos + 1) acc'
      | None =>
          let '(acc', cur', skip) := byte_step c rest pos acc in
          if skip then
            match rest with
            | String _ rest' => tokenize rest' cur' (pos + 2) acc'
            | EmptyString => acc'
            end
          else tokenize rest cur' (pos + 1) acc'
      end
  end.

Definition tokens (content : string) (pos : Z) : list tk :=
  List.filter (λ t, match t.1 with TSpace => false | _ => true end) (rev (tokenize content None pos [])).

(** ** Parse trees *)

(** An operand: [.F1...] from the data, or [$x.F1...]; with its offset. *)
Inductive operand : Type :=
| ODot (pos : Z) (fields : list string)
| OVar (pos : Z) (name : string) (fields : list string).

Inductive node : Type :=
| NText (s : string)
| NPrint (o : operand)
| NDecl (name : string) (o : operand).

(** The parse errors of the fragment, with their line. *)
Inductive perr_kind : Type :=
| PLex (e : lex_error)
| PUndefinedVariable (name : string)
| PFunctionNotDefined (name : string)
| PMissingValue.

Inductive parse_error : Type :=
| PError (line : Z) (k : perr_kind)
| PUnsupported.

(** The identifiers the parser knows: keywords, constants and builtins. *)
Definition known_idents : list string :=
  ["block"; "break"; "continue"; "define"; "else"; "end"; "if"; "range"; "nil";
   "template"; "with"; "true"; "false"; "and"; "call"; "html"; "index"; "slice";
   "js"; "len"; "not"; "or"; "print"; "printf"; "println"; "urlquery";
   "eq"; "ge"; "gt"; "le"; "lt"; "ne"].

(** Lines: one more than the newlines before the offset. *)
Definition line_at (text : string) (pos : Z) : Z :=
  1 + Z.of_nat (length (List.filter (λ c, Ascii.eqb c nl) (String.list_ascii_of_string
                  (String.substring 0 (Z.to_nat pos) text)))).

Fixpoint fields_of (ts : list tk) : option (list string) :=
  match ts with
  | [] => Some []
  | (TField f, _) :: ts' => f' ← fields_of ts'; Some (f :: f')
  | _ => None
  end.

(** The operand at the head of an action ([Tree.operand]). *)
Definition parse_operand (text : string) (vars : list string) (ts : list tk)
    : result operand parse_error :=
  match ts with
  | [] => Err PUnsupported
  | (TDot, p) :: [] => Ok (ODot p [])
  | (TField f, p) :: ts' =>
      match fields_of ts' with Some fs => Ok (ODot p (f :: fs)) | None => Err PUnsupported end
  | (TVar v, p) :: ts' =>
      if bool_decide (v ∈ vars) then
        match fields_of ts' with Some fs => Ok (OVar p v fs) | None => Err PUnsupported end
      else Err (PError (line_at text p) (PUndefinedVariable v))
  | (TIdent i, p) :: _ =>
      if bool_decide (i ∈ known_idents) then Err PUnsupported
      else Err (PError (line_at text p) (PFunctionNotDefined i))
  | _ => Err PUnsupported
  end.

(** One action: a declaration [$x := operand] or a printed operand. *)
Definition parse_action (text : string) (vars : list string) (content : string) (pos : Z)
    (end_line : Z) : result (node * list string) parse_error :=
  match tokens content pos with
  | [] => Err (PError end_line PMissingValue)
  | (TVar x, _) :: (TDeclare, _) :: [] => Err (PError end_line PMissingValue)
  | (TVar x, _) :: (TDeclare, _) :: ts =>
      let? o := parse_operand text vars ts in Ok (NDecl x o, x :: vars)
  | ts => let? o := parse_operand text vars ts in Ok (NPrint o, vars)
  end.

(** The pieces in order, the variables in scope growing with each
    declaration; the template's variable [$] is predeclared. *)
Fixpoint parse_pieces (text : string) (vars : list string) (ps : list piece)
    : result (list node) parse_error :=
  match ps with
  | [] => Ok []
  | PText s :: ps' => let? ns := parse_pieces text vars ps' in Ok (NText s :: ns)
  | PAction content pos _ :: ps' =>
      let? '(n, vars') := parse_action text vars content pos
                            (line_at text (pos + Z.of_nat (String.length content))) in
      let? ns := parse_pieces text vars' ps' in
      Ok (n :: ns)
  end.

(** The parsed template keeps its text for the positions of errors. *)
Record tree : Type := mkTree { tree_text : string; tree_nodes : list node }.

Definition parse (text : string) : result tree parse_error :=
  match pieces text with
  | Err (e, line) => Err (PError line (PLex e))
  | Ok ps => let? ns := parse_pieces text ["$"] ps in Ok (mkTree text ns)
  end.

(** ** Execution *)

(** The values a fragment template handles; [VInvalid] is the invalid
    [reflect.Value] of a missing map key. *)
Inductive value : Type :=
| VData (d : TemplateData)
| VMap (m : gmap string string)
| VStr (s : string)
| VFloat (f : spec_float)
| VInvalid.

Definition data_type : string := "struct { Labels map[string]string; Value float64 }".

(** [evalField]: the field of a struct, the entry of a map, or the
    error; the invalid value stays invalid. *)
Definition eval_field (v : value) (f : string) : result value string :=
  match v with
  | VData d =>
      if String.eqb f "Labels" then Ok (VMap (Labels d))
      else if String.eqb f "Value" then Ok (VFloat (Value d))
      else Err data_type
  | VMap m => match m !! f with Some x => Ok (VStr x) | None => Ok VInvalid end
  | VInvalid => Ok VInvalid
  | VStr _ => Err "string"
  | VFloat _ => Err "float64"
  end.

(** An execution error: where, on which operand, which field, which
    receiver type. *)
Record exec_error : Type := mkExecError {
  ee_text : string; ee_pos : Z; ee_node : string; ee_field : string; ee_type : string
}.

Definition operand_string (o : operand) : string :=
  match o with
  | ODot _ [] => "."
  | ODot _ fs => String.concat "" (map (λ f, "." +:+ f) fs)
  | OVar _ v fs => v +:+ String.concat "" (map (λ f, "." +:+ f) fs)
  end.

Fixpoint eval_fields (text : string) (o : operand) (pos : Z) (v : value) (fs : list string)
    : result value exec_error :=
  match fs with
  | [] => Ok v
  | f :: fs' =>
      match eval_field v f with
      | Ok v' => eval_fields text o pos v' fs'
      | Err typ => Err (mkExecError text pos (operand_string o) f typ)
      end
  end.

(** The variables, the latest declaration first; [$] is the data. *)
Definition env : Type := list (string * value).

(** [s.varValue(name)]: the latest binding of the name.  The parser has
    rejected undefined variables, so the lookup always succeeds. *)
Fixpoint var_value (ρ : env) (x : string) : value :=
  match ρ with
  | [] => VInvalid
  | (y, v) :: ρ' => if String.eqb y x then v else var_value ρ' x
  end.

Definition eval_operand (text : string) (d : TemplateData) (ρ : env) (o : operand)
    : result value exec_error :=
  match o with
  | ODot p fs => eval_fields text o p (VData d) fs
  | OVar p x fs => eval_fields text o p (var_value ρ x) fs
  end.

Section Print.

(** [fmt.Fprint] of a [float64]. *)
Variable fmt_float : spec_float → string.

Definition key_le (a b : string * string) : Prop := String.compare a.1 b.1 ≠ Gt.

#[local] Instance key_le_dec : RelDecision key_le.
Proof. intros a b. unfold key_le. apply _. Defined.

(** [fmt.Fprint] of a [map[string]string]: keys sorted. *)
Definition print_map (m : gmap string string) : string :=
  "map[" +:+ String.concat " " (map (λ kv, kv.1 +:+ ":" +:+ kv.2)
                                   (merge_sort key_le (map_to_list m))) +:+ "]".

Definition print_value (v : value) : string :=
  match v with
  | VData d => "{" +:+ print_map (Labels d) +:+ " " +:+ fmt_float (Value d) +:+ "}"
  | VMap m => print_map m
  | VStr s => s
  | VFloat f => fmt_float f
  | VInvalid => "<no value>"
  end.

(** The nodes in order: text is copied, a print node writes its value, a
    declaration binds its variable. *)
Fixpoint exec_nodes (text : string) (d : TemplateData) (ρ : env) (ns : list node)
    : result string exec_error :=
  match ns with
  | [] => Ok EmptyString
  | NText s :: ns' => let? out := exec_nodes text d ρ ns' in Ok (s +:+ out)
  | NPrint o :: ns' =>
      let? v := eval_operand text d ρ o in
      let? out := exec_nodes text d ρ ns' in
      Ok (print_value v +:+ out)
  | NDecl x o :: ns' =>
      let? v := eval_operand text d ρ o in
      exec_nodes text d ((x, v) :: ρ) ns'
  end.

Definition execute (t : tree) (d : TemplateData) : result string exec_error :=
  exec_nodes (tree_text t) d [("$", VData d)] (tree_nodes t).

End Print.

(** ** Messages *)

Definition show_lex_error (e : lex_error) : string :=
  match e with
  | UnclosedAction => "unclosed action"
  | UnclosedComment => "unclosed comment"
  | CommentEndsBeforeDelim => "comment ends before closing delimiter"
  end.

(** [%q] of a plain string: the string between double quotes (byte 34). *)
Definition dq : ascii := "034".
Definition quote (s : string) : string := String dq (s +:+ String dq EmptyString).

(** [template: validity:LINE: msg] *)
Definition show_parse_error (e : parse_error) : string :=
  match e with
  | PError line k =>
      "template: validity:" +:+ pretty line +:+ ": " +:+
      match k with
      | PLex e => show_lex_error e
      | PUndefinedVariable v => "undefined variable " +:+ quote v
      | PFunctionNotDefined f => "function " +:+ quote f +:+ " not defined"
      | PMissingValue => "missing value for command"
      end
  | PUnsupported => "unsupported"
  end.

(** The column of an offset: bytes since the last newline before it. *)
Definition col_at (text : string) (pos : Z) : Z :=
  let before := String.list_ascii_of_string (String.substring 0 (Z.to_nat pos) text) in
  fold_left (λ col c, if Ascii.eqb c nl then 0 else col + 1) before 0.

(** [template: validity:LINE:COL: executing "validity" at <NODE>: msg],
    the node cut to 20 bytes. *)
Definition show_exec_error (e : exec_error) : string :=
  let ctx := ee_node e in
  let ctx := if (20 <? String.length ctx)%nat then String.substring 0 20 ctx +:+ "..." else ctx in
  "template: validity:" +:+ pretty (line_at (ee_text e) (ee_pos e)) +:+ ":" +:+
  pretty (col_at (ee_text e) (ee_pos e)) +:+ ": executing " +:+ quote "validity" +:+ " at <" +:+ ctx +:+
  ">: can't evaluate field " +:+ ee_field e +:+ " in type " +:+ ee_type e.

(** ** The engine *)

#[export] Instance text_template (fmt_float : spec_float → string) : TemplateEngine := {|
  tmpl_tree := tree;
  tmpl_parse_error := parse_error;
  tmpl_exec_error := exec_error;
  tmpl_parse := parse;
  tmpl_execute := execute fmt_float;
  Template.show_parse_error := show_parse_error;
  Template.show_exec_error := show_exec_error
|}.

(** A [float64] printer for concrete runs: an integral value below 1e6 in
    magnitude prints as Go's [%v] prints it, its decimal digits ("1",
    "-42", "-0" for negative zero); this printer is not meant for other
    values. *)
Definition fmt_integral (f : spec_float) : string :=
  match f with
  | S754_zero sgn => if sgn then "-0" else "0"
  | S754_finite sgn m e =>
      if (0 <=? e) && (Z.pos m * 2 ^ e <? 1000000) then
        (if sgn then "-" else "") +:+ pretty (Z.pos m * 2 ^ e)
      else "?"
  | _ => "?"
  end.

(** Whether a template is in the modelled fragment. *)
Definition in_fragment (t : string) : bool :=
  match parse t with Err PUnsupported => false | _ => true end.

End TextTemplate.
