(* ===== verification/Render.v ===== *)
(** * The annotation renderer

    [renderAnnotations] (src/internal/engine/engine.go, lines 130-167),
    proved against the [TemplateEngine] interface: whatever the template
    engine does, the output has one entry per annotation, the entry of
    an annotation depends only on its own template (an error in one is
    never seen by another), and Go's random iteration order over the
    annotation map does not change the result. *)

From S2P Require Import Prelude Template TextTemplate.
From Stdlib Require Import SpecFloat.
Import Template.

Module Render.

Section Render.

Context `{E : TemplateEngine}.

(** The prefix that binds [$labels] and [$value]. *)
Definition helper : string := "{{ $labels := .Labels }}{{ $value := .Value }}".

(** One iteration of [for k, v := range rawAnnotations]: the value stored
    in [rendered[k]]. *)
Definition render_one (data : TemplateData) (v : string) : string :=
  match tmpl_parse (helper +:+ v) with
  | Err err => "<template_error: " +:+ show_parse_error err +:+ ">"
  | Ok tmpl =>
      match tmpl_execute tmpl data with
      | Err err => "<render_error: " +:+ show_exec_error err +:+ ">"
      | Ok out => out
      end
  end.

(** [for k, v := range labels { data.Labels[string(k)] = string(v) }] *)
Definition copy_labels (labels : gmap string string) : gmap string string :=
  map_fold (λ k v acc, <[k := v]> acc) ∅ labels.

(** The loop over the annotations, in the order [entries] in which Go's
    map iteration happens to visit them. *)
Definition render_loop (data : TemplateData) (entries : list (string * string))
    : gmap string string :=
  fold_left (λ rendered kv, <[kv.1 := render_one data kv.2]> rendered) entries ∅.

(** [renderAnnotations rawAnnotations labels value], with the iteration
    order given by [order]; Go picks it at random among the enumerations
    of [rawAnnotations] ([renderAnnotations_order] shows it does not
    matter). *)
Definition renderAnnotations_in (order : list (string * string))
    (labels : gmap string string) (value : spec_float) : gmap string string :=
  render_loop (mkData (copy_labels labels) value) order.

Definition renderAnnotations (rawAnnotations labels : gmap string string)
    (value : spec_float) : gmap string string :=
  renderAnnotations_in (map_to_list rawAnnotations) labels value.

End Render.

(** ** Example data: two annotations, one of which does not parse. *)
Module Examples.

Definition engine : TemplateEngine := TextTemplate.text_template TextTemplate.fmt_integral.
Definition one : spec_float := S754_finite false 1 0.
Definition api : gmap string string := {[ "job" := "api" ]}.
Definition templates : gmap string string :=
  {[ "summary" := "{{ $labels.job }} at {{ $value }}"; "runbook" := "{{ humanize $value }}" ]}.
Definition templates' : gmap string string :=
  {[ "summary" := "{{ $labels.job }} at {{ $value }}"; "runbook" := "see wiki" ]}.

End Examples.

Section RenderFacts.

Context `{E : TemplateEngine}.

(** ** Lemmas *)

Lemma copy_labels_id (labels : gmap string string) : copy_labels labels = labels.
Proof.
  unfold copy_labels. induction labels as [|k v m Hk Hfold IH] using map_first_key_ind.
  - by rewrite map_fold_empty.
  - rewrite map_fold_insert_first_key by done. by rewrite IH.
Qed.

(** The loop inserts, over the entries with distinct keys, the rendered
    value of each. *)
Lemma render_loop_union (data : TemplateData) (l : list (string * string))
    (m0 : gmap string string) :
  NoDup l.*1 →
  fold_left (λ rendered kv, <[kv.1 := render_one data kv.2]> rendered) l m0
  = (render_one data <$> list_to_map l) ∪ m0.
Proof.
  revert m0. induction l as [|[k v] l IH]; intros m0 Hnd; cbn [fold_left fst snd].
  - by rewrite list_to_map_nil, fmap_empty, map_empty_union.
  - apply NoDup_cons in Hnd as [Hk Hnd]. rewrite IH by done.
    rewrite list_to_map_cons, fmap_insert, <- insert_union_l. symmetry. apply insert_union_r.
    by rewrite lookup_fmap, not_elem_of_list_to_map_1.
Qed.

(** C19. Every enumeration order of the annotation map gives the same map:
    the template rendering of each annotation, under its own key. *)
Theorem renderAnnotations_order (raw labels : gmap string string) (value : spec_float)
    (order : list (string * string)) :
  order ≡ₚ map_to_list raw →
  renderAnnotations_in order labels value = render_one (mkData labels value) <$> raw.
Proof.
  intros Hperm. unfold renderAnnotations_in, render_loop.
  assert (Hnd : NoDup order.*1).
  { rewrite Hperm. apply NoDup_fst_map_to_list. }
  rewrite render_loop_union, map_union_empty, copy_labels_id by done.
  f_equal. rewrite (list_to_map_proper order (map_to_list raw)) by done.
  apply list_to_map_to_list.
Qed.

Lemma renderAnnotations_fmap (raw labels : gmap string string) (value : spec_float) :
  renderAnnotations raw labels value = render_one (mkData labels value) <$> raw.
Proof. by apply renderAnnotations_order. Qed.

(** C20. The output has exactly the keys of the templates. *)
Theorem renderAnnotations_dom (raw labels : gmap string string) (value : spec_float) :
  dom (renderAnnotations raw labels value) = dom raw.
Proof. by rewrite renderAnnotations_fmap, dom_fmap_L. Qed.

(** C21. Per-key isolation: the entry of [k] depends on the template of [k]
    only, whatever the other templates are. *)
Theorem renderAnnotations_isolation (raw raw' labels : gmap string string)
    (value : spec_float) (k : string) :
  raw !! k = raw' !! k →
  renderAnnotations raw labels value !! k = renderAnnotations raw' labels value !! k.
Proof. intros H. by rewrite !renderAnnotations_fmap, !lookup_fmap, H. Qed.

(** C22. The entry of an annotation whose template does not parse is the
    [<template_error: ...>] placeholder. *)
Theorem renderAnnotations_parse_error (raw labels : gmap string string) (value : spec_float)
    (k t : string) (err : tmpl_parse_error) :
  raw !! k = Some t → tmpl_parse (helper +:+ t) = Err err →
  renderAnnotations raw labels value !! k
  = Some ("<template_error: " +:+ show_parse_error err +:+ ">").
Proof.
  intros Hk Hp. rewrite renderAnnotations_fmap, lookup_fmap, Hk. simpl.
  unfold render_one. by rewrite Hp.
Qed.

(** C23. The entry of an annotation whose execution fails is the
    [<render_error: ...>] placeholder. *)
Theorem renderAnnotations_exec_error (raw labels : gmap string string) (value : spec_float)
    (k t : string) (tree : tmpl_tree) (err : tmpl_exec_error) :
  raw !! k = Some t → tmpl_parse (helper +:+ t) = Ok tree →
  tmpl_execute tree (mkData labels value) = Err err →
  renderAnnotations raw labels value !! k
  = Some ("<render_error: " +:+ show_exec_error err +:+ ">").
Proof.
  intros Hk Hp He. rewrite renderAnnotations_fmap, lookup_fmap, Hk. simpl.
  unfold render_one. by rewrite Hp, He.
Qed.

End RenderFacts.

#[export] Hint Rewrite @copy_labels_id : go_rw.

(** ** Rendering with Go's template engine *)

(** C24. A template that references a label the series does not carry
    renders Go's invalid-value text [<no value>] (the map lookup of
    [text/template] with its default [missingkey] option), not an empty
    string. *)
Theorem renderAnnotations_missing_label (fmt : spec_float → string)
    (raw labels : gmap string string) (value : spec_float) (k : string) :
  raw !! k = Some "{{ $labels.job }}" → labels !! "job" = None →
  @renderAnnotations (TextTemplate.text_template fmt) raw labels value !! k = Some "<no value>".
Proof.
  intros Hk Hl. rewrite renderAnnotations_fmap, lookup_fmap, Hk. simpl. f_equal.
  unfold render_one. cbn [tmpl_parse TextTemplate.text_template].
  assert (Hp : TextTemplate.parse (helper +:+ "{{ $labels.job }}")
               = Ok (TextTemplate.mkTree (helper +:+ "{{ $labels.job }}")
                       [TextTemplate.NDecl "$labels" (TextTemplate.ODot 14 ["Labels"]);
                        TextTemplate.NDecl "$value" (TextTemplate.ODot 37 ["Value"]);
                        TextTemplate.NPrint (TextTemplate.OVar 49 "$labels" ["job"])]))
    by (vm_compute; reflexivity).
  rewrite Hp. cbn -[lookup]. by rewrite Hl.
Qed.

(** ** Witnesses *)

Import Examples.

Lemma renderAnnotations_missing_label_witness :
  @renderAnnotations engine {[ "summary" := "{{ $labels.job }}" ]} {[ "instance" := "h:9" ]} one
    !! "summary" = Some "<no value>".
Proof. apply renderAnnotations_missing_label; reflexivity. Defined.

Lemma renderAnnotations_order_witness :
  @renderAnnotations_in engine
    [("summary", "{{ $labels.job }} at {{ $value }}"); ("runbook", "{{ humanize $value }}")] api one
  = @render_one engine (mkData api one) <$> templates.
Proof. apply renderAnnotations_order. apply (bool_decide_unpack _). vm_compute. reflexivity. Defined.

Lemma renderAnnotations_isolation_witness :
  @renderAnnotations engine templates api one !! "summary"
  = @renderAnnotations engine templates' api one !! "summary" ∧
  @renderAnnotations engine templates' api one !! "summary" = Some "api at 1".
Proof. split; [apply renderAnnotations_isolation; reflexivity | vm_compute; reflexivity]. Defined.

Lemma renderAnnotations_parse_error_witness :
  @renderAnnotations engine templates api one !! "runbook"
  = Some ("<template_error: template: validity:1: function " +:+ TextTemplate.quote "humanize"
          +:+ " not defined>").
Proof.
  apply (@renderAnnotations_parse_error engine templates api one "runbook" "{{ humanize $value }}"
           (TextTemplate.PError 1 (TextTemplate.PFunctionNotDefined "humanize")));
    vm_compute; reflexivity.
Defined.

Lemma renderAnnotations_exec_error_witness :
  @renderAnnotations engine {[ "a" := "{{ $labels.job.name }}" ]} api one !! "a"
  = Some ("<render_error: template: validity:1:49: executing " +:+ TextTemplate.quote "validity"
          +:+ " at <$labels.job.name>: can't evaluate field name in type string>").
Proof.
  apply (@renderAnnotations_exec_error engine _ api one "a" "{{ $labels.job.name }}"
           (TextTemplate.mkTree (helper +:+ "{{ $labels.job.name }}")
              [TextTemplate.NDecl "$labels" (TextTemplate.ODot 14 ["Labels"]);
               TextTemplate.NDecl "$value" (TextTemplate.ODot 37 ["Value"]);
               TextTemplate.NPrint (TextTemplate.OVar 49 "$labels" ["job"; "name"])])
           (TextTemplate.mkExecError (helper +:+ "{{ $labels.job.name }}") 49 "$labels.job.name"
              "name" "string"));
    vm_compute; reflexivity.
Defined.

End Render.
