(* ===== verification/Rules.v ===== *)
(** * Rule files and the run configuration

    The data of src/internal/config/rules.go ([RuleFile], [RuleGroup],
    [Rule]) and the [Config] struct of src/internal/config/config.go.
    Go maps are [gmap]s; a [time.Time] is a [GoTime] of [Duration]. *)

From S2P Require Import Prelude Duration.
Import Duration.

Module Config.

Record Rule : Type := mkRule {
  Alert : string;
  Expr : string;
  For : string;
  Labels : gmap string string;
  Annotations : gmap string string
}.

Record RuleGroup : Type := mkGroup {
  Name : string;
  Rules : list Rule
}.

Record RuleFile : Type := mkRuleFile {
  Groups : list RuleGroup
}.

Record Config : Type := mkConfig {
  FilePath : string;
  PromURL : string;
  OutputFormat : string;
  Start : GoTime;
  End : GoTime;
  RuleFile_ : RuleFile
}.

End Config.
