(* ===== verification/Json.v ===== *)
(** * The JSON encoding of the JSON reporter

    [JSONReporter.Flush] (src/internal/report/report.go) writes its
    results with [json.NewEncoder(os.Stdout)], [SetIndent("", "  ")] and
    [Encode].  This file models the part of Go's [encoding/json] that
    output exercises: the escaping of strings ([appendString] with HTML
    escaping on, the encoder's default), which needs the UTF-8 decoding of
    [unicode/utf8.DecodeRuneInString]; and, in [Report], the layout of the
    indented array of objects.  The standard library is not code of this
    repository; these definitions follow Go's [encoding/json/encode.go]
    and [unicode/utf8/utf8.go].

    A reference decoder of JSON string literals (RFC 8259, section 7)
    states what the escaping must preserve: decoding the literal gives
    back every valid UTF-8 string. *)

From S2P Require Import Prelude Duration.

Local Open Scope Z_scope.

Module Json.

Import Duration.

(** ** UTF-8 *)

(** [utf8.DecodeRuneInString] at the front of [s], when it reads a valid
    encoding of two to four bytes: the rune and its size.  [None] is
    [(RuneError, 1)]. *)
Definition decode_multi (s : string) : option (Z * nat) :=
  let cont b := (128 <=? b) && (b <=? 191) in
  match s with
  | String c0 (String c1 r1) =>
    let b0 := byte_val c0 in
    let b1 := byte_val c1 in
    (* the accepted range of the second byte, per first byte *)
    let '(lo, hi) :=
      if b0 =? 224 then (160, 191) else if b0 =? 237 then (128, 159)
      else if b0 =? 240 then (144, 191) else if b0 =? 244 then (128, 143)
      else (128, 191) in
    if (194 <=? b0) && (b0 <=? 223) then
      if cont b1 then Some ((b0 - 192) * 64 + (b1 - 128), 2%nat) else None
    else if negb ((224 <=? b0) && (b0 <=? 244)) then None
    else if negb ((lo <=? b1) && (b1 <=? hi)) then None
    else match r1 with
      | String c2 r2 =>
        let b2 := byte_val c2 in
        if negb (cont b2) then None
        else if b0 <? 240 then
          Some ((b0 - 224) * 4096 + (b1 - 128) * 64 + (b2 - 128), 3%nat)
        else match r2 with
          | String c3 _ =>
            let b3 := byte_val c3 in
            if cont b3 then
              Some ((b0 - 240) * 262144 + (b1 - 128) * 4096 + (b2 - 128) * 64 + (b3 - 128), 4%nat)
            else None
          | EmptyString => None
          end
      | EmptyString => None
      end
  | _ => None
  end.

(** Every byte of [s] starts a valid UTF-8 sequence where one is
    expected: the strings Go's decoders accept without [RuneError]. *)
Fixpoint valid_utf8_from (pending : nat) (s : string) : bool :=
  match s with
  | EmptyString => Nat.eqb pending 0
  | String c s' =>
    match pending with
    | S k => valid_utf8_from k s'
    | O =>
      if byte_val c <? 128 then valid_utf8_from 0 s'
      else match decode_multi s with
           | Some (_, n) => valid_utf8_from (n - 1) s'
           | None => false
           end
    end
  end.

Definition valid_utf8 (s : string) : bool := valid_utf8_from 0 s.

(** ** [appendString] *)

Definition hexdigit (n : Z) : ascii :=
  if n <? 10 then ascii_of_nat (Z.to_nat n + 48) else ascii_of_nat (Z.to_nat n + 87).

(** The escape of one ASCII byte: [htmlSafeSet] bytes stand for
    themselves; quote and backslash take a backslash; [\b], [\f], [\n],
    [\r], [\t] their short forms; other control bytes and [<], [>], [&]
    the form [\u00XX]. *)
Definition escape_ascii (c : ascii) : string :=
  let b := byte_val c in
  if (b =? 34) || (b =? 92) then String "\" (String c EmptyString)
  else if b =? 8 then "\b"
  else if b =? 12 then "\f"
  else if b =? 10 then "\n"
  else if b =? 13 then "\r"
  else if b =? 9 then "\t"
  else if (b <? 32) || (b =? 60) || (b =? 62) || (b =? 38) then
    String "\" (String "u" (String "0" (String "0"
      (String (hexdigit (b / 16)) (String (hexdigit (b mod 16)) EmptyString)))))
  else String c EmptyString.

(** The loop of [appendString] over the bytes of [src]; [pending] bytes
    of the current rune are still to be copied ([skip]: dropped, after
    the escape of U+2028 or U+2029 was written). *)
Fixpoint escape_from (pending : nat) (skip : bool) (s : string) : string :=
  match s with
  | EmptyString => EmptyString
  | String c s' =>
    match pending with
    | S k => if skip then escape_from k skip s' else String c (escape_from k skip s')
    | O =>
      if byte_val c <? 128 then escape_ascii c +:+ escape_from 0 false s'
      else match decode_multi s with
        | None => "\ufffd" +:+ escape_from 0 false s'
        | Some (r, n) =>
          if (r =? 8232) || (r =? 8233) then
            "\u202" +:+ String (hexdigit (r mod 16)) (escape_from (n - 1) true s')
          else String c (escape_from (n - 1) false s')
        end
    end
  end.

Definition dq : ascii := "034".

(** [appendString(dst, src, true)]: the JSON string literal of [src]. *)
Definition appendString (src : string) : string :=
  String dq (escape_from 0 false src +:+ String dq EmptyString).

(** ** Reading a JSON string literal back (RFC 8259, section 7) *)

Definition hexval (c : ascii) : option Z :=
  let b := byte_val c in
  if (48 <=? b) && (b <=? 57) then Some (b - 48)
  else if (97 <=? b) && (b <=? 102) then Some (b - 87)
  else if (65 <=? b) && (b <=? 70) then Some (b - 55)
  else None.

Definition hex4 (h1 h2 h3 h4 : ascii) : option Z :=
  match hexval h1, hexval h2, hexval h3, hexval h4 with
  | Some a, Some b, Some c, Some d => Some (((a * 16 + b) * 16 + c) * 16 + d)
  | _, _, _, _ => None
  end.

Definition byte (n : Z) : ascii := ascii_of_nat (Z.to_nat n).

(** The UTF-8 encoding of a code point. *)
Definition utf8_encode (r : Z) : string :=
  if r <? 128 then String (byte r) EmptyString
  else if r <? 2048 then
    String (byte (192 + r / 64)) (String (byte (128 + r mod 64)) EmptyString)
  else if r <? 65536 then
    String (byte (224 + r / 4096)) (String (byte (128 + (r / 64) mod 64))
      (String (byte (128 + r mod 64)) EmptyString))
  else
    String (byte (240 + r / 262144)) (String (byte (128 + (r / 4096) mod 64))
      (String (byte (128 + (r / 64) mod 64)) (String (byte (128 + r mod 64)) EmptyString))).

(** The character of a one-letter escape. *)
Definition short_escape (e : ascii) : option ascii :=
  let b := byte_val e in
  if (b =? 34) || (b =? 92) || (b =? 47) then Some e
  else if b =? 98 then Some (byte 8)
  else if b =? 102 then Some (byte 12)
  else if b =? 110 then Some (byte 10)
  else if b =? 114 then Some (byte 13)
  else if b =? 116 then Some (byte 9)
  else None.

Definition is_high_surrogate (r : Z) : bool := (55296 <=? r) && (r <? 56320).
Definition is_low_surrogate (r : Z) : bool := (56320 <=? r) && (r <? 57344).

(** The characters of a literal up to its closing quote: the decoded
    string and what follows the quote.  A [\u] escape of a surrogate
    pair stands for one code point; a lone surrogate for U+FFFD. *)
Fixpoint unquote (s : string) : option (string * string) :=
  match s with
  | EmptyString => None
  | String c s1 =>
    let b := byte_val c in
    if b =? 34 then Some (EmptyString, s1)
    else if b <? 32 then None
    else if negb (b =? 92) then
      match unquote s1 with Some (v, r) => Some (String c v, r) | None => None end
    else match s1 with
    | EmptyString => None
    | String e s2 =>
      if negb (byte_val e =? 117) then
        match short_escape e, unquote s2 with
        | Some ch, Some (v, r) => Some (String ch v, r)
        | _, _ => None
        end
      else match s2 with
      | String h1 (String h2 (String h3 (String h4 s3))) =>
        match hex4 h1 h2 h3 h4 with
        | None => None
        | Some r1 =>
          let lone :=
            match unquote s3 with
            | Some (v, r) =>
              let r1 := if is_high_surrogate r1 || is_low_surrogate r1 then 65533 else r1 in
              Some (utf8_encode r1 +:+ v, r)
            | None => None
            end in
          if negb (is_high_surrogate r1) then lone else
          match s3 with
          | String b1 (String u (String k1 (String k2 (String k3 (String k4 s4))))) =>
            if negb ((byte_val b1 =? 92) && (byte_val u =? 117)) then lone else
            match hex4 k1 k2 k3 k4 with
            | Some r2 =>
              if negb (is_low_surrogate r2) then lone else
              match unquote s4 with
              | Some (v, r) => Some (utf8_encode (65536 + (r1 - 55296) * 1024 + (r2 - 56320)) +:+ v, r)
              | None => None
              end
            | None => lone
            end
          | _ => lone
          end
        end
      | _ => None
      end
    end
  end.

(** A whole literal: the opening quote, the characters, the closing quote,
    nothing after. *)
Definition decode_literal (lit : string) : option string :=
  match lit with
  | String c s =>
    if byte_val c =? 34 then
      match unquote s with Some (v, EmptyString) => Some v | _ => None end
    else None
  | EmptyString => None
  end.

(** ** HTML safety *)

(** [<], [>] and [&], which [json.Marshal] keeps out of its output by
    default so that a document can be embedded in HTML. *)
Definition html_byte (c : ascii) : bool :=
  let b := byte_val c in (b =? 60) || (b =? 62) || (b =? 38).

Fixpoint html_safe (s : string) : bool :=
  match s with
  | EmptyString => true
  | String c s' => negb (html_byte c) && html_safe s'
  end.

(** The next [k] bytes of [s] (as many as it has) are bytes of a
    multi-byte character. *)
Fixpoint high_prefix (k : nat) (s : string) : bool :=
  match k, s with
  | S k', String c s' => (128 <=? byte_val c) && high_prefix k' s'
  | _, _ => true
  end.

(** ** Lemmas *)

(** The result of [unquote] after one more decoded character. *)
Definition cons_decoded (x : string) (o : option (string * string)) : option (string * string) :=
  match o with Some (v, r) => Some (x +:+ v, r) | None => None end.

Lemma byte_val_range (c : ascii) : 0 <= byte_val c < 256.
Proof.
  unfold byte_val. pose proof (Ascii.N_ascii_bounded c). lia.
Qed.

Lemma byte_byte_val (c : ascii) : byte (byte_val c) = c.
Proof.
  unfold byte, byte_val, ascii_of_nat.
  replace (N.of_nat (Z.to_nat (Z.of_N (N_of_ascii c)))) with (N_of_ascii c) by lia.
  apply Ascii.ascii_N_embedding.
Qed.

Lemma byte_val_byte (n : Z) : 0 <= n < 256 → byte_val (byte n) = n.
Proof.
  intros Hn. unfold byte, byte_val, ascii_of_nat.
  rewrite Ascii.N_ascii_embedding by lia. lia.
Qed.

Lemma hexval_hexdigit (n : Z) : 0 <= n < 16 → hexval (hexdigit n) = Some n.
Proof.
  intros Hn.
  assert (n = 0 ∨ n = 1 ∨ n = 2 ∨ n = 3 ∨ n = 4 ∨ n = 5 ∨ n = 6 ∨ n = 7 ∨ n = 8 ∨ n = 9 ∨
          n = 10 ∨ n = 11 ∨ n = 12 ∨ n = 13 ∨ n = 14 ∨ n = 15) as Hc by lia.
  destruct_or! Hc; subst; reflexivity.
Qed.

(** A byte of a multi-byte character is copied by the decoder. *)
Lemma unquote_high (c : ascii) (t : string) :
  128 <= byte_val c → unquote (String c t) = cons_decoded (String c EmptyString) (unquote t).
Proof.
  intros Hc. cbn [unquote]. repeat zcase; try lia. simpl. by destruct (unquote t) as [[]|].
Qed.

(** The escape of an ASCII byte decodes to the byte. *)
Lemma unquote_escape_ascii (c : ascii) (t : string) :
  byte_val c < 128 →
  unquote (escape_ascii c +:+ t) = cons_decoded (String c EmptyString) (unquote t).
Proof.
  intros Hc. pose proof (byte_val_range c) as Hr. pose proof (byte_byte_val c) as Hb.
  unfold escape_ascii. remember (byte_val c) as b eqn:Eb.
  destruct (Z.eqb_spec b 34); [| destruct (Z.eqb_spec b 92)]; cbn [orb].
  1-2: rewrite !string_app_cons, string_app_nil_l; cbn [unquote]; rewrite <- Eb;
       cbn; unfold short_escape; rewrite <- Eb; repeat zcase; try lia; simpl;
       by destruct (unquote t) as [[]|].
  destruct (Z.eqb_spec b 8); [rewrite <- Hb, e; go_app; cbn; by destruct (unquote t) as [[]|] |].
  destruct (Z.eqb_spec b 12); [rewrite <- Hb, e; go_app; cbn; by destruct (unquote t) as [[]|] |].
  destruct (Z.eqb_spec b 10); [rewrite <- Hb, e; go_app; cbn; by destruct (unquote t) as [[]|] |].
  destruct (Z.eqb_spec b 13); [rewrite <- Hb, e; go_app; cbn; by destruct (unquote t) as [[]|] |].
  destruct (Z.eqb_spec b 9); [rewrite <- Hb, e; go_app; cbn; by destruct (unquote t) as [[]|] |].
  destruct ((b <? 32) || (b =? 60) || (b =? 62) || (b =? 38)) eqn:Hesc.
  - go_app. simpl unquote. unfold hex4.
    rewrite !hexval_hexdigit by (Z.to_euclidean_division_equations; lia).
    replace (hexval "0") with (Some 0) by reflexivity. cbv beta iota.
    replace (((0 * 16 + 0) * 16 + b / 16) * 16 + b mod 16) with b
      by (Z.to_euclidean_division_equations; lia).
    unfold is_high_surrogate, is_low_surrogate. repeat zcase; try lia. cbn.
    unfold utf8_encode. zcase; [| lia]. rewrite Hb. by destruct (unquote t) as [[]|].
  - go_app. cbn [unquote]. rewrite <- Eb.
    apply orb_false_iff in Hesc as [Hesc _]. apply orb_false_iff in Hesc as [Hesc _].
    apply orb_false_iff in Hesc as [Hesc _]. apply Z.ltb_ge in Hesc.
    repeat zcase; try lia. simpl. by destruct (unquote t) as [[]|].
Qed.

(** What a successful [decode_multi] read: the continuation bytes, and
    for three-byte sequences the rune. *)
Lemma decode_multi_shape (c : ascii) (s : string) (r : Z) (n : nat) :
  decode_multi (String c s) = Some (r, n) →
  ∃ c1 s1, s = String c1 s1 ∧ 128 <= byte_val c1 ∧
  ((n = 2%nat ∧ r < 2048) ∨
   (n = 3%nat ∧ ∃ c2 s2, s1 = String c2 s2 ∧ 128 <= byte_val c2 ∧
      r = (byte_val c - 224) * 4096 + (byte_val c1 - 128) * 64 + (byte_val c2 - 128) ∧
      224 <= byte_val c <= 239 ∧ byte_val c1 <= 191 ∧ byte_val c2 <= 191) ∨
   (n = 4%nat ∧ 65536 <= r ∧ ∃ c2 c3 s3, s1 = String c2 (String c3 s3) ∧
      128 <= byte_val c2 ∧ 128 <= byte_val c3)).
Proof.
  unfold decode_multi. destruct s as [|c1 s1]; [discriminate |].
  pose proof (byte_val_range c). pose proof (byte_val_range c1).
  cbv zeta.
  repeat (if_cases; try discriminate;
          try match goal with
              | |- match ?t with EmptyString => _ | String _ _ => _ end = _ → _ =>
                  destruct t as [|? ?]; [discriminate |]
              end);
    intros [= <- <-]; (eexists _, _; split; [reflexivity | split; [lia |]]).
  all: first
    [ left; split; [reflexivity | lia]
    | right; left; split; [reflexivity |]; eexists _, _; split_and!; [reflexivity | lia ..]
    | right; right; split; [reflexivity |]; split; [lia |];
      eexists _, _, _; split_and!; [reflexivity | lia ..] ].
Qed.

(** The flag that drops the bytes of an escaped rune has no effect once
    they are dropped. *)
Lemma escape_from_skip_done (s : string) : escape_from 0 true s = escape_from 0 false s.
Proof. by destruct s. Qed.

(** The escape of U+2028 or U+2029 decodes to its three bytes. *)
Lemma unquote_separator (c c1 c2 : ascii) (r : Z) (t : string) :
  r = (byte_val c - 224) * 4096 + (byte_val c1 - 128) * 64 + (byte_val c2 - 128) →
  224 <= byte_val c → 128 <= byte_val c1 <= 191 → 128 <= byte_val c2 <= 191 →
  (r = 8232 ∨ r = 8233) →
  unquote ("\u202" +:+ String (hexdigit (r mod 16)) t)
  = cons_decoded (String c (String c1 (String c2 EmptyString))) (unquote t).
Proof.
  intros Hr Hc Hc1 Hc2 H28.
  assert (byte_val c = 226 ∧ byte_val c1 = 128) as [Eb Eb1] by lia.
  rewrite <- (byte_byte_val c), <- (byte_byte_val c1), <- (byte_byte_val c2), Eb, Eb1.
  go_app. simpl unquote. unfold hex4.
  rewrite hexval_hexdigit by (Z.to_euclidean_division_equations; lia).
  replace (hexval "2") with (Some 2) by reflexivity.
  replace (hexval "0") with (Some 0) by reflexivity. cbv beta iota.
  replace (((2 * 16 + 0) * 16 + 2) * 16 + r mod 16) with r
    by (destruct H28; subst r; rewrite Eb, Eb1; Z.to_euclidean_division_equations; lia).
  unfold is_high_surrogate, is_low_surrogate.
  destruct H28 as [->| ->]; cbn -[unquote byte];
    [replace (byte_val c2) with 168 by lia | replace (byte_val c2) with 169 by lia];
    reflexivity.
Qed.

(** The escape of valid UTF-8 text, then a closing quote, decodes to the
    text and what follows the quote. *)
Lemma escape_unquote (s t : string) :
  valid_utf8 s = true → unquote (escape_from 0 false s +:+ String dq t) = Some (s, t).
Proof.
  unfold valid_utf8. remember (String.length s) as n eqn:Hn. revert s Hn.
  induction n as [n IH] using lt_wf_ind. intros s Hn Hv.
  destruct s as [|c s']; [reflexivity |].
  cbn [escape_from valid_utf8_from String.length] in *.
  destruct (Z.ltb_spec (byte_val c) 128) as [Hc|Hc].
  - rewrite string_app_assoc, unquote_escape_ascii, (IH (String.length s')) by (done || lia).
    done.
  - destruct (decode_multi (String c s')) as [[r k]|] eqn:Hd; [| discriminate].
    destruct (decode_multi_shape _ _ _ _ Hd) as (c1 & s1 & -> & Hc1 & Hcases).
    cbn [String.length] in Hn.
    destruct Hcases as [[-> Hr] | [(-> & c2 & s2 & -> & Hc2 & Hr & Hb0 & Hb1 & Hb2) |
                                    (-> & Hr & c2 & c3 & s3 & -> & Hc2 & Hc3)]];
      cbn [Nat.sub valid_utf8_from String.length] in *.
    + replace ((r =? 8232) || (r =? 8233)) with false by (symmetry; zbool; if_cases; lia).
      cbn [escape_from]. go_app. rewrite !unquote_high by lia.
      rewrite (IH (String.length s1)) by (done || lia). done.
    + destruct ((r =? 8232) || (r =? 8233)) eqn:E28.
      * apply orb_true_iff in E28 as [E|E]; apply Z.eqb_eq in E;
        cbn [escape_from]; rewrite escape_from_skip_done, string_app_assoc,
          (string_app_cons (hexdigit _)), (unquote_separator c c1 c2 r) by lia;
        rewrite (IH (String.length s2)) by (done || lia); done.
      * cbn [escape_from]. go_app. rewrite !unquote_high by lia.
        rewrite (IH (String.length s2)) by (done || lia). done.
    + replace ((r =? 8232) || (r =? 8233)) with false by (symmetry; zbool; if_cases; lia).
      cbn [escape_from]. go_app. rewrite !unquote_high by lia.
      rewrite (IH (String.length s3)) by (done || lia). done.
Qed.

(** The string encoding loses nothing: the JSON literal [appendString]
    writes decodes back to the string, for every valid UTF-8 string. *)
Lemma appendString_roundtrip (s : string) :
  valid_utf8 s = true → decode_literal (appendString s) = Some s.
Proof.
  intros Hv. unfold decode_literal, appendString. cbn -[unquote escape_from].
  by rewrite escape_unquote.
Qed.

(** HTML safety of a concatenation. *)
Lemma html_safe_app (s t : string) : html_safe (s +:+ t) = html_safe s && html_safe t.
Proof.
  induction s as [|c s IH]; [done |].
  rewrite string_app_cons. cbn [html_safe]. by rewrite IH, andb_assoc.
Qed.

Lemma html_safe_cons (c : ascii) (s : string) :
  html_safe (String c s) = negb (html_byte c) && html_safe s.
Proof. done. Qed.

(** A hexadecimal digit is a digit or a lower-case letter. *)
Lemma html_byte_hexdigit (n : Z) : 0 <= n < 16 → html_byte (hexdigit n) = false.
Proof.
  intros Hn.
  assert (n = 0 ∨ n = 1 ∨ n = 2 ∨ n = 3 ∨ n = 4 ∨ n = 5 ∨ n = 6 ∨ n = 7 ∨ n = 8 ∨ n = 9 ∨
          n = 10 ∨ n = 11 ∨ n = 12 ∨ n = 13 ∨ n = 14 ∨ n = 15) as Hc by lia.
  destruct_or! Hc; subst; reflexivity.
Qed.

(** The escape of an ASCII byte holds no [<], [>] or [&]. *)
Lemma escape_ascii_html_safe (c : ascii) : html_safe (escape_ascii c) = true.
Proof.
  pose proof (byte_val_range c). unfold escape_ascii. cbv zeta.
  destruct (_ || _) eqn:E1.
  { apply orb_true_iff in E1. cbn [html_safe]. unfold html_byte at 2.
    destruct E1 as [E|E]; apply Z.eqb_eq in E; by rewrite E. }
  destruct (byte_val c =? 8); [reflexivity |]. destruct (byte_val c =? 12); [reflexivity |].
  destruct (byte_val c =? 10); [reflexivity |]. destruct (byte_val c =? 13); [reflexivity |].
  destruct (byte_val c =? 9); [reflexivity |].
  destruct (_ || _ || _ || _) eqn:E2; cbn [html_safe].
  - rewrite !html_byte_hexdigit by (Z.to_euclidean_division_equations; lia). reflexivity.
  - unfold html_byte. rewrite !orb_false_iff in E2. destruct E2 as [[[_ ->] ->] ->]. reflexivity.
Qed.

(** [escape_from] writes no [<], [>] or [&], whatever its input, as
    long as the bytes it is told to copy belong to a multi-byte
    character. *)
Lemma escape_from_html_safe (s : string) (k : nat) (skip : bool) :
  high_prefix k s = true → html_safe (escape_from k skip s) = true.
Proof.
  revert k skip. induction s as [|c s IH]; intros k skip Hk; [done |].
  destruct k as [|k]; cbn [escape_from].
  - destruct (Z.ltb_spec (byte_val c) 128).
    + rewrite html_safe_app, escape_ascii_html_safe. by apply IH.
    + destruct (decode_multi (String c s)) as [[r n]|] eqn:Hd.
      2: { rewrite html_safe_app. by apply IH. }
      assert (Hh : high_prefix (n - 1) s = true).
      { destruct (decode_multi_shape _ _ _ _ Hd) as (c1 & s1 & -> & Hc1 & Hcases).
        destruct Hcases as [[-> _] | [(-> & c2 & s2 & -> & Hc2 & _) | (-> & _ & c2 & c3 & s3 & -> & Hc2 & Hc3)]];
          cbn [Nat.sub high_prefix]; repeat zcase; try lia; by destruct _. }
      if_cases.
      * rewrite html_safe_app. cbn [html_safe].
        rewrite html_byte_hexdigit, IH by (done || Z.to_euclidean_division_equations; lia). reflexivity.
      * rewrite html_safe_cons, IH by done. unfold html_byte. repeat zcase; (lia || reflexivity).
  - cbn [high_prefix] in Hk. apply andb_prop in Hk as [Hc Hk]. apply Z.leb_le in Hc.
    destruct skip; [by apply IH |].
    rewrite html_safe_cons, IH by done. unfold html_byte. repeat zcase; (lia || reflexivity).
Qed.

(** The JSON literal [appendString] writes holds no [<], [>] or [&]. *)
Lemma appendString_html_safe (s : string) : html_safe (appendString s) = true.
Proof.
  unfold appendString. rewrite html_safe_cons, html_safe_app, escape_from_html_safe by done.
  reflexivity.
Qed.

End Json.
