(* ===== verification/Report.v ===== *)
(** * The reporters

    src/internal/report/report.go: the [Reporter] interface through which
    the engine hands over its results ([AddResult], then one [Flush]),
    its three implementations and the factory [New].  The interface is
    the class [Reporter] over the state of an implementation; a method
    call returns the new state and the bytes it writes on stdout.
    [TextReporter] prints each result at once; [JSONReporter] and
    [YAMLReporter] collect [Result]s and print them all at [Flush].

    Two behaviours of the standard library and of Prometheus' client
    library are modelled with them: [model.Metric.String], which prints
    a series' labels sorted and quoted with [strconv.Quote]; and the
    indented JSON document of [json.Encoder.Encode].  Two are not:
    the YAML encoder (a parameter [yaml_encode]) and the random order of
    Go's map iteration in [TextReporter.AddResult] (a parameter [order]
    that lists a map's entries in some order). *)

From S2P Require Import Prelude Duration Format Rules Json.
From stdpp Require Import sorting.
Import Duration Format Config Json.

Local Open Scope Z_scope.

Module Report.

(** ** [model.Metric.String] *)

(** One ASCII byte as [strconv.Quote] writes it. *)
Definition quote_ascii (c : ascii) : string :=
  let b := byte_val c in
  if (b =? 34) || (b =? 92) then String "\" (String c EmptyString)
  else if b =? 7 then "\a"
  else if b =? 8 then "\b"
  else if b =? 12 then "\f"
  else if b =? 10 then "\n"
  else if b =? 13 then "\r"
  else if b =? 9 then "\t"
  else if b =? 11 then "\v"
  else if (b <? 32) || (b =? 127) then
    String "\" (String "x" (String (hexdigit (b / 16)) (String (hexdigit (b mod 16)) EmptyString)))
  else String c EmptyString.

(** The loop of [strconv.Quote] over the runes of [s]: a byte that does
    not start a valid UTF-8 sequence is written [\xHH]; a valid
    multi-byte rune is copied ([unicode.IsPrint] is taken to hold of
    every such rune: Go's tables of printable characters are not
    modelled). *)
Fixpoint quote_from (pending : nat) (s : string) : string :=
  match s with
  | EmptyString => EmptyString
  | String c s' =>
    match pending with
    | S k => String c (quote_from k s')
    | O =>
      let b := byte_val c in
      if b <? 128 then quote_ascii c +:+ quote_from 0 s'
      else match decode_multi s with
        | Some (_, n) => String c (quote_from (n - 1) s')
        | None => String "\" (String "x" (String (hexdigit (b / 16))
                    (String (hexdigit (b mod 16)) (quote_from 0 s'))))
        end
    end
  end.

(** [strconv.Quote], the [%q] verb. *)
Definition Quote (s : string) : string := String dq (quote_from 0 s +:+ String dq EmptyString).

Definition MetricNameLabel : string := "__name__".

(** The [label="value"] texts of the labels other than the name, in the
    order [for label, value := range m] visits them ([kvs]). *)
Definition label_strings (kvs : list (string * string)) : list string :=
  map (λ kv, kv.1 +:+ "=" +:+ Quote kv.2)
    (List.filter (λ kv, negb (String.eqb kv.1 MetricNameLabel)) kvs).

(** [model.Metric.String] when the loop over [m] visits its entries in
    the order [kvs]: the name, then the other labels sorted, in braces;
    [{}] for no label at all. *)
Definition MetricString_of (m : gmap string string) (kvs : list (string * string)) : string :=
  match label_strings kvs with
  | [] => match m !! MetricNameLabel with Some n => n | None => "{}" end
  | ls => default "" (m !! MetricNameLabel) +:+ "{" +:+
            String.concat ", " (merge_sort string_le ls) +:+ "}"
  end.

(** [model.Metric.String], for the order of [map_to_list]. *)
Definition MetricString (m : gmap string string) : string := MetricString_of m (map_to_list m).

(** ** The results of the JSON and YAML reporters *)

Record Result : Type := mkResult {
  RuleName : string;
  Alert : string;
  Metric : string;
  Duration : Z;
  State : string;
  Annotations : option (gmap string string)
}.

(** The [Result] both collecting reporters append. *)
Definition result_of (rule : Rule) (metric : gmap string string) (duration : Z)
    (state : string) (annotations : option (gmap string string)) : Result :=
  mkResult (Config.Alert rule) (Config.Alert rule) (MetricString metric) duration state annotations.

(** ** The interface *)

Class Reporter (S : Type) : Type := {
  (** [AddResult(rule, metric, duration, state, annotations)] *)
  AddResult : S → Rule → gmap string string → Z → string → option (gmap string string) → S * string;
  (** [Flush()] *)
  Flush : S → S * string
}.

(** ** [TextReporter] *)

Section Text.

(** The order in which [for k, v := range m] visits a map: the
    annotations here, the labels in [model.Metric.String]. *)
Variable order : gmap string string → list (string * string).

Definition annotation_lines (annotations : option (gmap string string)) : string :=
  String.concat EmptyString (map (λ kv, "          - " +:+ kv.1 +:+ ": " +:+ kv.2 +:+ newline)
                      (from_option order [] annotations)).

Definition TextAddResult (metric : gmap string string) (duration : Z) (state : string)
    (annotations : option (gmap string string)) : string :=
  if String.eqb state "FIRING" then
    "      🔥 FIRING! [" +:+ MetricString_of metric (order metric) +:+ "] (Duration: " +:+ DurationString duration +:+ ")" +:+ newline
    +:+ annotation_lines annotations
  else if String.eqb state "SILENT" then "      ✅ Status: SILENT" +:+ newline
  else "      ⚠️ PENDING... [" +:+ MetricString_of metric (order metric) +:+ "] (Duration: " +:+ DurationString duration +:+ ")" +:+ newline.

#[export] Instance TextReporter : Reporter unit := {
  AddResult _ _ metric duration state annotations := (tt, TextAddResult metric duration state annotations);
  Flush _ := (tt, EmptyString)
}.

End Text.

(** ** [JSONReporter] *)

(** [strconv.FormatInt(d, 10)], as [encoding/json] writes an int64. *)
Definition FormatInt (z : Z) : string := if z <? 0 then String "-" (fmtInt (- z)) else fmtInt z.

(** One member of an object, at the indentation [ind]. *)
Definition member (ind key value : string) : string := ind +:+ appendString key +:+ ": " +:+ value.

(** The map of annotations, keys sorted, members at depth three. *)
Definition json_annotations (m : gmap string string) : string :=
  "{" +:+ newline +:+
  String.concat ("," +:+ newline)
    (map (λ kv, member "      " kv.1 (appendString kv.2))
       (merge_sort (λ a b, string_le a.1 b.1) (map_to_list m))) +:+
  newline +:+ "    }".

(** One [Result] at depth one; [omitempty] drops a nil or empty map. *)
Definition json_result (r : Result) : string :=
  let fields :=
    [member "    " "rule_name" (appendString (RuleName r));
     member "    " "alert" (appendString (Alert r));
     member "    " "metric" (appendString (Metric r));
     member "    " "duration" (FormatInt (Duration r));
     member "    " "state" (appendString (State r))] ++
    match Annotations r with
    | Some m => if decide (m = ∅) then [] else [member "    " "annotations" (json_annotations m)]
    | None => []
    end in
  "  {" +:+ newline +:+ String.concat ("," +:+ newline) fields +:+ newline +:+ "  }".

(** [enc.Encode(results)] after [SetIndent("", "  ")]: the indented
    array and a newline. *)
Definition json_encode (rs : list Result) : string :=
  match rs with
  | [] => "[]" +:+ newline
  | _ => "[" +:+ newline +:+ String.concat ("," +:+ newline) (map json_result rs) +:+ newline
           +:+ "]" +:+ newline
  end.

#[export] Instance JSONReporter : Reporter (list Result) := {
  AddResult rs rule metric duration state annotations :=
    (rs ++ [result_of rule metric duration state annotations], EmptyString);
  Flush rs := (rs, json_encode rs)
}.

(** ** [YAMLReporter] *)

Section YAML.

(** [yaml.NewEncoder(os.Stdout).Encode(results)]: not modelled. *)
Variable yaml_encode : list Result → string.

Definition YAMLReporter : Reporter (list Result) := {|
  AddResult rs rule metric duration state annotations :=
    (rs ++ [result_of rule metric duration state annotations], EmptyString);
  Flush rs := (rs, yaml_encode rs)
|}.

End YAML.

(** ** [New] *)

(** The reporter [New] returns, by its dynamic type. *)
Inductive AnyReporter : Type :=
| TextRep
| JSONRep (results : list Result)
| YAMLRep (results : list Result).

Definition New (format : string) : AnyReporter :=
  if String.eqb format "json" then JSONRep []
  else if String.eqb format "yaml" then YAMLRep []
  else TextRep.

Section Any.

Variable order : gmap string string → list (string * string).
Variable yaml_encode : list Result → string.

(** Method calls through the interface: dispatch on the dynamic type. *)
#[export] Instance AnyReporter_Reporter : Reporter AnyReporter := {
  AddResult r rule metric duration state annotations :=
    match r with
    | TextRep => (TextRep, TextAddResult order metric duration state annotations)
    | JSONRep rs => (JSONRep (rs ++ [result_of rule metric duration state annotations]), EmptyString)
    | YAMLRep rs => (YAMLRep (rs ++ [result_of rule metric duration state annotations]), EmptyString)
    end;
  Flush r :=
    match r with
    | TextRep => (TextRep, EmptyString)
    | JSONRep rs => (JSONRep rs, json_encode rs)
    | YAMLRep rs => (YAMLRep rs, yaml_encode rs)
    end
}.

End Any.

(** ** Theorems *)

(** An annotation's member occurs in the annotations object. *)
Lemma json_annotations_member (m : gmap string string) (k v : string) :
  m !! k = Some v →
  ∃ pre post, json_annotations m = pre +:+ member "      " k (appendString v) +:+ post.
Proof.
  intros Hk. unfold json_annotations.
  destruct (string_concat_elem ("," +:+ newline) (member "      " k (appendString v))
              (map (λ kv, member "      " kv.1 (appendString kv.2))
                 (merge_sort (λ a b, string_le a.1 b.1) (map_to_list m)))) as (pre & post & ->).
  - apply list_elem_of_fmap. exists (k, v). split; [done |].
    rewrite (merge_sort_Permutation _ (map_to_list m)). by apply elem_of_map_to_list.
  - exists ("{" +:+ newline +:+ pre), (post +:+ newline +:+ "    }"). by rewrite !string_app_assoc.
Qed.

(** The labels' texts of two iteration orders of the same map are
    permutations of each other. *)
Lemma label_strings_Permutation (kvs1 kvs2 : list (string * string)) :
  kvs1 ≡ₚ kvs2 → label_strings kvs1 ≡ₚ label_strings kvs2.
Proof.
  intros H. unfold label_strings. apply Permutation_map.
  induction H as [| kv l1 l2 _ IH | kv1 kv2 l | l1 l2 l3 _ IH1 _ IH2]; simpl.
  - done.
  - case_match; [by constructor | done].
  - by repeat case_match; [apply perm_swap | reflexivity ..].
  - by etrans.
Qed.

(** [sort.Strings] sorts every permutation of a list to the same list. *)
Lemma merge_sort_string_le_perm (l1 l2 : list string) :
  l1 ≡ₚ l2 → merge_sort string_le l1 = merge_sort string_le l2.
Proof.
  intros H. apply (Sorted_unique string_le); [apply Sorted_merge_sort; apply _ .. |].
  by rewrite !merge_sort_Permutation.
Qed.

(** [model.Metric.String] does not depend on the order in which Go's
    map iteration visits the labels. *)
Lemma MetricString_of_perm (m : gmap string string) (kvs : list (string * string)) :
  kvs ≡ₚ map_to_list m → MetricString_of m kvs = MetricString m.
Proof.
  intros H%label_strings_Permutation. unfold MetricString, MetricString_of.
  destruct (label_strings kvs) as [|a l] eqn:E1, (label_strings (map_to_list m)) as [|b l'] eqn:E2;
    [done | by apply Permutation_nil_cons in H | by symmetry in H; apply Permutation_nil_cons in H |].
  by rewrite (merge_sort_string_le_perm _ _ H).
Qed.

(** An annotation's member occurs in the object of its result. *)
Lemma json_result_annotation (r : Result) (m : gmap string string) (k v : string) :
  Annotations r = Some m → m !! k = Some v →
  ∃ pre post, json_result r = pre +:+ member "      " k (appendString v) +:+ post.
Proof.
  intros Hm Hk.
  destruct (json_annotations_member m k v Hk) as (pa & qa & Ha).
  assert (Hne : m ≠ ∅) by (intros ->; by rewrite lookup_empty in Hk).
  unfold json_result. rewrite Hm, decide_False by done.
  destruct (string_concat_elem ("," +:+ newline) (member "    " "annotations" (json_annotations m))
              ([member "    " "rule_name" (appendString (RuleName r));
                member "    " "alert" (appendString (Alert r));
                member "    " "metric" (appendString (Metric r));
                member "    " "duration" (FormatInt (Duration r));
                member "    " "state" (appendString (State r))] ++
               [member "    " "annotations" (json_annotations m)])) as (pf & qf & ->).
  { apply elem_of_app. right. by apply list_elem_of_singleton. }
  exists ("  {" +:+ newline +:+ pf +:+ "    " +:+ appendString "annotations" +:+ ": " +:+ pa),
         (qa +:+ qf +:+ newline +:+ "  }").
  unfold member at 1. rewrite Ha. by rewrite !string_app_assoc.
Qed.

(** The object of every collected result occurs in the document. *)
Lemma json_encode_elem (rs : list Result) (r : Result) :
  r ∈ rs → ∃ pre post, json_encode rs = pre +:+ json_result r +:+ post.
Proof.
  intros Hr. destruct rs as [|r0 rs0]; [by apply elem_of_nil in Hr |].
  destruct (string_concat_elem ("," +:+ newline) (json_result r) (map json_result (r0 :: rs0)))
    as (pre & post & Hc); [by apply list_elem_of_fmap_2 |].
  exists ("[" +:+ newline +:+ pre), (post +:+ newline +:+ "]" +:+ newline).
  unfold json_encode. rewrite Hc. by rewrite !string_app_assoc.
Qed.

(** C30. Every annotation of a result handed to the JSON reporter
    appears, under its key, in the document [Flush] prints, whatever the
    results collected before: as a JSON string literal that decodes back
    to the rendered text when that text is valid UTF-8, and that holds no
    [<], [>] or [&] byte (the encoder's default HTML escaping writes the
    [<no value>] of a missing label as [\u003cno value\u003e]). *)
Theorem JSONReporter_annotation (rs : list Result) (rule : Rule) (metric : gmap string string)
    (duration : Z) (state : string) (m : gmap string string) (k v : string) :
  m !! k = Some v → valid_utf8 v = true →
  ∃ pre post lit,
    (@Flush _ JSONReporter (@AddResult _ JSONReporter rs rule metric duration state (Some m)).1).2
    = pre +:+ member "      " k lit +:+ post ∧
    decode_literal lit = Some v ∧ html_safe lit = true.
Proof.
  intros Hk Hv. cbn [AddResult Flush JSONReporter fst snd].
  destruct (json_encode_elem (rs ++ [result_of rule metric duration state (Some m)])
              (result_of rule metric duration state (Some m))) as (p1 & q1 & ->).
  { apply elem_of_app. right. by apply list_elem_of_singleton. }
  destruct (json_result_annotation (result_of rule metric duration state (Some m)) m k v eq_refl Hk)
    as (p2 & q2 & ->).
  exists (p1 +:+ p2), (q2 +:+ q1), (appendString v).
  split_and!; [by rewrite !string_app_assoc | by apply appendString_roundtrip | apply appendString_html_safe].
Qed.

(** C18. The text reporter's line for a result does not depend on the
    order Go's map iteration takes, except for the order of the
    annotation lines: a FIRING result prints the line with the labels
    sorted by [model.Metric.String], then the annotation lines in some
    order; any other result prints what it prints under the order of
    [map_to_list]. *)
Theorem TextAddResult_order (o : gmap string string → list (string * string))
    (metric : gmap string string) (duration : Z) (state : string)
    (annotations : option (gmap string string)) :
  (∀ m, o m ≡ₚ map_to_list m) →
  ∃ lines,
    lines ≡ₚ map (λ kv, "          - " +:+ kv.1 +:+ ": " +:+ kv.2 +:+ newline)
               (from_option map_to_list [] annotations) ∧
    TextAddResult o metric duration state annotations =
      if String.eqb state "FIRING" then
        "      🔥 FIRING! [" +:+ MetricString metric +:+ "] (Duration: " +:+ DurationString duration +:+
        ")" +:+ newline +:+ String.concat EmptyString lines
      else TextAddResult map_to_list metric duration state annotations.
Proof.
  intros Ho. unfold TextAddResult. rewrite !MetricString_of_perm by done.
  exists (map (λ kv, "          - " +:+ kv.1 +:+ ": " +:+ kv.2 +:+ newline) (from_option o [] annotations)).
  split; [| by destruct (String.eqb state "FIRING")].
  apply Permutation_map. destruct annotations as [m|]; simpl; [apply Ho | done].
Qed.

(** ** Witnesses *)

Lemma JSONReporter_annotation_witness :
  ∃ pre post lit,
    (@Flush _ JSONReporter (@AddResult _ JSONReporter [] (mkRule "InstanceDown" "up == 0" "5m" ∅ ∅)
       {[ "job" := "api" ]} 600000000000 "FIRING" (Some {[ "summary" := "<no value>" ]})).1).2
    = pre +:+ member "      " "summary" lit +:+ post ∧
    decode_literal lit = Some "<no value>" ∧ html_safe lit = true.
Proof. apply JSONReporter_annotation; reflexivity. Defined.

Lemma TextAddResult_order_witness :
  ∃ lines,
    lines ≡ₚ map (λ kv, "          - " +:+ kv.1 +:+ ": " +:+ kv.2 +:+ newline)
               (map_to_list ({[ "summary" := "api at 1"; "description" := "down" ]} : gmap string string)) ∧
    TextAddResult (λ m, reverse (map_to_list m)) {[ "job" := "api"; "instance" := "a:1" ]} 600000000000 "FIRING"
      (Some {[ "summary" := "api at 1"; "description" := "down" ]})
    = "      🔥 FIRING! [" +:+ MetricString {[ "job" := "api"; "instance" := "a:1" ]} +:+
      "] (Duration: " +:+ DurationString 600000000000 +:+ ")" +:+ newline +:+ String.concat EmptyString lines.
Proof.
  destruct (TextAddResult_order (λ m, reverse (map_to_list m)) {[ "job" := "api"; "instance" := "a:1" ]}
              600000000000 "FIRING" (Some {[ "summary" := "api at 1"; "description" := "down" ]})
              (λ m, reverse_Permutation (map_to_list m))) as (lines & H1 & H2).
  change (String.eqb "FIRING" "FIRING") with true in H2. cbv iota in H2.
  exists lines. split; [exact H1 | exact H2].
Defined.

End Report.
