(* ===== verification/Flag.v ===== *)
(** * Command-line flags

    [config.Load] (src/internal/config/config.go) declares five string
    flags with [flag.String] and reads the command line with
    [flag.Parse].  This file models the part of Go's [flag] package
    (flag/flag.go) those calls use, for string flags: the loop of
    [FlagSet.Parse] over [parseOne], with its syntax ([-name=value],
    [-name value], [--name], the terminator [--], the first non-flag
    argument), its errors and the [-h]/[-help] request; and the usage
    message [failf] and the help request print ([Usage], [PrintDefaults],
    [UnquoteUsage]).  The standard library is not code of this
    repository; the definitions follow flag.go.

    [parse_loop] runs Go's unbounded [for] loop on fuel; each round that
    goes on consumes an argument ([parseOne_shrinks]), so [length args]
    rounds and one more suffice: more fuel changes nothing
    ([parse_loop_fuel]). *)

From S2P Require Import Prelude Json Report.
From stdpp Require Import sorting.
Import Report.

Local Open Scope Z_scope.

Module Flag.

(** A string flag as [flag.String(name, value, usage)] defines it. *)
Record FlagDef : Type := mkFlag { Name : string; DefValue : string; Usage : string }.

(** The errors of [parseOne]; [ErrHelp] is [flag.ErrHelp]. *)
Inductive FlagError : Type :=
| ErrBadSyntax (arg : string)
| ErrNotDefined (name : string)
| ErrNeedsArgument (name : string)
| ErrHelp.

Definition FlagError_Error (e : FlagError) : string :=
  match e with
  | ErrBadSyntax s => "bad flag syntax: " +:+ s
  | ErrNotDefined n => "flag provided but not defined: -" +:+ n
  | ErrNeedsArgument n => "flag needs an argument: -" +:+ n
  | ErrHelp => "flag: help requested"
  end.

(** ** [parseOne] *)

(** [for i := 1; i < len(name); i++ { if name[i] == '=' ... }]: the
    name before the first [=] after its first byte, and the value after
    it. *)
Fixpoint split_eq_from (s : string) : string * option string :=
  match s with
  | EmptyString => (EmptyString, None)
  | String c r =>
      if Ascii.eqb c "=" then (EmptyString, Some r)
      else let '(b, v) := split_eq_from r in (String c b, v)
  end.

Definition split_name (name : string) : string * option string :=
  match name with
  | EmptyString => (EmptyString, None)
  | String c r => let '(b, v) := split_eq_from r in (String c b, v)
  end.

(** [f.formal[name]] *)
Definition lookup_flag (fs : list FlagDef) (name : string) : option FlagDef :=
  List.find (λ fd, String.eqb (Name fd) name) fs.

(** What one call of [parseOne] does: a flag was set and the loop goes
    on with the remaining arguments; the flags end (the remaining
    arguments are [f.args]); or an error. *)
Inductive step : Type :=
| Seen (vals : gmap string string) (args : list string)
| Stop (args : list string)
| Fail (e : FlagError).

(** [parseOne] with the values set so far ([vals]: the flags' current
    values, by name) and the arguments still to read. *)
Definition parseOne (fs : list FlagDef) (vals : gmap string string) (args : list string) : step :=
  match args with
  | [] => Stop []
  | s :: rest =>
    match s with
    | String c0 (String c1 r) =>
      if negb (Ascii.eqb c0 "-") then Stop args else
      let minuses := Ascii.eqb c1 "-" in
      if minuses && String.eqb r "" then Stop rest else
      let name := if minuses then r else String c1 r in
      match name with
      | EmptyString => Fail (ErrBadSyntax s)
      | String n0 _ =>
        if Ascii.eqb n0 "-" || Ascii.eqb n0 "=" then Fail (ErrBadSyntax s) else
        let '(name, value) := split_name name in
        match lookup_flag fs name with
        | None =>
            if String.eqb name "help" || String.eqb name "h" then Fail ErrHelp
            else Fail (ErrNotDefined name)
        | Some _ =>
            match value with
            | Some v => Seen (<[name := v]> vals) rest
            | None =>
              match rest with
              | v :: rest' => Seen (<[name := v]> vals) rest'
              | [] => Fail (ErrNeedsArgument name)
              end
            end
        end
      end
    | _ => Stop args
    end
  end.

(** The loop of [FlagSet.Parse]: [parseOne] until it does not see a
    flag. *)
Fixpoint parse_loop (fuel : nat) (fs : list FlagDef) (vals : gmap string string)
    (args : list string) : result (gmap string string * list string) FlagError :=
  match fuel with
  | O => Ok (vals, args)
  | S n =>
    match parseOne fs vals args with
    | Seen vals' args' => parse_loop n fs vals' args'
    | Stop args' => Ok (vals, args')
    | Fail e => Err e
    end
  end.

(** ** The usage message *)

(** [UnquoteUsage] for a string flag: a back-quoted word of the usage
    names the argument, else [string]. *)
Fixpoint backquote_end (s : string) : option (string * string) :=
  match s with
  | EmptyString => None
  | String c r =>
      if Ascii.eqb c "`" then Some (EmptyString, r)
      else match backquote_end r with Some (w, post) => Some (String c w, post) | None => None end
  end.

Fixpoint unquote_from (s : string) : option (string * string * string) :=
  match s with
  | EmptyString => None
  | String c r =>
      if Ascii.eqb c "`" then
        match backquote_end r with Some (w, post) => Some (EmptyString, w, post) | None => None end
      else match unquote_from r with Some (pre, w, post) => Some (String c pre, w, post) | None => None end
  end.

Definition UnquoteUsage (fd : FlagDef) : string * string :=
  match unquote_from (Usage fd) with
  | Some (pre, w, post) => (w, pre +:+ w +:+ post)
  | None => ("string", Usage fd)
  end.

(** [strings.ReplaceAll(usage, "\n", "\n    \t")] *)
Fixpoint indent_usage (s : string) : string :=
  match s with
  | EmptyString => EmptyString
  | String c r =>
      if Ascii.eqb c "010" then String c ("    " +:+ String "009" (indent_usage r))
      else String c (indent_usage r)
  end.

(** The text [PrintDefaults] writes for one flag (it prints it with a
    newline). *)
Definition flag_usage (fd : FlagDef) : string :=
  let '(name, usage) := UnquoteUsage fd in
  let b := "  -" +:+ Name fd +:+ (if String.eqb name "" then EmptyString else " " +:+ name) in
  let b := b +:+ (if (String.length b <=? 4)%nat then String "009" EmptyString
                  else String "010" ("    " +:+ String "009" EmptyString)) in
  b +:+ indent_usage usage +:+
  (if String.eqb (DefValue fd) "" then EmptyString else " (default " +:+ Quote (DefValue fd) +:+ ")").

(** The default [Usage] of the command line: a header with the program
    name, then the flags sorted by name. *)
Definition usage_lines (prog : string) (fs : list FlagDef) : list string :=
  ("Usage of " +:+ prog +:+ ":") ::
  map flag_usage (merge_sort (λ a b, string_le (Name a) (Name b)) fs).

(** [flag.Parse()] on the command line: the lines printed on stderr, and
    the values or the error that makes [ExitOnError] exit; [failf]
    prints the error and the usage, the help request the usage. *)
Definition Parse (prog : string) (fs : list FlagDef) (args : list string)
    : list string * result (gmap string string * list string) FlagError :=
  match parse_loop (S (length args)) fs ∅ args with
  | Err ErrHelp => (usage_lines prog fs, Err ErrHelp)
  | Err e => (FlagError_Error e :: usage_lines prog fs, Err e)
  | Ok r => ([], Ok r)
  end.

(** [os.Exit] status of [ExitOnError]. *)
Definition exit_code (e : FlagError) : Z := match e with ErrHelp => 0 | _ => 2 end.

(** ** Lemmas *)

(** A name without [=], then [=value]. *)
Lemma split_eq_from_app (n v : string) :
  split_eq_from n = (n, None) → split_eq_from (n +:+ String "=" v) = (n, Some v).
Proof.
  induction n as [|c n IH]; [done |]. cbn [split_eq_from]. rewrite string_app_cons. cbn [split_eq_from].
  destruct (Ascii.eqb c "="); [done |].
  destruct (split_eq_from n) as [b o]. intros [= -> ->]. by rewrite IH.
Qed.

(** [-name=value] sets a defined flag whatever the value. *)
Lemma parseOne_assign (fs : list FlagDef) (vals : gmap string string) (c : ascii) (r v : string)
    (rest : list string) (fd : FlagDef) :
  Ascii.eqb c "-" = false → Ascii.eqb c "=" = false → split_eq_from r = (r, None) →
  lookup_flag fs (String c r) = Some fd →
  parseOne fs vals (("-" +:+ String c r +:+ String "=" v) :: rest)
  = Seen (<[String c r := v]> vals) rest.
Proof.
  intros Hc1 Hc2 Hr Hl. rewrite !string_app_cons, string_app_nil_l. cbn [parseOne].
  rewrite Hc1, Hc2. cbn [negb andb orb Ascii.eqb Bool.eqb]. unfold split_name.
  rewrite split_eq_from_app by done. cbn -[lookup_flag]. by rewrite Hl, Hc1.
Qed.

(** [-name] of a flag the set does not define (and neither [-h] nor
    [-help]) is an error. *)
Lemma parseOne_undefined (fs : list FlagDef) (vals : gmap string string) (c : ascii) (r : string)
    (rest : list string) :
  Ascii.eqb c "-" = false → Ascii.eqb c "=" = false → split_eq_from r = (r, None) →
  lookup_flag fs (String c r) = None →
  String.eqb (String c r) "help" = false → String.eqb (String c r) "h" = false →
  parseOne fs vals (("-" +:+ String c r) :: rest) = Fail (ErrNotDefined (String c r)).
Proof.
  intros Hc1 Hc2 Hr Hl Hh1 Hh2. rewrite string_app_cons, string_app_nil_l. cbn [parseOne].
  rewrite Hc1, Hc2. cbn [negb andb orb]. unfold split_name. rewrite Hr. cbn -[lookup_flag String.eqb].
  by rewrite Hl, Hc1, Hh1, Hh2.
Qed.

(** Each round that goes on consumes at least one argument: the
    measure of Go's [for] loop. *)
Lemma parseOne_shrinks (fs : list FlagDef) (vals vals' : gmap string string) (args args' : list string) :
  parseOne fs vals args = Seen vals' args' → (length args' < length args)%nat.
Proof.
  unfold parseOne. destruct args as [|s rest]; [done |].
  repeat (case_match; try done); intros [= _ <-]; simpl; lia.
Qed.

(** The fuel [Parse] gives the loop is enough: any fuel above the number
    of arguments gives the same result. *)
Lemma parse_loop_fuel (fs : list FlagDef) (args : list string) (vals : gmap string string) (n m : nat) :
  (length args < n)%nat → (length args < m)%nat →
  parse_loop n fs vals args = parse_loop m fs vals args.
Proof.
  revert m vals args. induction n as [|n IH]; intros [|m] vals args Hn Hm; [lia .. |].
  cbn [parse_loop]. destruct (parseOne fs vals args) as [vals' args'| |] eqn:E; [| done ..].
  apply parseOne_shrinks in E. apply IH; lia.
Qed.

End Flag.
