(* ===== verification/Load.v ===== *)
(** * Loading the configuration

    [Load] of src/internal/config/config.go: the flags (after
    [flag.Parse]), the window read by [time.ParseDuration] and capped at
    four hours, the target time (the clock, or the [-at] flag read in the
    local zone), the replay range [target - window, target + window], the
    three-month look-back limit, then the rule file read and decoded.
    The clock readings, [time.ParseInLocation], [Time.AddDate],
    [Time.Format], [os.ReadFile] and [yaml.Unmarshal] are library or
    system calls: they are the [Variable]s of the section, the clock as
    the sequence of the values its successive calls return.  What [Load]
    prints on stderr is the list of lines it returns beside its result.
    [LoadArgs] is the whole function from its first line: the five
    [flag.String] declarations ([CommandLine], [flags_of]) and
    [flag.Parse] on the command line (the [Flag] model), which may exit
    the program, then the body on the flags' values.  The errors [Load]
    returns are Go error values ([LoadError_go], on [Errors]): the
    library's error wrapped with [%w], or a new error for the two safety
    blocks. *)

From S2P Require Import Prelude Errors Duration Format Rules Json Report Flag.
Import Errors Duration Format Config Flag.

Local Open Scope Z_scope.

Module Load.

(** The values of the flags after [flag.Parse], named as the pointers
    [flag.String] returns. *)
Record Flags : Type := mkFlags {
  filePath : string;
  promURL : string;
  atTimestamp : string;
  windowStr : string;
  outputFormat : string
}.

(** The flags' defaults, as [flag.String] declares them. *)
Definition defaults : Flags :=
  mkFlags "alert.yaml" "http://localhost:9090" "" "30m" "text".

(** The five [flag.String] calls: name, default value, usage. *)
Definition CommandLine : list FlagDef :=
  [mkFlag "file" "alert.yaml" "Path to the alert rule file (YAML/TF)";
   mkFlag "url" "http://localhost:9090" "Prometheus API URL";
   mkFlag "at" "" "Target timestamp (e.g., '2023-11-20 14:30'). Default is Now.";
   mkFlag "window" "30m" "Time window around the target (e.g., 30m means target +/- 30m)";
   mkFlag "output" "text" "Output format (text, json, yaml)"].

(** [*p] for the pointer [flag.String] returned: the value the command
    line set, else the default. *)
Definition flag_value (vals : gmap string string) (name def : string) : string :=
  default def (vals !! name).

Definition flags_of (vals : gmap string string) : Flags :=
  mkFlags (flag_value vals "file" "alert.yaml") (flag_value vals "url" "http://localhost:9090")
    (flag_value vals "at" "") (flag_value vals "window" "30m") (flag_value vals "output" "text").

(** The errors [Load] returns, each with the values its message prints. *)
Inductive LoadError : Type :=
| WindowFormat (e : DurationError)
| WindowTooLarge (window : Z)
| TimeFormat (e : GoError)
| TooOld (start threeMonthsAgo : GoTime)
| ReadError (path : string) (e : GoError)
| YAMLError (e : GoError).

(** [-name=value] *)
Definition set_arg (name value : string) : string := "-" +:+ name +:+ String "=" value.

(** A command line that sets every flag. *)
Definition args_of (fl : Flags) : list string :=
  [set_arg "file" (filePath fl); set_arg "url" (promURL fl); set_arg "at" (atTimestamp fl);
   set_arg "window" (windowStr fl); set_arg "output" (outputFormat fl)].

(** How [Load] ends: [flag.Parse] exits the program ([ExitOnError]), or
    [Load] returns. *)
Inductive Outcome : Type :=
| Exited (code : Z)
| Returned (r : result Config LoadError).

Definition layout : string := "2006-01-02 15:04".

(** A [time.Time] as the clock and the time parser return them: its
    nanoseconds in range and its seconds from year 1 far (2^34 seconds,
    some 500 years) from the int64 bounds. *)
Definition sane_time (t : GoTime) : Prop :=
  valid_time t ∧ Z.abs (sec t + unixToInternal) + 2 ^ 34 <= int64_max.

(** ** Example: real-time mode, the clock at 2023-11-14 22:13:20 UTC *)
Module Examples.

Definition clock (i : nat) : GoTime := mkTime 1700000000 0.
Definition no_parse (layout value : string) : result GoTime GoError := Err (ErrNew 10 "cannot parse").
(** Three months of 30 days. *)
Definition months_back (t : GoTime) (years months days : Z) : GoTime :=
  mkTime (sec t + months * 30 * 86400) (nsec t).
Definition no_format (t : GoTime) (layout : string) : string := "".
Definition read_ok (path : string) : result string GoError := Ok "groups: []".
Definition decode_empty (data : string) : result RuleFile GoError := Ok (mkRuleFile []).
Definition no_file : GoError := ErrNew 11 "open alert.yaml: no such file or directory".
Definition read_fail (path : string) : result string GoError := Err no_file.
Definition flags (w : string) : Flags := mkFlags "alert.yaml" "http://localhost:9090" "" w "text".

End Examples.

Section Load.

(** The [i]-th reading of [time.Now()]. *)
Variable Now : nat → GoTime.
(** [time.ParseInLocation(layout, value, time.Local)] *)
Variable ParseInLocation : string → string → result GoTime GoError.
(** [t.AddDate(years, months, days)] *)
Variable AddDate : GoTime → Z → Z → Z → GoTime.
(** [t.Format(layout)] *)
Variable Format : GoTime → string → string.
(** [os.ReadFile(path)]: the bytes, or the error. *)
Variable ReadFile : string → result string GoError.
(** [yaml.Unmarshal(data, &ruleFile)] *)
Variable Unmarshal : string → result RuleFile GoError.

(** The error [time.ParseDuration] returns ([errors.New]). *)
Definition duration_error (e : DurationError) : GoError := Errorf 3 (DurationError_Error e).

(** The error value [Load] returns for each failure: [fmt.Errorf] with
    [%w] around the library's error, or, for the two safety blocks, a new
    error ([fmt.Errorf] without [%w], identities 1 and 2). *)
Definition LoadError_go (e : LoadError) : GoError :=
  match e with
  | WindowFormat e => Errorf_w "invalid window format: " (duration_error e)
  | WindowTooLarge w =>
      Errorf 1 ("safety block: window size " +:+ DurationString w +:+
      " exceeds maximum allowed limit of 4h. please choose a smaller window to avoid crashing prometheus")
  | TimeFormat e => Errorf_w "invalid time format, please use 'YYYY-MM-DD HH:MM': " e
  | TooOld start ago =>
      Errorf 2 ("safety block: query start time " +:+ Format start "2006-01-02" +:+
      " is older than 3 months limit (" +:+ Format ago "2006-01-02" +:+ ")")
  | ReadError path e => Errorf_w ("error reading file " +:+ path +:+ ": ") e
  | YAMLError e => Errorf_w "error parsing YAML: " e
  end.

(** The target time, the line announcing the mode, and the number of
    clock readings taken. *)
Definition target_time (fl : Flags) : result GoTime GoError * list string * nat :=
  if String.eqb (atTimestamp fl) "" then
    (Ok (Now 0), ["🕒 Mode: Realtime (Now)"], 1%nat)
  else
    match ParseInLocation layout (atTimestamp fl) with
    | Err e => (Err e, [], 0%nat)
    | Ok t => (Ok t, ["🕰️ Mode: Time Travel (Target: " +:+ Format t layout +:+ ")"], 0%nat)
    end.

(** The separator line: 51 dashes. *)
Definition dashes : string := String.concat EmptyString (repeat "-" 51).

(** The lines printed once the range passed the checks. *)
Definition banner (fl : Flags) (start end_ : GoTime) : list string :=
  ["🔍 Replay Window: " +:+ Format start "15:04" +:+ "  <---->  " +:+ Format end_ "15:04";
   dashes; "🔧 Configuration:"; "   File:  " +:+ filePath fl; "   URL:   " +:+ promURL fl; dashes].

Definition Load (fl : Flags) : list string * result Config LoadError :=
  match ParseDuration (windowStr fl) with
  | Err e => ([], Err (WindowFormat e))
  | Ok w =>
    if 4 * Hour <? w then ([], Err (WindowTooLarge w)) else
    let '(target, out, clock) := target_time fl in
    match target with
    | Err e => (out, Err (TimeFormat e))
    | Ok target =>
      let start := Add target (wrap_i64 (- w)) in
      let end_ := Add target w in
      let threeMonthsAgo := AddDate (Now clock) 0 (-3) 0 in
      if Before start threeMonthsAgo then (out, Err (TooOld start threeMonthsAgo)) else
      let out := out ++ banner fl start end_ in
      match ReadFile (filePath fl) with
      | Err e => (out, Err (ReadError (filePath fl) e))
      | Ok data =>
        match Unmarshal data with
        | Err e => (out, Err (YAMLError e))
        | Ok ruleFile => (out, Ok (mkConfig (filePath fl) (promURL fl) (outputFormat fl) start end_ ruleFile))
        end
      end
    end
  end.

(** [config.Load()] from its first line: the flags declared and the
    command line [args] ([os.Args[1:]]) parsed, then the rest of the
    body on the flags' values. *)
Definition LoadArgs (prog : string) (args : list string) : list string * Outcome :=
  match Parse prog CommandLine args with
  | (errs, Err e) => (errs, Exited (exit_code e))
  | (_, Ok (vals, _)) => let '(out, r) := Load (flags_of vals) in (out, Returned r)
  end.

(** ** Theorems *)

(** What a successful [Load] returns, case by case. *)
Lemma Load_ok_inv (fl : Flags) (out : list string) (cfg : Config) :
  Load fl = (out, Ok cfg) →
  ∃ w target out0 k data,
    ParseDuration (windowStr fl) = Ok w ∧ (w <= 4 * Hour) ∧
    target_time fl = (Ok target, out0, k) ∧
    Before (Add target (wrap_i64 (- w))) (AddDate (Now k) 0 (-3) 0) = false ∧
    ReadFile (filePath fl) = Ok data ∧
    Unmarshal data = Ok (RuleFile_ cfg) ∧
    cfg = mkConfig (filePath fl) (promURL fl) (outputFormat fl)
            (Add target (wrap_i64 (- w))) (Add target w) (RuleFile_ cfg) ∧
    out = out0 ++ banner fl (Add target (wrap_i64 (- w))) (Add target w).
Proof.
  unfold Load. destruct (ParseDuration _) as [w|e]; [| done].
  case_match eqn:Hcap; [done |]. zbool.
  destruct (target_time fl) as [[[target|e] out0] k] eqn:Ht; [| done].
  destruct (Before _ _) eqn:Hb; [done |].
  destruct (ReadFile _) as [data|e] eqn:Hr; [| done].
  destruct (Unmarshal data) as [rf|e] eqn:Hu; [| done].
  intros [= <- <-]. by exists w, target, out0, k, data.
Qed.

(** The replay range [Load] computes, on the instants. *)
Lemma Load_range_instants (w : Z) (target : GoTime) :
  sane_time target → in_int64 w →
  instant (Add target (wrap_i64 (- w))) = instant target + wrap_i64 (- w) ∧
  valid_time (Add target (wrap_i64 (- w))) ∧
  instant (Add target w) = instant target + w ∧ valid_time (Add target w).
Proof.
  intros [Hv Hb] Hw. pose proof (wrap_i64_in_range (- w)) as Hw'.
  assert (Hq : ∀ d, in_int64 d → Z.abs (Z.quot d 1000000000) <= 2 ^ 34 - 1).
  { intros d Hd. apply Z.abs_le. split.
    - apply Z.quot_le_lower_bound; int_lia.
    - apply Z.quot_le_upper_bound; int_lia. }
  destruct (Add_instant target (wrap_i64 (- w))) as [H1 H2];
    [done | unfold addable; specialize (Hq _ Hw'); lia |].
  destruct (Add_instant target w) as [H3 H4];
    [done | unfold addable; specialize (Hq _ Hw); lia |]. done.
Qed.

Section Sane.

Hypothesis Now_sane : ∀ i, sane_time (Now i).
Hypothesis ParseInLocation_sane : ∀ l v t, ParseInLocation l v = Ok t → sane_time t.

Lemma target_time_sane (fl : Flags) (target : GoTime) (out : list string) (k : nat) :
  target_time fl = (Ok target, out, k) →
  sane_time target ∧
  (if String.eqb (atTimestamp fl) "" then target = Now 0 ∧ k = 1%nat
   else ParseInLocation layout (atTimestamp fl) = Ok target ∧ k = 0%nat).
Proof.
  unfold target_time. destruct (String.eqb _ _).
  - intros [= <- _ <-]. auto.
  - destruct (ParseInLocation _ _) eqn:E; [| done]. intros [= <- _ <-]. eauto.
Qed.

(** C27. A configuration [Load] returns has a window of at most four
    hours around the target time (the clock in real-time mode, the
    [-at] flag otherwise): the replay range runs from the target minus
    the window to the target plus the window, and its start is not
    before the limit three months before the clock's last reading. *)
Theorem Load_range (fl : Flags) (out : list string) (cfg : Config) :
  Load fl = (out, Ok cfg) →
  ∃ w target,
    ParseDuration (windowStr fl) = Ok w ∧ (w <= 4 * Hour) ∧
    (if String.eqb (atTimestamp fl) "" then target = Now 0
     else ParseInLocation layout (atTimestamp fl) = Ok target) ∧
    instant (Start cfg) = instant target + wrap_i64 (- w) ∧
    instant (End cfg) = instant target + w ∧
    Before (Start cfg)
      (AddDate (Now (if String.eqb (atTimestamp fl) "" then 1 else 0)) 0 (-3) 0) = false.
Proof.
  intros (w & target & out0 & k & data & Hw & Hle & Ht & Hb & _ & _ & Hcfg & _)%Load_ok_inv.
  apply target_time_sane in Ht as [Hs Hk].
  pose proof (ParseDuration_in_int64 _ _ Hw) as Hr.
  destruct (Load_range_instants w target Hs Hr) as (H1 & _ & H3 & _).
  exists w, target. rewrite Hcfg. simpl. split_and!; try done.
  - by destruct (String.eqb _ _); destruct Hk.
  - by destruct (String.eqb _ _); destruct Hk as [_ ->].
Qed.

(** C28. [Load] accepts a negative window (the four-hour cap bounds it
    from above only): when the window parses to a negative duration and
    the target time, the three-month limit, the file and its YAML all
    pass, [Load] returns a configuration whose replay range ends before
    it starts. *)
Theorem Load_negative_window (fl : Flags) (w : Z) (target : GoTime) (out0 : list string) (k : nat)
    (data : string) (rf : RuleFile) :
  ParseDuration (windowStr fl) = Ok w → (int64_min < w < 0) →
  target_time fl = (Ok target, out0, k) →
  Before (Add target (wrap_i64 (- w))) (AddDate (Now k) 0 (-3) 0) = false →
  ReadFile (filePath fl) = Ok data → Unmarshal data = Ok rf →
  ∃ out cfg, Load fl = (out, Ok cfg) ∧ Before (End cfg) (Start cfg) = true.
Proof.
  intros Hw Hneg Ht Hb Hr Hu.
  pose proof (ParseDuration_in_int64 _ _ Hw) as Hin.
  destruct (target_time_sane fl target out0 k Ht) as [Hs _].
  destruct (Load_range_instants w target Hs Hin) as (H1 & H2 & H3 & H4).
  unfold Load. rewrite Hw. destruct (Z.ltb_spec (4 * Hour) w); [unfold Hour, Minute, Second, Millisecond, Microsecond, Nanosecond in *; lia |].
  rewrite Ht, Hb, Hr, Hu. do 2 eexists. split; [reflexivity |]. simpl.
  rewrite Before_instant, H1, H3 by done.
  rewrite wrap_i64_id by int_lia. apply Z.ltb_lt. lia.
Qed.

End Sane.

(** C29. The four-hour cap is inclusive: [Load] fails with the
    window-size error exactly when the window parses to more than four
    hours (and then it has printed nothing). *)
Theorem Load_window_limit (fl : Flags) (w : Z) :
  (∃ out, Load fl = (out, Err (WindowTooLarge w))) ↔
  ParseDuration (windowStr fl) = Ok w ∧ (4 * Hour < w).
Proof.
  split.
  - intros [out H]. revert H. unfold Load.
    destruct (ParseDuration _) as [w'|e]; [| done].
    destruct (Z.ltb_spec (4 * Hour) w'); [by intros [= <- <-] |].
    destruct (target_time fl) as [[[target|e] out0] k]; [| done].
    destruct (Before _ _); [done |].
    destruct (ReadFile _); [| done]. by destruct (Unmarshal _).
  - intros [Hw Hlt]. exists []. unfold Load. rewrite Hw.
    by destruct (Z.ltb_spec (4 * Hour) w); [| lia].
Qed.

(** C10. Every error [Load] returns comes from its cause, and the four
    that come from a library call wrap that call's error ([%w]): a bad
    window, an unreadable [-at] time, an unreadable file and a YAML error
    unwrap to the error of [time.ParseDuration], [time.ParseInLocation],
    [os.ReadFile] and [yaml.Unmarshal]; the two safety blocks wrap
    nothing. *)
Theorem Load_error_wraps (fl : Flags) (out : list string) (e : LoadError) :
  Load fl = (out, Err e) →
  match e with
  | WindowFormat d => ParseDuration (windowStr fl) = Err d ∧ Unwrap (LoadError_go e) = Some (duration_error d)
  | TimeFormat lib => ParseInLocation layout (atTimestamp fl) = Err lib ∧ Unwrap (LoadError_go e) = Some lib
  | ReadError path lib => path = filePath fl ∧ ReadFile (filePath fl) = Err lib ∧ Unwrap (LoadError_go e) = Some lib
  | YAMLError lib =>
      (∃ data, ReadFile (filePath fl) = Ok data ∧ Unmarshal data = Err lib) ∧ Unwrap (LoadError_go e) = Some lib
  | WindowTooLarge _ | TooOld _ _ => Unwrap (LoadError_go e) = None
  end.
Proof.
  unfold Load. destruct (ParseDuration _) as [w|d] eqn:Hw; [| by intros [= _ <-]].
  destruct (Z.ltb_spec (4 * Hour) w); [by intros [= _ <-] |].
  destruct (target_time fl) as [[[target|lib] out0] k] eqn:Ht.
  2: { intros [= _ <-]. split; [| done]. revert Ht. unfold target_time.
       destruct (String.eqb _ _); [done |]. by destruct (ParseInLocation _ _); [| intros [= ->]]. }
  destruct (Before _ _); [by intros [= _ <-] |].
  destruct (ReadFile _) as [data|lib] eqn:Hr; [| by intros [= _ <-]].
  destruct (Unmarshal data) as [rf|lib] eqn:Hu; [done |]. intros [= _ <-]. split; [by exists data | done].
Qed.

(** C25. A flag [config.Load] does not declare makes the program exit
    with status 2 before anything of [Load]'s body runs: [flag.Parse]
    prints [flag provided but not defined: -name], then the usage, a
    header and the five flags sorted by name. *)
Theorem LoadArgs_unknown_flag (prog : string) (c : ascii) (r : string) (rest : list string) :
  Ascii.eqb c "-" = false → Ascii.eqb c "=" = false → split_eq_from r = (r, None) →
  lookup_flag CommandLine (String c r) = None →
  String.eqb (String c r) "help" = false → String.eqb (String c r) "h" = false →
  ∃ lines,
    LoadArgs prog (("-" +:+ String c r) :: rest)
    = (("flag provided but not defined: -" +:+ String c r) :: ("Usage of " +:+ prog +:+ ":") :: lines,
       Exited 2) ∧
    Forall2 (λ line name, ∃ tail, line = "  -" +:+ name +:+ tail) lines ["at"; "file"; "output"; "url"; "window"].
Proof.
  intros Hc1 Hc2 Hr Hl Hh1 Hh2. unfold LoadArgs, Parse. cbn [length parse_loop].
  rewrite parseOne_undefined by done. eexists. split; [reflexivity |].
  vm_compute. repeat constructor; eexists; reflexivity.
Qed.

(** C34. Every combination of flag values can be given on the command
    line: [-file=...], [-url=...], [-at=...], [-window=...] and
    [-output=...] reach the body of [Load] unchanged, whatever the
    values (empty, or containing [=] or a leading [-]); with no argument
    the body runs on the defaults. *)
Theorem LoadArgs_roundtrip (prog : string) (fl : Flags) :
  LoadArgs prog (args_of fl) = (let '(out, r) := Load fl in (out, Returned r)) ∧
  LoadArgs prog [] = (let '(out, r) := Load defaults in (out, Returned r)).
Proof.
  split; [| reflexivity].
  unfold LoadArgs, Parse, args_of, set_arg. cbn [length parse_loop].
  do 5 (erewrite (parseOne_assign CommandLine) by reflexivity). cbn [parseOne].
  replace (flags_of _) with fl; [done |].
  destruct fl. unfold flags_of, flag_value. by simplify_map_eq.
Qed.

End Load.

(** ** Witnesses *)

Import Examples.

Abbreviation load := (Load clock no_parse months_back no_format read_ok decode_empty).

Lemma clock_sane (i : nat) : sane_time (clock i).
Proof. unfold sane_time, valid_time, unixToInternal. simpl. int_lia. Qed.

Lemma no_parse_sane (l v : string) (t : GoTime) : no_parse l v = Ok t → sane_time t.
Proof. discriminate. Qed.

Lemma Load_range_witness :
  ∃ w target,
    ParseDuration "30m" = Ok w ∧ (w <= 4 * Hour) ∧ target = clock 0 ∧
    instant (mkTime 1699998200 0) = instant target + wrap_i64 (- w) ∧
    instant (mkTime 1700001800 0) = instant target + w ∧
    Before (mkTime 1699998200 0) (months_back (clock 1) 0 (-3) 0) = false.
Proof.
  apply (Load_range clock no_parse months_back no_format read_ok decode_empty clock_sane no_parse_sane
           (flags "30m") (fst (load (flags "30m")))
           (mkConfig "alert.yaml" "http://localhost:9090" "text" (mkTime 1699998200 0)
              (mkTime 1700001800 0) (mkRuleFile []))).
  vm_compute. reflexivity.
Defined.

Lemma Load_negative_window_witness :
  ∃ out cfg, load (flags "-30m") = (out, Ok cfg) ∧ Before (End cfg) (Start cfg) = true.
Proof.
  apply (Load_negative_window clock no_parse months_back no_format read_ok decode_empty clock_sane
           no_parse_sane (flags "-30m") (-1800000000000) (clock 0) ["🕒 Mode: Realtime (Now)"] 1%nat
           "groups: []" (mkRuleFile []));
    [vm_compute; reflexivity | int_lia | vm_compute; reflexivity ..].
Defined.

Lemma Load_window_limit_witness :
  ∃ out, load (flags "4h0m1s") = (out, Err (WindowTooLarge 14401000000000)).
Proof.
  apply (Load_window_limit clock no_parse months_back no_format read_ok decode_empty).
  split; [vm_compute; reflexivity | unfold Hour, Minute, Second, Millisecond, Microsecond, Nanosecond; lia].
Defined.

Lemma Load_error_wraps_witness :
  "alert.yaml" = "alert.yaml" ∧ read_fail "alert.yaml" = Err no_file ∧
  Unwrap (LoadError_go no_format (ReadError "alert.yaml" no_file)) = Some no_file.
Proof.
  apply (Load_error_wraps clock no_parse months_back no_format read_fail decode_empty (flags "30m")
           (fst (Load clock no_parse months_back no_format read_fail decode_empty (flags "30m")))
           (ReadError "alert.yaml" no_file)).
  vm_compute. reflexivity.
Defined.

Lemma LoadArgs_unknown_flag_witness :
  ∃ lines,
    LoadArgs clock no_parse months_back no_format read_ok decode_empty "prom-verifier" ["-verbose"; "-file=x"]
    = (["flag provided but not defined: -verbose"; "Usage of prom-verifier:"] ++ lines, Exited 2) ∧
    Forall2 (λ line name, ∃ tail, line = "  -" +:+ name +:+ tail) lines ["at"; "file"; "output"; "url"; "window"].
Proof.
  apply (LoadArgs_unknown_flag clock no_parse months_back no_format read_ok decode_empty
           "prom-verifier" "v" "erbose" ["-file=x"]); reflexivity.
Defined.

End Load.
