(* ===== verification/Engine.v ===== *)
(** * The rule evaluation engine

    src/internal/engine/engine.go: the Prometheus sample types the engine
    reads ([Model]), the alert states and results, [calculateAlerts] with
    its per-series body, [evaluateRule] and [Run].  The range query is a
    function [QueryRange] from an expression and a range to a value or an
    error (the HTTP client is not modelled); the reporter calls and the
    error printed on a failed query are the events of a trace, in the
    order the code performs them; a Go runtime panic ends the trace. *)

From S2P Require Import Prelude Duration Template TextTemplate Render Rules.
From Stdlib Require Import SpecFloat.
Import Duration Template Render Config.

(** The types of github.com/prometheus/common/model the engine reads. *)
Module Model.

Record SamplePair : Type := mkSample {
  Timestamp : Z;
  Value : spec_float
}.

Record SampleStream : Type := mkStream {
  Metric : gmap string string;
  Values : list SamplePair
}.

(** [model.Value]: a matrix, or another kind (vector, scalar, string). *)
Inductive QueryValue : Type :=
| ValMatrix (m : list SampleStream)
| ValOther.

End Model.

Module Engine.

Inductive AlertState : Type :=
| StateFiring
| StatePending
| StateSilent.

#[export] Instance AlertState_eq_dec : EqDecision AlertState.
Proof. solve_decision. Defined.

(** [string(state)] *)
Definition AlertState_string (s : AlertState) : string :=
  match s with
  | StateFiring => "FIRING"
  | StatePending => "PENDING"
  | StateSilent => "SILENT"
  end.

Record AlertResult : Type := mkResult {
  Metric : gmap string string;
  Duration : Z;
  State : AlertState;
  Annotations : option (gmap string string)
}.

(** [v1.Range]: two instants and the step, a duration. *)
Record Range : Type := mkRange {
  RStart : GoTime;
  REnd : GoTime;
  Step : Z
}.

(** What the engine does that is visible outside: the reporter calls and
    the message of a failed query on stderr. *)
Inductive Event : Type :=
| EvAddResult (rule : Rule) (metric : gmap string string) (duration : Z)
    (state : string) (annotations : option (gmap string string))
| EvQueryError (err : string)
| EvFlush.

(** ** Example data

    The examples of the specification: a rule whose summary is
    ["{{ $labels.job }} at {{ $value }}"], a series of job ["api"] sampled
    ten minutes apart with value 1, and the template engine of
    [TextTemplate]. *)
Module Examples.

Definition one : spec_float := S754_finite false 1 0.
Definition api : gmap string string := {[ "job" := "api" ]}.
Definition summary : gmap string string := {[ "summary" := "{{ $labels.job }} at {{ $value }}" ]}.
Definition rule_for (f : string) : Rule := mkRule "InstanceDown" "up == 0" f ∅ summary.
Definition ten_minutes : Model.SampleStream :=
  Model.mkStream api [Model.mkSample (-600000) one; Model.mkSample 0 one].
Definition single : Model.SampleStream := Model.mkStream api [Model.mkSample 0 one].
Definition no_floats : Model.SampleStream := Model.mkStream api [].
Definition engine : TemplateEngine := TextTemplate.text_template TextTemplate.fmt_integral.
Definition answer (v : result Model.QueryValue string) : string → Range → result Model.QueryValue string :=
  λ _ _, v.
Definition config (rules : list Rule) : Config.Config :=
  Config.mkConfig "alert.yaml" "http://localhost:9090" "json" (mkTime 0 0) (mkTime 3600 0)
    (Config.mkRuleFile [Config.mkGroup "g" rules]).

End Examples.

Section Engine.

Context `{TE : TemplateEngine}.

(** The [for] duration: [""] is zero, and a string [ParseDuration]
    rejects is zero too. *)
Definition parseFor (f : string) : Z :=
  if String.eqb f "" then 0
  else match ParseDuration f with Ok d => d | Err _ => 0 end.

(** [if state == StateFiring { annotations = renderAnnotations(...,
    stream.Values[len(stream.Values)-1].Value) }] *)
Definition fire_annotations (rule : Rule) (stream : Model.SampleStream) (state : AlertState)
    : go (option (gmap string string)) :=
  if decide (state = StateFiring) then
    last ← go_index (Model.Values stream) (Z.of_nat (length (Model.Values stream)) - 1);
    mret (Some (renderAnnotations (Config.Annotations rule) (Model.Metric stream) (Model.Value last)))
  else mret None.

(** The body of [for _, stream := range matrix]. *)
Definition alertForStream (forDuration : Z) (rule : Rule) (stream : Model.SampleStream)
    : go AlertResult :=
  if (length (Model.Values stream) <? 2)%nat then
    let state := if (forDuration =? 0)%Z then StateFiring else StatePending in
    annotations ← fire_annotations rule stream state;
    mret (mkResult (Model.Metric stream) 0 state annotations)
  else
    first ← go_index (Model.Values stream) 0;
    last ← go_index (Model.Values stream) (Z.of_nat (length (Model.Values stream)) - 1);
    let duration := Sub (Time (Model.Timestamp last)) (Time (Model.Timestamp first)) in
    let state := if (forDuration <=? duration)%Z then StateFiring else StatePending in
    annotations ← fire_annotations rule stream state;
    mret (mkResult (Model.Metric stream) duration state annotations).

(** The loop, [results = append(results, ...)] at each series. *)
Fixpoint calculate_loop (forDuration : Z) (rule : Rule) (matrix : list Model.SampleStream)
    (results : list AlertResult) : go (list AlertResult) :=
  match matrix with
  | [] => mret results
  | stream :: rest =>
      res ← alertForStream forDuration rule stream;
      calculate_loop forDuration rule rest (results ++ [res])
  end.

Definition calculateAlerts (matrix : list Model.SampleStream) (rule : Rule)
    : go (list AlertResult) :=
  calculate_loop (parseFor (Config.For rule)) rule matrix [].

(** [rep.AddResult(rule, res.Metric, res.Duration, string(res.State),
    res.Annotations)] *)
Definition result_event (rule : Rule) (res : AlertResult) : Event :=
  EvAddResult rule (Metric res) (Duration res) (AlertState_string (State res)) (Annotations res).

Section Run.

(** [v1api.QueryRange(ctx, expr, r)]: the value, or the error. *)
Variable QueryRange : string → Range → result Model.QueryValue string.

Definition evaluateRule (rule : Rule) (start end_ : GoTime) : go (list Event) :=
  let r := mkRange start end_ (1 * Minute) in
  match QueryRange (Config.Expr rule) r with
  | Err err => GoOk [EvQueryError err]
  | Ok Model.ValOther => GoOk []
  | Ok (Model.ValMatrix matrix) =>
      match matrix with
      | [] => GoOk [EvAddResult rule ∅ 0 (AlertState_string StateSilent) None]
      | _ :: _ =>
          results ← calculateAlerts matrix rule;
          mret (map (result_event rule) results)
      end
  end.

(** The events of the rules of a group, in order; a panic stops the
    program after the events already emitted. *)
Fixpoint run_rules (rules : list Rule) (start end_ : GoTime) : list Event * option Panic :=
  match rules with
  | [] => ([], None)
  | rule :: rest =>
      match evaluateRule rule start end_ with
      | GoPanic p => ([], Some p)
      | GoOk evs => let '(evs', p) := run_rules rest start end_ in (evs ++ evs', p)
      end
  end.

Fixpoint run_groups (groups : list RuleGroup) (start end_ : GoTime) : list Event * option Panic :=
  match groups with
  | [] => ([], None)
  | group :: rest =>
      match run_rules (Config.Rules group) start end_ with
      | (evs, Some p) => (evs, Some p)
      | (evs, None) => let '(evs', p) := run_groups rest start end_ in (evs ++ evs', p)
      end
  end.

(** [Run]: every rule of every group, then one [Flush]. *)
Definition Run (cfg : Config.Config) : list Event * option Panic :=
  match run_groups (Config.Groups (Config.RuleFile_ cfg)) (Config.Start cfg) (Config.End cfg) with
  | (evs, None) => (evs ++ [EvFlush], None)
  | (evs, Some p) => (evs, Some p)
  end.

End Run.

(** ** Specification

    What a series' result is, in the terms of the specification: the
    elapsed time between the first and the last sample in milliseconds,
    as an int64 count of nanoseconds; the state from the [for]
    threshold; the annotations of a firing series rendered with the last
    sample's value. *)

Definition series_duration (vs : list Model.SamplePair) : Z :=
  match vs with
  | first :: _ :: _ =>
      match last vs with
      | Some l => clamp_int64 ((Model.Timestamp l - Model.Timestamp first) * Millisecond)
      | None => 0
      end
  | _ => 0
  end.

Definition series_state (fd : Z) (vs : list Model.SamplePair) : AlertState :=
  match vs with
  | _ :: _ :: _ => if (fd <=? series_duration vs)%Z then StateFiring else StatePending
  | _ => if (fd =? 0)%Z then StateFiring else StatePending
  end.

Definition series_annotations (rule : Rule) (s : Model.SampleStream) (st : AlertState)
    : option (gmap string string) :=
  match st, last (Model.Values s) with
  | StateFiring, Some l =>
      Some (renderAnnotations (Config.Annotations rule) (Model.Metric s) (Model.Value l))
  | _, _ => None
  end.

Definition series_result (fd : Z) (rule : Rule) (s : Model.SampleStream) : AlertResult :=
  let st := series_state fd (Model.Values s) in
  mkResult (Model.Metric s) (series_duration (Model.Values s)) st (series_annotations rule s st).

(** A series [calculateAlerts] can evaluate under the threshold [fd]:
    it has a sample, or the threshold is not zero. *)
Definition evaluable (fd : Z) (s : Model.SampleStream) : Prop :=
  Model.Values s ≠ [] ∨ fd ≠ 0%Z.

(** The first sample is no later than the last. *)
Definition first_before_last (vs : list Model.SamplePair) : Prop :=
  match vs, last vs with
  | x :: _, Some l => (Model.Timestamp x <= Model.Timestamp l)%Z
  | _, _ => True
  end.

(** The rules of a configuration, group after group. *)
Definition all_rules (cfg : Config.Config) : list Rule :=
  concat (map Config.Rules (Config.Groups (Config.RuleFile_ cfg))).

(** ** Lemmas *)

Lemma evaluable_dec (fd : Z) (s : Model.SampleStream) :
  evaluable fd s ∨ (Model.Values s = [] ∧ fd = 0%Z).
Proof.
  unfold evaluable. destruct (Model.Values s); [| by left; left].
  destruct (Z.eq_dec fd 0); [by right | by left; right].
Qed.

Lemma fire_annotations_not_firing (rule : Rule) (s : Model.SampleStream) (st : AlertState) :
  st ≠ StateFiring → fire_annotations rule s st = GoOk None.
Proof. intros H. unfold fire_annotations. by rewrite decide_False. Qed.

Lemma fire_annotations_spec (rule : Rule) (s : Model.SampleStream) (st : AlertState) :
  Model.Values s ≠ [] → fire_annotations rule s st = GoOk (series_annotations rule s st).
Proof.
  intros Hne. unfold series_annotations.
  destruct (decide (st = StateFiring)) as [->|Hst].
  - destruct (last (Model.Values s)) as [l|] eqn:Hl.
    + unfold fire_annotations. rewrite decide_True, (go_index_last _ l) by done. done.
    + by apply last_None in Hl.
  - rewrite fire_annotations_not_firing by done. by destruct st.
Qed.

Lemma fire_annotations_empty (rule : Rule) (s : Model.SampleStream) :
  Model.Values s = [] → fire_annotations rule s StateFiring = GoPanic (IndexOutOfRange (-1) 0).
Proof. intros Hs. unfold fire_annotations. rewrite decide_True by done. by rewrite Hs. Qed.

(** One series: its result, when it can be evaluated. *)
Lemma alertForStream_ok (fd : Z) (rule : Rule) (s : Model.SampleStream) :
  evaluable fd s → alertForStream fd rule s = GoOk (series_result fd rule s).
Proof.
  intros Hev. unfold alertForStream, series_result.
  destruct s as [metric vs]; cbn [Model.Values Model.Metric] in *.
  destruct vs as [|x [|y vs']].
  - destruct Hev as [Hev|Hev]; [done |].
    cbn. destruct (Z.eqb_spec fd 0); [done |]. reflexivity.
  - cbn [length Nat.ltb Nat.leb]. cbv zeta.
    rewrite (fire_annotations_spec rule (Model.mkStream metric [x])) by done. reflexivity.
  - destruct (last (y :: vs')) as [l|] eqn:Hl; [| by apply last_None in Hl].
    assert (Hl' : last (x :: y :: vs') = Some l) by (by rewrite last_cons, Hl).
    rewrite (go_index_first _ x), (go_index_last _ l) by done.
    cbn [length Nat.ltb Nat.leb]. cbv zeta. go_simpl.
    rewrite (fire_annotations_spec rule (Model.mkStream metric (x :: y :: vs'))) by done.
    go_simpl. unfold series_state, series_duration. rewrite Hl', Sub_Time. reflexivity.
Qed.

(** One series without samples under a zero threshold: the index
    [stream.Values[len(stream.Values)-1]] is [-1]. *)
Lemma alertForStream_panic (rule : Rule) (s : Model.SampleStream) :
  Model.Values s = [] → alertForStream 0 rule s = GoPanic (IndexOutOfRange (-1) 0).
Proof.
  intros Hs. unfold alertForStream. rewrite Hs. cbn.
  rewrite fire_annotations_empty by done. reflexivity.
Qed.

Lemma calculate_loop_ok (fd : Z) (rule : Rule) (m : list Model.SampleStream)
    (acc : list AlertResult) :
  Forall (evaluable fd) m →
  calculate_loop fd rule m acc = GoOk (acc ++ map (series_result fd rule) m).
Proof.
  revert acc. induction m as [|s m IH]; intros acc Hm; simpl.
  - by rewrite app_nil_r.
  - apply Forall_cons in Hm as [Hs Hm].
    rewrite alertForStream_ok by done. go_simpl. rewrite IH by done.
    by rewrite <- app_assoc.
Qed.

Lemma calculate_loop_panic (fd : Z) (rule : Rule) (m : list Model.SampleStream)
    (acc : list AlertResult) :
  Exists (λ s, ¬ evaluable fd s) m →
  calculate_loop fd rule m acc = GoPanic (IndexOutOfRange (-1) 0).
Proof.
  revert acc. induction m as [|s m IH]; intros acc Hm; [by apply Exists_nil in Hm |].
  simpl. destruct (evaluable_dec fd s) as [Hs|[Hv ->]].
  - rewrite alertForStream_ok by done. go_simpl. apply IH.
    apply Exists_cons in Hm as [Hm|Hm]; [done | exact Hm].
  - by rewrite alertForStream_panic.
Qed.

(** A successful [calculateAlerts] evaluated every series. *)
Lemma calculateAlerts_ok_inv (m : list Model.SampleStream) (rule : Rule)
    (rs : list AlertResult) :
  calculateAlerts m rule = GoOk rs →
  Forall (evaluable (parseFor (Config.For rule))) m ∧
  rs = map (series_result (parseFor (Config.For rule)) rule) m.
Proof.
  unfold calculateAlerts. set (fd := parseFor (Config.For rule)).
  destruct (Forall_or_Exists_not (evaluable fd) (λ s, Model.Values s = [] ∧ fd = 0%Z) m)
    as [Hm|Hm].
  - apply evaluable_dec.
  - intros s [Hs Hfd] [H|H]; done.
  - rewrite calculate_loop_ok by done. by intros [= <-].
  - by rewrite calculate_loop_panic.
Qed.

Lemma series_state_not_silent (fd : Z) (vs : list Model.SamplePair) :
  series_state fd vs ≠ StateSilent.
Proof. unfold series_state. destruct vs as [|? [|? ?]]; repeat case_match; done. Qed.

(** Under a zero threshold every series whose first sample is no later
    than its last fires. *)
Lemma series_state_zero (vs : list Model.SamplePair) :
  first_before_last vs → series_state 0 vs = StateFiring.
Proof.
  unfold series_state, first_before_last, series_duration.
  destruct vs as [|x [|y vs]]; [done | done |].
  destruct (last _) as [l|]; [| done]. intros H.
  assert (0 <= clamp_int64 ((Model.Timestamp l - Model.Timestamp x) * Millisecond))%Z.
  { apply clamp_int64_nonneg. unfold Millisecond, Microsecond, Nanosecond. lia. }
  by destruct (Z.leb_spec 0 (clamp_int64 ((Model.Timestamp l - Model.Timestamp x) * Millisecond))); [| lia].
Qed.

(** ** Theorems on [calculateAlerts] *)

(** C1. [calculateAlerts] implements the per-series specification: when
    every series has a sample or the [for] threshold is not zero, it
    returns, in the order of the matrix, the specified result of each
    series. *)
Theorem calculateAlerts_refines (m : list Model.SampleStream) (rule : Rule) :
  Forall (evaluable (parseFor (Config.For rule))) m →
  calculateAlerts m rule = GoOk (map (series_result (parseFor (Config.For rule)) rule) m).
Proof. intros Hm. by apply calculate_loop_ok. Qed.

(** C2. A series without float samples (a native-histogram series, whose
    samples are in [Histograms]) under a zero [for] makes [calculateAlerts]
    index [stream.Values[-1]]: the program panics. *)
Theorem calculateAlerts_panic (m : list Model.SampleStream) (rule : Rule) :
  parseFor (Config.For rule) = 0%Z → Exists (λ s, Model.Values s = []) m →
  calculateAlerts m rule = GoPanic (IndexOutOfRange (-1) 0).
Proof.
  intros Hfd Hm. apply calculate_loop_panic.
  eapply Exists_impl; [exact Hm |]. intros s Hs [H|H]; done.
Qed.

(** C3. Under a zero threshold ([for] empty, ["0s"], or unreadable)
    every result is FIRING, whatever the number of samples. *)
Theorem calculateAlerts_zero_for_firing (m : list Model.SampleStream) (rule : Rule)
    (rs : list AlertResult) :
  parseFor (Config.For rule) = 0%Z →
  Forall (λ s, first_before_last (Model.Values s)) m →
  calculateAlerts m rule = GoOk rs →
  Forall (λ r, State r = StateFiring) rs.
Proof.
  intros Hfd Hm (_ & ->)%calculateAlerts_ok_inv. rewrite Hfd.
  apply Forall_map. eapply Forall_impl; [exact Hm |]. intros s Hs. simpl.
  by apply series_state_zero.
Qed.

(** C4. A series with fewer than two samples under a non-zero threshold
    is PENDING, with duration zero and no annotations. *)
Theorem calculateAlerts_short_pending (m : list Model.SampleStream) (rule : Rule)
    (rs : list AlertResult) :
  parseFor (Config.For rule) ≠ 0%Z →
  calculateAlerts m rule = GoOk rs →
  Forall2 (λ s r, (length (Model.Values s) < 2)%nat →
             State r = StatePending ∧ Duration r = 0%Z ∧ Annotations r = None) m rs.
Proof.
  intros Hfd (_ & ->)%calculateAlerts_ok_inv. apply Forall2_map_self, Forall_forall.
  intros [metric vs] _ Hlen. unfold series_result, series_state, series_duration. simpl in *.
  destruct vs as [|x [|y vs]]; simpl in Hlen; try lia;
    (destruct (Z.eqb_spec (parseFor (Config.For rule)) 0); [done |]); done.
Qed.

(** C5. A series with two or more samples: the duration is the time from
    its first to its last sample, and the state is FIRING exactly when
    that duration reaches the threshold (equality fires). *)
Theorem calculateAlerts_threshold (m : list Model.SampleStream) (rule : Rule)
    (rs : list AlertResult) :
  calculateAlerts m rule = GoOk rs →
  Forall2 (λ s r, ∀ first lst,
             (2 <= length (Model.Values s))%nat →
             head (Model.Values s) = Some first → last (Model.Values s) = Some lst →
             Duration r = clamp_int64 ((Model.Timestamp lst - Model.Timestamp first) * Millisecond) ∧
             (State r = StateFiring ↔ (parseFor (Config.For rule) <= Duration r)%Z)) m rs.
Proof.
  intros (_ & ->)%calculateAlerts_ok_inv. apply Forall2_map_self, Forall_forall.
  intros [metric vs] _ first lst Hlen Hf Hl.
  unfold series_result, series_state, series_duration. simpl in *.
  destruct vs as [|x [|y vs]]; simpl in Hlen; try lia.
  injection Hf as ->. rewrite Hl. split; [done |].
  destruct (Z.leb_spec (parseFor (Config.For rule))
              (clamp_int64 ((Model.Timestamp lst - Model.Timestamp first) * Millisecond)));
    split; intros; (done || lia).
Qed.

(** C6. Annotations are present exactly on FIRING results, rendered from
    the rule's templates, the series' labels and the last sample's value. *)
Theorem calculateAlerts_annotations (m : list Model.SampleStream) (rule : Rule)
    (rs : list AlertResult) :
  calculateAlerts m rule = GoOk rs →
  Forall2 (λ s r,
     match State r with
     | StateFiring => ∃ l, last (Model.Values s) = Some l ∧
         Annotations r = Some (renderAnnotations (Config.Annotations rule) (Model.Metric s) (Model.Value l))
     | _ => Annotations r = None
     end) m rs.
Proof.
  intros (Hm & ->)%calculateAlerts_ok_inv. apply Forall2_map_self.
  eapply Forall_impl; [exact Hm |]. intros [metric vs] Hev.
  unfold series_result, series_annotations. simpl.
  destruct (series_state _ vs) eqn:Hst; [| done | done].
  destruct (last vs) as [l|] eqn:Hl; [by eexists |].
  apply last_None in Hl as ->. destruct Hev as [Hev|Hev]; [done |].
  revert Hst. unfold series_state. by destruct (Z.eqb_spec (parseFor (Config.For rule)) 0).
Qed.

(** C7. One result per series, in the order of the matrix, with the
    series' labels; no result is SILENT. *)
Theorem calculateAlerts_shape (m : list Model.SampleStream) (rule : Rule)
    (rs : list AlertResult) :
  calculateAlerts m rule = GoOk rs →
  map Metric rs = map Model.Metric m ∧ Forall (λ r, State r ≠ StateSilent) rs.
Proof.
  intros (_ & ->)%calculateAlerts_ok_inv. rewrite map_map. split; [done |].
  apply Forall_map, Forall_forall. intros s _. apply series_state_not_silent.
Qed.

(** C8. A negative [for] (which [ParseDuration] accepts, e.g. ["-5m"])
    splits the series: those with fewer than two samples stay PENDING,
    though their zero duration exceeds the threshold, while all the
    others fire. *)
Theorem calculateAlerts_negative_for (m : list Model.SampleStream) (rule : Rule)
    (rs : list AlertResult) :
  (parseFor (Config.For rule) < 0)%Z →
  Forall (λ s, first_before_last (Model.Values s)) m →
  calculateAlerts m rule = GoOk rs →
  Forall2 (λ s r, State r = if (length (Model.Values s) <? 2)%nat then StatePending
                            else StateFiring) m rs.
Proof.
  intros Hfd Hm (_ & ->)%calculateAlerts_ok_inv. apply Forall2_map_self.
  eapply Forall_impl; [exact Hm |]. intros [metric vs] Hs.
  unfold series_result, series_state, first_before_last, series_duration in *. simpl in *.
  destruct vs as [|x [|y vs]]; simpl;
    [destruct (Z.eqb_spec (parseFor (Config.For rule)) 0); [lia | done] ..|].
  destruct (last (y :: vs)) as [l|] eqn:Hl; [| by apply last_None in Hl].
  rewrite last_cons, Hl in Hs.
  assert (0 <= clamp_int64 ((Model.Timestamp l - Model.Timestamp x) * Millisecond))%Z.
  { apply clamp_int64_nonneg. unfold Millisecond, Microsecond, Nanosecond. lia. }
  by destruct (Z.leb_spec (parseFor (Config.For rule))
                 (clamp_int64 ((Model.Timestamp l - Model.Timestamp x) * Millisecond))); [| lia].
Qed.

(** ** Theorems on [evaluateRule] and [Run] *)

Section RunFacts.

Variable QueryRange : string → Range → result Model.QueryValue string.

Abbreviation query rule start end_ :=
  (QueryRange (Config.Expr rule) (mkRange start end_ (1 * Minute))).

Lemma evaluateRule_no_flush (rule : Rule) (start end_ : GoTime) (evs : list Event) :
  evaluateRule QueryRange rule start end_ = GoOk evs → EvFlush ∉ evs.
Proof.
  unfold evaluateRule. destruct (query rule start end_) as [[m|]|err]; [| intros [= <-]; set_solver ..].
  destruct m as [|s m]; [by intros [= <-]; set_solver |].
  destruct (calculateAlerts _ _) as [rs|]; [| done]. intros [= <-].
  rewrite list_elem_of_In, in_map_iff. by intros (r & ? & _).
Qed.

Lemma run_rules_app (l1 l2 : list Rule) (start end_ : GoTime) :
  run_rules QueryRange (l1 ++ l2) start end_ =
  match run_rules QueryRange l1 start end_ with
  | (evs, Some p) => (evs, Some p)
  | (evs, None) => let '(evs', p) := run_rules QueryRange l2 start end_ in (evs ++ evs', p)
  end.
Proof.
  induction l1 as [|r l1 IH]; simpl; [by destruct (run_rules QueryRange _ _ _) |].
  destruct (evaluateRule QueryRange r _ _) as [evs|p]; [| done].
  rewrite IH. destruct (run_rules QueryRange l1 _ _) as [evs1 [p|]]; [done |].
  destruct (run_rules QueryRange l2 _ _). by rewrite app_assoc.
Qed.

Lemma run_groups_flat (gs : list RuleGroup) (start end_ : GoTime) :
  run_groups QueryRange gs start end_ = run_rules QueryRange (concat (map Config.Rules gs)) start end_.
Proof.
  induction gs as [|g gs IH]; simpl; [done |].
  rewrite run_rules_app, IH. by destruct (run_rules QueryRange (Config.Rules g) _ _) as [? [?|]].
Qed.

Lemma run_rules_ok (rules : list Rule) (start end_ : GoTime) (evss : list (list Event)) :
  Forall2 (λ r evs, evaluateRule QueryRange r start end_ = GoOk evs) rules evss →
  run_rules QueryRange rules start end_ = (concat evss, None).
Proof. induction 1 as [|r evs rules evss Hr _ IH]; simpl; [done |]. by rewrite Hr, IH. Qed.

(** The rules' events never contain a [Flush]. *)
Lemma run_rules_flush_free (rules : list Rule) (start end_ : GoTime) (evs : list Event)
    (p : option Panic) :
  run_rules QueryRange rules start end_ = (evs, p) → EvFlush ∉ evs.
Proof.
  revert evs p. induction rules as [|r rules IH]; simpl; intros evs p E.
  - injection E as <-. set_solver.
  - destruct (evaluateRule QueryRange r start end_) as [evs1|p'] eqn:Hr; [| injection E as <-; set_solver].
    destruct (run_rules QueryRange rules start end_) as [evs2 p2] eqn:E2. injection E as <- ->.
    apply evaluateRule_no_flush in Hr. specialize (IH _ _ eq_refl). set_solver.
Qed.

(** What a run that ends normally emitted: the rules' events, then one
    [Flush]. *)
Lemma Run_ok_inv (cfg : Config.Config) (evs : list Event) :
  Run QueryRange cfg = (evs, None) →
  ∃ evs', run_rules QueryRange (all_rules cfg) (Config.Start cfg) (Config.End cfg) = (evs', None) ∧
          evs = evs' ++ [EvFlush].
Proof.
  unfold Run. rewrite run_groups_flat.
  destruct (run_rules QueryRange _ _ _) as [evs0 [p|]] eqn:E; [by intros [=] |].
  intros [= <-]. by exists evs0.
Qed.

(** What a run that panics emitted: the rules' events up to the panic. *)
Lemma Run_panic_inv (cfg : Config.Config) (evs : list Event) (p : Panic) :
  Run QueryRange cfg = (evs, Some p) →
  run_rules QueryRange (all_rules cfg) (Config.Start cfg) (Config.End cfg) = (evs, Some p).
Proof.
  unfold Run. rewrite run_groups_flat.
  destruct (run_rules QueryRange _ _ _) as [evs0 [p'|]] eqn:E; [| by intros [=]].
  by intros [= <- <-].
Qed.

(** C9. A rule whose query gives no series adds no per-series result
    and does not stop the run: a failed query is only reported on
    stderr, a result that is not a matrix (a vector, a scalar or a
    string) adds nothing and reports nothing, and an empty matrix gives
    exactly one SILENT result with no labels, zero duration and no
    annotations, whatever the rule's [for] and templates. *)
Theorem evaluateRule_no_series (rule : Rule) (start end_ : GoTime) :
  (∀ err, query rule start end_ = Err err →
          evaluateRule QueryRange rule start end_ = GoOk [EvQueryError err]) ∧
  (query rule start end_ = Ok Model.ValOther → evaluateRule QueryRange rule start end_ = GoOk []) ∧
  (query rule start end_ = Ok (Model.ValMatrix []) →
   evaluateRule QueryRange rule start end_ = GoOk [EvAddResult rule ∅ 0 "SILENT" None]).
Proof. unfold evaluateRule. split_and!; [intros err Hq | intros Hq ..]; by rewrite Hq. Qed.

(** C11. A non-empty matrix adds one result per series, in order, each the
    specified result of its series. *)
Theorem evaluateRule_matrix (rule : Rule) (start end_ : GoTime) (m : list Model.SampleStream) :
  query rule start end_ = Ok (Model.ValMatrix m) → m ≠ [] →
  Forall (evaluable (parseFor (Config.For rule))) m →
  evaluateRule QueryRange rule start end_
  = GoOk (map (λ s, result_event rule (series_result (parseFor (Config.For rule)) rule s)) m).
Proof.
  intros Hq Hne Hm. unfold evaluateRule. rewrite Hq.
  destruct m as [|s m']; [done |].
  rewrite calculateAlerts_refines by done. go_simpl. by rewrite map_map.
Qed.

(** C12. When no rule panics, the trace of [Run] is the events of each
    rule, group after group and rule after rule, then one [Flush]. *)
Theorem Run_trace (cfg : Config.Config) (evss : list (list Event)) :
  Forall2 (λ r evs, evaluateRule QueryRange r (Config.Start cfg) (Config.End cfg) = GoOk evs)
    (all_rules cfg) evss →
  Run QueryRange cfg = (concat evss ++ [EvFlush], None).
Proof. intros H. unfold Run. rewrite run_groups_flat. by rewrite (run_rules_ok _ _ _ evss). Qed.

(** C13. A run that ends normally flushes the reporter exactly once, as
    its last event. *)
Theorem Run_flush_once (cfg : Config.Config) (evs : list Event) :
  Run QueryRange cfg = (evs, None) → ∃ evs', evs = evs' ++ [EvFlush] ∧ EvFlush ∉ evs'.
Proof.
  unfold Run. rewrite run_groups_flat.
  destruct (run_rules QueryRange _ _ _) as [evs0 [p|]] eqn:E; [by intros [=] |].
  intros [= <-]. exists evs0. split; [done |]. by eapply run_rules_flush_free.
Qed.

(** C14. All or nothing per rule: a run that panics has emitted the
    events of the rules before the panicking one, nothing of that rule,
    and no [Flush]. *)
Theorem Run_panic (cfg : Config.Config) (evs : list Event) (p : Panic) :
  Run QueryRange cfg = (evs, Some p) ↔
  ∃ pre r post evss,
    all_rules cfg = pre ++ r :: post ∧
    Forall2 (λ r evs, evaluateRule QueryRange r (Config.Start cfg) (Config.End cfg) = GoOk evs)
      pre evss ∧
    evaluateRule QueryRange r (Config.Start cfg) (Config.End cfg) = GoPanic p ∧
    evs = concat evss.
Proof.
  unfold Run. rewrite run_groups_flat. fold (all_rules cfg).
  generalize (all_rules cfg) as rules. intros rules.
  set (st := Config.Start cfg). set (en := Config.End cfg).
  split.
  - destruct (run_rules QueryRange rules st en) as [evs0 [p'|]] eqn:E; [| by intros [=]].
    intros [= <- <-].
    revert evs0 E. induction rules as [|r rules IH]; simpl; intros evs0 E; [done |].
    destruct (evaluateRule QueryRange r st en) as [evs1|p0] eqn:Hr.
    + destruct (run_rules QueryRange rules st en) as [evs2 p2] eqn:E2. injection E as <- ->.
      destruct (IH evs2 eq_refl) as (pre & r' & post & evss & -> & Hpre & Hr' & ->).
      exists (r :: pre), r', post, (evs1 :: evss). split_and!; try done. by constructor.
    + injection E as <- ->. by exists [], r, rules, [].
  - intros (pre & r & post & evss & -> & Hpre & Hr & ->).
    rewrite run_rules_app, (run_rules_ok _ _ _ evss) by done. simpl. by rewrite Hr, app_nil_r.
Qed.

End RunFacts.

(** ** Theorems on [parseFor] *)

(** C15. A [for] written as a numeral and a unit is that many units, in
    nanoseconds, when it fits in an int64. *)
Theorem parseFor_numeral_unit (ds u : string) (k : Z) :
  all_digits ds = true → ds ≠ EmptyString → unitMap u = Some k →
  (decimal_value 0 ds * k <= int64_max)%Z →
  parseFor (ds +:+ u) = (decimal_value 0 ds * k)%Z.
Proof.
  intros Hds Hne Hu Hv. unfold parseFor.
  destruct (numeral_unit_shape ds u k Hds Hne Hu) as (_ & _ & -> & _).
  by rewrite (ParseDuration_numeral_unit ds u k).
Qed.

(** C16. A [for] with a leading minus sign is accepted and gives a
    negative threshold, down to the int64 minimum. *)
Theorem parseFor_negative (ds u : string) (k : Z) :
  all_digits ds = true → ds ≠ EmptyString → unitMap u = Some k →
  (decimal_value 0 ds * k <= - int64_min)%Z →
  parseFor (String "-" (ds +:+ u)) = (- (decimal_value 0 ds * k))%Z.
Proof.
  intros Hds Hne Hu Hv. unfold parseFor. cbn [String.eqb].
  by rewrite (ParseDuration_neg_numeral_unit ds u k).
Qed.

(** C17. A [for] that [ParseDuration] rejects is the zero threshold:
    the rule fires on the first observation. *)
Theorem parseFor_malformed (f : string) (e : DurationError) :
  ParseDuration f = Err e → parseFor f = 0%Z.
Proof. intros H. unfold parseFor. rewrite H. by destruct (String.eqb f ""). Qed.

End Engine.

#[export] Hint Resolve series_state_not_silent series_state_zero : prom.

(** ** Witnesses *)

Import Examples.

Lemma calculateAlerts_refines_witness :
  @calculateAlerts engine [ten_minutes] (rule_for "5m")
  = GoOk [mkResult api 600000000000 StateFiring (Some {[ "summary" := "api at 1" ]})].
Proof.
  rewrite (@calculateAlerts_refines engine) by (repeat constructor; vm_compute; discriminate).
  vm_compute. reflexivity.
Defined.

Lemma calculateAlerts_panic_witness :
  @calculateAlerts engine [ten_minutes; no_floats] (rule_for "") = GoPanic (IndexOutOfRange (-1) 0).
Proof. apply (@calculateAlerts_panic engine); [vm_compute; reflexivity | right; left; reflexivity]. Defined.

Lemma calculateAlerts_zero_for_firing_witness :
  Forall (λ r, State r = StateFiring)
    [mkResult api 600000000000 StateFiring (Some {[ "summary" := "api at 1" ]});
     mkResult api 0 StateFiring (Some {[ "summary" := "api at 1" ]})].
Proof.
  apply (@calculateAlerts_zero_for_firing engine [ten_minutes; single] (rule_for "0s")).
  - vm_compute. reflexivity.
  - repeat constructor; vm_compute; discriminate.
  - vm_compute. reflexivity.
Defined.

Lemma calculateAlerts_short_pending_witness :
  Forall2 (λ s r, (length (Model.Values s) < 2)%nat →
             State r = StatePending ∧ Duration r = 0%Z ∧ Annotations r = None)
    [single] [mkResult api 0 StatePending None].
Proof.
  apply (@calculateAlerts_short_pending engine [single] (rule_for "15m")).
  - vm_compute. discriminate.
  - vm_compute. reflexivity.
Defined.

Lemma calculateAlerts_threshold_witness :
  Duration (mkResult api 600000000000 StateFiring (Some {[ "summary" := "api at 1" ]}))
    = clamp_int64 ((Model.Timestamp (Model.mkSample 0 one)
                    - Model.Timestamp (Model.mkSample (-600000) one)) * Millisecond) ∧
  (StateFiring = StateFiring ↔ (parseFor "10m" <= 600000000000)%Z).
Proof.
  pose proof (@calculateAlerts_threshold engine [ten_minutes] (rule_for "10m")
    [mkResult api 600000000000 StateFiring (Some {[ "summary" := "api at 1" ]})]) as H.
  assert (Hc : @calculateAlerts engine [ten_minutes] (rule_for "10m")
    = GoOk [mkResult api 600000000000 StateFiring (Some {[ "summary" := "api at 1" ]})])
    by (vm_compute; reflexivity).
  specialize (H Hc). inversion H as [|? ? ? ? Hs]; subst.
  apply (Hs (Model.mkSample (-600000) one) (Model.mkSample 0 one)); [simpl; lia | reflexivity | reflexivity].
Defined.

Lemma calculateAlerts_annotations_witness :
  Forall2 (λ s r,
     match State r with
     | StateFiring => ∃ l, last (Model.Values s) = Some l ∧
         Annotations r = Some (@renderAnnotations engine summary (Model.Metric s) (Model.Value l))
     | _ => Annotations r = None
     end) [ten_minutes; single]
    [mkResult api 600000000000 StateFiring (Some {[ "summary" := "api at 1" ]});
     mkResult api 0 StatePending None].
Proof.
  apply (@calculateAlerts_annotations engine [ten_minutes; single] (rule_for "5m")).
  vm_compute. reflexivity.
Defined.

Lemma calculateAlerts_shape_witness :
  map Metric [mkResult api 0 StatePending None] = map Model.Metric [single] ∧
  Forall (λ r, State r ≠ StateSilent) [mkResult api 0 StatePending None].
Proof. apply (@calculateAlerts_shape engine [single] (rule_for "1h")). vm_compute. reflexivity. Defined.

Lemma calculateAlerts_negative_for_witness :
  Forall2 (λ s r, State r = if (length (Model.Values s) <? 2)%nat then StatePending else StateFiring)
    [ten_minutes; single]
    [mkResult api 600000000000 StateFiring (Some {[ "summary" := "api at 1" ]});
     mkResult api 0 StatePending None].
Proof.
  apply (@calculateAlerts_negative_for engine [ten_minutes; single] (rule_for "-5m")).
  - vm_compute. reflexivity.
  - repeat constructor; vm_compute; discriminate.
  - vm_compute. reflexivity.
Defined.

Lemma evaluateRule_no_series_witness :
  @evaluateRule engine (answer (Err "connection refused")) (rule_for "5m") (mkTime 0 0) (mkTime 3600 0)
  = GoOk [EvQueryError "connection refused"] ∧
  @evaluateRule engine (answer (Ok Model.ValOther)) (rule_for "5m") (mkTime 0 0) (mkTime 3600 0) = GoOk [] ∧
  @evaluateRule engine (answer (Ok (Model.ValMatrix []))) (rule_for "5m") (mkTime 0 0) (mkTime 3600 0)
  = GoOk [EvAddResult (rule_for "5m") ∅ 0 "SILENT" None].
Proof.
  split_and!.
  - apply (proj1 (@evaluateRule_no_series engine (answer (Err "connection refused")) (rule_for "5m")
                    (mkTime 0 0) (mkTime 3600 0))). reflexivity.
  - apply (proj1 (proj2 (@evaluateRule_no_series engine (answer (Ok Model.ValOther)) (rule_for "5m")
                           (mkTime 0 0) (mkTime 3600 0)))). reflexivity.
  - apply (proj2 (proj2 (@evaluateRule_no_series engine (answer (Ok (Model.ValMatrix []))) (rule_for "5m")
                           (mkTime 0 0) (mkTime 3600 0)))). reflexivity.
Defined.

Lemma evaluateRule_matrix_witness :
  @evaluateRule engine (answer (Ok (Model.ValMatrix [ten_minutes]))) (rule_for "15m") (mkTime 0 0) (mkTime 3600 0)
  = GoOk [EvAddResult (rule_for "15m") api 600000000000 "PENDING" None].
Proof.
  rewrite (@evaluateRule_matrix engine _ _ _ _ [ten_minutes]);
    [vm_compute; reflexivity | reflexivity | discriminate | repeat constructor; vm_compute; discriminate].
Defined.

Lemma Run_trace_witness :
  @Run engine (answer (Ok (Model.ValMatrix []))) (config [rule_for "5m"; rule_for ""])
  = ([EvAddResult (rule_for "5m") ∅ 0 "SILENT" None; EvAddResult (rule_for "") ∅ 0 "SILENT" None;
      EvFlush], None).
Proof.
  rewrite (@Run_trace engine _ _ [[EvAddResult (rule_for "5m") ∅ 0 "SILENT" None];
                                 [EvAddResult (rule_for "") ∅ 0 "SILENT" None]]);
    [reflexivity | repeat constructor].
Defined.

Lemma Run_panic_witness :
  @Run engine (answer (Ok (Model.ValMatrix [no_floats]))) (config [rule_for "5m"; rule_for ""])
  = ([EvAddResult (rule_for "5m") api 0 "PENDING" None], Some (IndexOutOfRange (-1) 0)).
Proof.
  apply (@Run_panic engine). exists [rule_for "5m"], (rule_for ""), [], [[EvAddResult (rule_for "5m") api 0 "PENDING" None]].
  split_and!; [reflexivity | repeat constructor | vm_compute; reflexivity | reflexivity].
Defined.

Lemma Run_flush_once_witness :
  ∃ evs', [EvQueryError "timeout"; EvFlush] = evs' ++ [EvFlush] ∧ EvFlush ∉ evs'.
Proof.
  apply (@Run_flush_once engine (answer (Err "timeout")) (config [rule_for "5m"])).
  reflexivity.
Defined.

Lemma parseFor_numeral_unit_witness : parseFor "15m" = 900000000000%Z.
Proof.
  apply (parseFor_numeral_unit "15" "m" Minute);
    [reflexivity | discriminate | reflexivity | unfold int64_max; vm_compute; discriminate].
Defined.

Lemma parseFor_negative_witness : parseFor "-5m" = (-300000000000)%Z.
Proof.
  apply (parseFor_negative "5" "m" Minute);
    [reflexivity | discriminate | reflexivity | unfold int64_min; vm_compute; discriminate].
Defined.

Lemma parseFor_malformed_witness : parseFor "5 minutes" = 0%Z.
Proof. apply (parseFor_malformed "5 minutes" (UnknownUnit " minutes" "5 minutes")). vm_compute. reflexivity. Defined.

End Engine.
