(* ===== verification/Roundtrip.v ===== *)
(** * Printing a duration and reading it back

    The text reporter prints each result's duration with
    [Duration.String]; a duration written that way is also a valid
    [for:] value.  This file proves that [time.ParseDuration] reads back
    every printed duration that is a whole number of milliseconds, the
    resolution of the durations [calculateAlerts] computes from the
    millisecond timestamps of Prometheus samples.

    [Duration.String] writes whole seconds with the hours and minutes
    before them and the sub-second part as a decimal fraction of the
    second; [ParseDuration] reads that fraction through binary64
    arithmetic.  For milliseconds the fraction has at most three digits,
    and [frac_check] verifies, by evaluation, that the floating-point
    computation is exact on each of the 1110 fractions that can occur. *)

From S2P Require Import Prelude Duration Format Template Rules Engine.
From Stdlib Require Import SpecFloat.

Local Open Scope Z_scope.

Module Roundtrip.

Import Duration Format Template Config Engine.

(** The [scale] of [leadingFraction] after [k] digits. *)
Definition scale_after (k : nat) : spec_float :=
  Nat.iter k (λ sc, float_mul sc (float_of_Z 10)) (float_of_Z 1).

(** The value [component_value] adds for the fraction [f] of [k] digits
    of a second. *)
Definition frac_ns (f : Z) (k : nat) : Z :=
  trunc_float (float_mul (float_of_Z f) (float_div (float_of_Z Second) (scale_after k))).

(** That value is exact for every fraction of [k] digits. *)
Definition frac_check (k : nat) : bool :=
  forallb (λ n, Z.eqb (frac_ns (Z.of_nat n) k) (Z.of_nat n * 10 ^ (9 - Z.of_nat k)))
    (seq 1 (10 ^ k - 1)).

(** ** Lemmas *)

Lemma frac_check_ok (k : nat) : (1 <= k <= 3)%nat → frac_check k = true.
Proof.
  intros Hk. assert (k = 1 ∨ k = 2 ∨ k = 3)%nat as [-> | [-> | ->]] by lia;
    vm_compute; reflexivity.
Qed.

(** The floating-point computation of a fraction of at most three
    digits is exact. *)
Lemma frac_ns_exact (f : Z) (k : nat) :
  (1 <= k <= 3)%nat → 0 < f < 10 ^ Z.of_nat k → frac_ns f k = f * 10 ^ (9 - Z.of_nat k).
Proof.
  intros Hk Hf. pose proof (frac_check_ok k Hk) as Hc. unfold frac_check in Hc.
  rewrite forallb_forall in Hc. specialize (Hc (Z.to_nat f)).
  rewrite Z2Nat.id in Hc by lia. apply Z.eqb_eq, Hc.
  apply in_seq. split; [lia |].
  assert (Z.of_nat (10 ^ k) = 10 ^ Z.of_nat k) by (rewrite Nat2Z.inj_pow; done). lia.
Qed.

(** [leadingFraction] reads a numeral whose value stays small. *)
Lemma leadingFraction_aux_numeral (x : Z) (sc : spec_float) (fs rest : string) :
  all_digits fs = true → (0 <= x) → (decimal_value x fs <= (2 ^ 63 - 1) / 10) →
  starts_non_digit rest = true →
  leadingFraction_aux x sc false (fs ++ rest)
  = (decimal_value x fs, Nat.iter (String.length fs) (λ s, float_mul s (float_of_Z 10)) sc, rest).
Proof.
  revert x sc. induction fs as [|c fs IH]; intros x sc; simpl.
  - intros _ _ _. destruct rest as [|c r]; [done |]. simpl. by intros ->%negb_true_iff.
  - intros [Hc Hfs]%andb_prop Hx Hv Hr. rewrite Hc. simpl.
    pose proof (digit_val_range c Hc).
    pose proof (decimal_value_ge (x * 10 + digit_val c) fs Hfs ltac:(lia)).
    destruct (Z.ltb_spec ((2 ^ 63 - 1) / 10) x); [int_lia |].
    destruct (Z.ltb_spec (2 ^ 63) (x * 10 + digit_val c)); [int_lia |].
    rewrite IH by (done || lia).
    change (float_mul sc (binary_round 53 1024 false 10 0))
      with ((λ s, float_mul s (float_of_Z 10)) sc).
    by rewrite <- Nat.iter_succ_r.
Qed.

(** The fraction [.fs] before the unit. *)
Lemma fraction_part_numeral (fs rest : string) :
  all_digits fs = true → fs ≠ EmptyString → decimal_value 0 fs <= (2 ^ 63 - 1) / 10 →
  starts_non_digit rest = true →
  fraction_part (String "." (fs ++ rest))
  = (decimal_value 0 fs, scale_after (String.length fs), rest, true).
Proof.
  intros Hfs Hne Hv Hr. cbn [fraction_part]. replace (is_dot ".") with true by reflexivity.
  unfold leadingFraction. rewrite leadingFraction_aux_numeral by (done || lia).
  rewrite string_length_app. destruct fs as [|c fs]; [done |].
  cbn [String.length].
  by destruct (Nat.eqb_spec (String.length rest) (S (String.length fs) + String.length rest)); [lia |].
Qed.

(** One component [<numeral>.<fraction>s], whose fraction has one to
    three digits and is not zero. *)
Lemma parse_component_frac (orig ds fs rest : string) (d : Z) :
  all_digits ds = true → ds ≠ EmptyString → all_digits fs = true →
  (1 <= String.length fs <= 3)%nat → 0 < decimal_value 0 fs →
  starts_digit_or_end rest = true → (0 <= d) →
  (d + decimal_value 0 ds * Second + decimal_value 0 fs * 10 ^ (9 - Z.of_nat (String.length fs))
   <= 2 ^ 63) →
  parse_component orig d (ds ++ String "." (fs ++ "s" ++ rest))
  = StepNext (d + decimal_value 0 ds * Second +
              decimal_value 0 fs * 10 ^ (9 - Z.of_nat (String.length fs))) rest.
Proof.
  intros Hds Hne Hfs Hk Hf Hr Hd Hv.
  set (k := String.length fs) in *. set (F := decimal_value 0 fs) in *.
  destruct (unit_scan "s" rest Second eq_refl Hr) as (Hstart & _ & Hspan & _ & _ & _).
  pose proof (decimal_value_ge 0 ds Hds ltac:(lia)).
  pose proof (decimal_value_lt fs Hfs) as HF. fold k F in HF.
  assert (Hsec : Second = 1000000000) by reflexivity.
  assert (Hpow : 0 < 10 ^ (9 - Z.of_nat k)) by (apply Z.pow_pos_nonneg; lia).
  assert (Hint : leadingInt (ds ++ String "." (fs ++ "s" ++ rest))
                 = Some (decimal_value 0 ds, String "." (fs ++ "s" ++ rest))).
  { apply leadingInt_aux_numeral; [done | lia | nia | reflexivity]. }
  destruct ds as [|c ds']; [done |].
  simpl in Hds. apply andb_prop in Hds as [Hc _].
  unfold parse_component. rewrite Hint.
  change (String c ds' ++ String "." (fs ++ "s" ++ rest))%string
    with (String c (ds' ++ String "." (fs ++ "s" ++ rest))).
  cbn beta iota. rewrite Hc, orb_true_r. cbn [negb].
  rewrite fraction_part_numeral by (done || (destruct fs; done) || (pose proof (Z.pow_le_mono_r 10 (Z.of_nat k) 3); int_lia)).
  cbn beta iota zeta. rewrite orb_true_r. cbn [negb].
  rewrite Hspan. replace (String.eqb "s" "") with false by reflexivity.
  replace (unitMap "s") with (Some Second) by reflexivity. cbv beta iota.
  unfold component_value. fold k F.
  destruct (Z.ltb_spec (2 ^ 63 / Second) (decimal_value 0 (String c ds'))).
  { pose proof (Z.div_le_lower_bound (2 ^ 63) Second (decimal_value 0 (String c ds'))). nia. }
  destruct (Z.ltb_spec 0 F); [| lia].
  change (trunc_float (float_mul (float_of_Z F) (float_div (float_of_Z Second) (scale_after k))))
    with (frac_ns F k).
  rewrite frac_ns_exact by lia.
  destruct (Z.ltb_spec (2 ^ 63) (decimal_value 0 (String c ds') * Second + F * 10 ^ (9 - Z.of_nat k)));
    [lia |].
  unfold wrap_u64. rewrite Z.mod_small by int_lia.
  destruct (Z.ltb_spec (2 ^ 63) (d + (decimal_value 0 (String c ds') * Second + F * 10 ^ (9 - Z.of_nat k))));
    [lia |].
  f_equal. lia.
Qed.

(** The loop, one component at a time. *)
Lemma parse_components_step (orig s rest : string) (d d' : Z) :
  parse_component orig d s = StepNext d' rest → s ≠ EmptyString →
  parse_components (String.length s) orig d s = parse_components (String.length rest) orig d' rest.
Proof.
  intros H Hne. destruct s as [|c s']; [done |]. cbn [parse_components String.length].
  rewrite H. apply parse_components_fuel; [| done].
  apply parse_component_shorter in H. simpl in H. lia.
Qed.

(** [fmtFrac u 9] of a whole number of milliseconds: no fraction for
    whole seconds, else the one to three digits of the milliseconds
    without their trailing zeros. *)
Lemma fmtFrac_ms (u : Z) :
  0 <= u → u mod Millisecond = 0 →
  (fmtFrac u 9).2 = u / Second ∧
  (((fmtFrac u 9).1 = EmptyString ∧ u mod Second = 0) ∨
   (∃ fs, (fmtFrac u 9).1 = String "." fs ∧ all_digits fs = true ∧
      (1 <= String.length fs <= 3)%nat ∧ 0 < decimal_value 0 fs ∧
      decimal_value 0 fs * 10 ^ (9 - Z.of_nat (String.length fs)) = u mod Second)).
Proof.
  intros Hu Hms. unfold fmtFrac.
  assert (Hs : Second = 10 ^ Z.of_nat 9) by reflexivity. rewrite Hs.
  destruct (fmtFrac_loop_spec 9 u EmptyString Hu)
    as ([[buf v] p] & -> & Hv & [(Hp & Hb & Hz) | (Hp & fs & Hb & Hd & Hl & Hval & Hlast)]);
    simpl in *; subst p buf v; (split; [done |]).
  - by left.
  - right. exists fs. rewrite string_app_nil_r. split_and!; [done | done | lia | | |].
    + (* the last digit is not zero, so at most three digits follow the milliseconds *)
      destruct (Nat.le_gt_cases (String.length fs) 3) as [Hk|Hk]; [done |].
      exfalso. apply Hlast.
      assert (Hd6 : (u mod 10 ^ Z.of_nat 9) mod 10 ^ 6 = 0).
      { rewrite <- Znumtheory.Zmod_div_mod by (try lia; by exists 1000).
        unfold Millisecond, Microsecond, Nanosecond in Hms. by rewrite Z.mul_1_r in Hms. }
      rewrite <- Hval in Hd6.
      set (j := (9 - String.length fs)%nat) in *.
      assert (Hj : (j <= 5)%nat) by lia.
      replace (Z.of_nat (9 - String.length fs)) with (Z.of_nat j) in Hd6 by reflexivity.
      apply Z.mod_divide in Hd6; [| lia]. destruct Hd6 as [q Hq].
      assert (j = 0 ∨ j = 1 ∨ j = 2 ∨ j = 3 ∨ j = 4 ∨ j = 5)%nat as Hjs by lia.
      remember (10 ^ Z.of_nat j) as P eqn:HP.
      destruct_or! Hjs; rewrite Hjs in HP; vm_compute in HP; subst P; change (10 ^ 6) with 1000000 in Hq; clear -Hq; Z.div_mod_to_equations; lia.
    + destruct (Z.eq_dec (decimal_value 0 fs) 0) as [E|E]; [rewrite E in Hlast; done |].
      pose proof (decimal_value_lt fs Hd). lia.
    + by rewrite <- Hval, Nat2Z.inj_sub by lia.
Qed.

(** [fmtFrac] of a number whose [n] low digits are zero prints nothing. *)
Lemma fmtFrac_whole (v : Z) (n : nat) :
  0 <= v → v mod 10 ^ Z.of_nat n = 0 → fmtFrac v n = (EmptyString, v / 10 ^ Z.of_nat n).
Proof.
  intros Hv Hz. unfold fmtFrac.
  destruct (fmtFrac_loop_spec n v EmptyString Hv)
    as ([[buf v'] p] & -> & Hv' & [(Hp & Hb & _) | (_ & ds & _ & _ & _ & Hval & Hlast)]);
    simpl in *; [by subst |].
  exfalso. apply Hlast. rewrite Hz in Hval.
  assert (0 < 10 ^ Z.of_nat (n - String.length ds)) by (apply Z.pow_pos_nonneg; lia).
  assert (decimal_value 0 ds = 0) as -> by nia. done.
Qed.

(** A numeral begins the text it starts. *)
Lemma numeral_lead (ds t : string) :
  all_digits ds = true → ds ≠ EmptyString →
  starts_digit_or_end (ds +:+ t) = true ∧ ∃ c s, ds +:+ t = String c s ∧ is_digit c = true.
Proof.
  destruct ds as [|c ds]; [done |]. intros [Hc _]%andb_prop _.
  rewrite string_app_cons. split; [exact Hc | by exists c, (ds +:+ t)].
Qed.

(** The seconds [<x><fraction>s], last component of a printed duration
    of at least a second: [x] seconds and the sub-second part of [u]. *)
Lemma secs_component (orig : string) (u d x : Z) :
  0 <= u → u mod Millisecond = 0 → 0 <= x < 10 ^ 20 → 0 <= d →
  d + x * Second + u mod Second <= 2 ^ 63 →
  parse_component orig d (fmtInt x +:+ (fmtFrac u 9).1 +:+ "s")
  = StepNext (d + x * Second + u mod Second) EmptyString.
Proof.
  intros Hu Hms Hx Hd Hb. destruct (fmtInt_spec x Hx) as (Hdig & Hval & Hne).
  destruct (fmtFrac_ms u Hu Hms) as [_ [[-> Hz] | (fs & -> & Hfs & Hl & Hf & Hfv)]].
  - rewrite string_app_nil_l, <- (string_app_nil_r "s"), (parse_component_int _ _ _ _ _ Second)
      by (done || lia).
    by rewrite Hval, Hz, Z.add_0_r.
  - rewrite string_app_cons, <- (string_app_nil_r "s"), parse_component_frac by (done || lia).
    by rewrite Hval, Hfv.
Qed.

Lemma string_app_ne (s t : string) : s ≠ EmptyString → s +:+ t ≠ EmptyString.
Proof. by destruct s. Qed.

(** A numeral and what follows it: a text of at least two bytes that
    begins with a digit. *)
Lemma numeral_text (ds t : string) :
  all_digits ds = true → ds ≠ EmptyString → (0 < String.length t)%nat →
  (∃ c s, ds +:+ t = String c s ∧ is_digit c = true) ∧ (2 <= String.length (ds +:+ t))%nat.
Proof.
  intros Hd Hne Ht. split; [apply numeral_lead; done |].
  rewrite string_length_app. destruct ds; [done |]. simpl. lia.
Qed.

(** What [Duration.String] prints for [0 < u <= 2^63] milliseconds:
    a text that begins with a digit and that [ParseDuration]'s loop
    reads back as [u]. *)
Lemma DurationString_body (orig : string) (u : Z) :
  0 < u <= 2 ^ 63 → u mod Millisecond = 0 →
  ((∃ c s, DurationString u = String c s ∧ is_digit c = true) ∧
   (2 <= String.length (DurationString u))%nat) ∧
  parse_components (String.length (DurationString u)) orig 0 (DurationString u) = Ok u.
Proof.
  intros Hu Hms. assert (Hs : Second = 1000000000) by reflexivity.
  assert (Hm : Millisecond = 1000000) by reflexivity.
  assert (Hge : 1000000 <= u) by (rewrite Hm in Hms; Z.div_mod_to_equations; lia).
  unfold DurationString. rewrite Z.abs_eq by lia.
  destruct (Z.ltb_spec u 0); [lia |]. cbv iota.
  destruct (Z.ltb_spec u Second).
  - (* under a second: whole milliseconds *)
    destruct (Z.eqb_spec u 0); [lia |].
    destruct (Z.ltb_spec u Microsecond) as [Hlt|_]; [change Microsecond with 1000 in Hlt; lia |].
    destruct (Z.ltb_spec u Millisecond) as [Hlt|_]; [change Millisecond with 1000000 in Hlt; lia |]. cbv iota.
    rewrite fmtFrac_whole by (done || lia). cbv iota. rewrite string_app_nil_l.
    change (10 ^ Z.of_nat 6) with Millisecond.
    assert (Hv : 0 <= u / Millisecond < 10 ^ 20) by (split; [apply Z.div_pos | apply Z.div_lt_upper_bound]; lia).
    destruct (fmtInt_spec _ Hv) as (Hd & Hval & Hne).
    split; [apply numeral_text; [done | done | simpl; lia] |].
    rewrite (parse_components_numeral _ _ _ _ Millisecond) by (done || (rewrite Hval; Z.div_mod_to_equations; lia) || (rewrite string_length_app; cbn; lia)).
    rewrite Hval. f_equal. Z.div_mod_to_equations. lia.
  - (* hours, minutes and seconds *)
    destruct (fmtFrac_ms u ltac:(lia) Hms) as [Hq _].
    pose proof (secs_component orig u) as Hsec.
    destruct (fmtFrac u 9) as [frac q] eqn:E. cbn [fst snd] in Hq, Hsec. subst q. cbv iota.
    set (q := u / Second) in *.
    pose proof (Z.div_mod u Second ltac:(lia)) as Du. pose proof (Z.mod_pos_bound u Second ltac:(lia)) as Bu.
    pose proof (Z.div_mod q 60 ltac:(lia)) as Dq. pose proof (Z.mod_pos_bound q 60 ltac:(lia)) as Bq.
    pose proof (Z.div_mod (q / 60) 60 ltac:(lia)) as Dm. pose proof (Z.mod_pos_bound (q / 60) 60 ltac:(lia)) as Bm.
    fold q in Du. rewrite Hs in Du, Bu.
    assert (Hq0 : 0 <= q) by (apply Z.div_pos; lia).
    assert (0 <= q / 60) by (apply Z.div_pos; lia). assert (0 <= q / 60 / 60) by (apply Z.div_pos; lia).
    change Minute with (60 * Second). change Hour with (60 * (60 * Second)).
    destruct (fmtInt_spec (q mod 60) ltac:(lia)) as (Hds & Hvs & Hns).
    set (secs := fmtInt (q mod 60) +:+ frac +:+ "s").
    assert (Hsecs : ((∃ c s, secs = String c s ∧ is_digit c = true) ∧ (2 <= String.length secs)%nat) ∧
                    starts_digit_or_end secs = true ∧ secs ≠ EmptyString).
    { destruct (numeral_text (fmtInt (q mod 60)) (frac +:+ "s") Hds Hns) as [[c [s' Hc]] Hl2];
        [rewrite string_length_app; simpl; lia |].
      split_and!; [by exists c, s' | done | apply numeral_lead; done | unfold secs; by rewrite (proj1 Hc)]. }
    destruct Hsecs as (Hshape & Hlead & Hne).
    destruct (Z.ltb_spec 0 (q / 60)); [destruct (Z.ltb_spec 0 (q / 60 / 60)) |].
    + (* hours, minutes, seconds *)
      destruct (fmtInt_spec (q / 60 mod 60) ltac:(lia)) as (Hdm & Hvm & Hnm).
      destruct (fmtInt_spec (q / 60 / 60) ltac:(lia)) as (Hdh & Hvh & Hnh).
      split; [apply numeral_text; [done | done | simpl; lia] |].
      set (mins := fmtInt (q / 60 mod 60) +:+ "m" +:+ secs).
      rewrite (parse_components_step orig _ _ 0 _ (parse_component_int orig _ "h" mins 0 (60 * (60 * Second)) Hdh Hnh eq_refl
                 ltac:(apply numeral_lead; done) ltac:(lia) ltac:(rewrite Hvh, Hs; lia))) by (by apply string_app_ne).
      rewrite Hvh, Z.add_0_l.
      rewrite (parse_components_step orig mins secs _ _ (parse_component_int orig _ "m" secs
                 (q / 60 / 60 * (60 * (60 * Second))) (60 * Second)
                 Hdm Hnm eq_refl Hlead ltac:(rewrite Hs; lia) ltac:(rewrite Hvm, Hs; lia)))
        by (by apply string_app_ne).
      rewrite Hvm, (parse_components_step orig secs EmptyString _ _
                 (Hsec (q / 60 / 60 * (60 * (60 * Second)) + (q / 60) mod 60 * (60 * Second)) (q mod 60)
                   ltac:(lia) Hms ltac:(lia) ltac:(rewrite Hs; lia) ltac:(rewrite Hs; lia))) by done.
      cbn. rewrite Hs. f_equal. lia.
    + (* minutes and seconds *)
      destruct (fmtInt_spec (q / 60 mod 60) ltac:(lia)) as (Hdm & Hvm & Hnm).
      split; [apply numeral_text; [done | done | simpl; lia] |].
      rewrite (parse_components_step orig _ secs _ _ (parse_component_int orig _ "m" secs 0 (60 * Second)
                 Hdm Hnm eq_refl Hlead ltac:(lia) ltac:(rewrite Hvm, Hs; lia)))
        by (by apply string_app_ne).
      rewrite Hvm, Z.add_0_l, (parse_components_step orig secs EmptyString _ _
                 (Hsec ((q / 60) mod 60 * (60 * Second)) (q mod 60)
                   ltac:(lia) Hms ltac:(lia) ltac:(rewrite Hs; lia) ltac:(rewrite Hs; lia))) by done.
      cbn. rewrite Hs. f_equal. lia.
    + (* seconds only *)
      split; [done |].
      rewrite (parse_components_step orig secs EmptyString _ _
                 (Hsec 0 (q mod 60) ltac:(lia) Hms ltac:(lia) ltac:(lia) ltac:(rewrite Hs; lia))) by done.
      cbn. rewrite Hs. f_equal. lia.
Qed.

(** The sign: a negative duration is printed as [-] and the text of its
    magnitude (for [-2^63] too, whose magnitude is printed as [2^63]). *)
Lemma DurationString_neg (d : Z) : d < 0 → DurationString d = String "-" (DurationString (- d)).
Proof.
  intros Hd. unfold DurationString.
  rewrite Z.abs_neq, Z.abs_eq by lia.
  destruct (Z.ltb_spec d 0); [| lia]. by destruct (Z.ltb_spec (- d) 0); [lia |].
Qed.

(** A text of at least two bytes is not ["0"]. *)
Lemma eqb_zero_long (s : string) : (2 <= String.length s)%nat → String.eqb s "0" = false.
Proof. intros Hl. destruct (String.eqb_spec s "0") as [->|]; [simpl in Hl; lia | done]. Qed.

(** [time.ParseDuration] reads back what [Duration.String] prints, for
    every whole number of milliseconds in the int64 range. *)
Lemma ParseDuration_DurationString (d : Z) :
  in_int64 d → d mod Millisecond = 0 → ParseDuration (DurationString d) = Ok d.
Proof.
  unfold in_int64, int64_min, int64_max. intros Hd Hms.
  destruct (Z.lt_trichotomy d 0) as [Hlt | [-> | Hgt]].
  - assert (Hms' : (- d) mod Millisecond = 0) by (rewrite Z.mod_opp_l_z; (done || discriminate)).
    rewrite (DurationString_neg d Hlt).
    destruct (DurationString_body (String "-" (DurationString (- d))) (- d) ltac:(lia) Hms')
      as [[(c & s & Hcs & Hc) Hl] Hp].
    unfold ParseDuration. rewrite split_sign_minus. cbv iota.
    rewrite eqb_zero_long by done. rewrite Hcs in Hp |- *. cbn [String.eqb].
    rewrite Hp. f_equal. lia.
  - reflexivity.
  - destruct (DurationString_body (DurationString d) d ltac:(lia) Hms)
      as [[(c & s & Hcs & Hc) Hl] Hp].
    unfold ParseDuration. rewrite Hcs in Hl, Hp |- *. rewrite split_sign_digit by done. cbv iota.
    rewrite eqb_zero_long by done. cbn [String.eqb].
    rewrite Hp. by destruct (Z.ltb_spec (2 ^ 63 - 1) d); [lia |].
Qed.

(** [ParseDuration] refuses the empty text. *)
Lemma ParseDuration_Ok_nonempty (f : string) (d : Z) : ParseDuration f = Ok d → String.eqb f "" = false.
Proof. intros H. by destruct (String.eqb_spec f "") as [->|]; [discriminate H |]. Qed.

(** ** Theorems *)

(** C33. A duration printed by [Duration.String], written as a rule's
    [for:], gives back the same threshold: for every whole number of
    milliseconds in the int64 range, negative ones included. *)
Theorem parseFor_DurationString (d : Z) :
  in_int64 d → d mod Millisecond = 0 → parseFor (DurationString d) = d.
Proof.
  intros Hd Hms. pose proof (ParseDuration_DurationString d Hd Hms) as H.
  unfold parseFor. by rewrite (ParseDuration_Ok_nonempty _ _ H), H.
Qed.

(** ** Witnesses *)


Lemma parseFor_DurationString_witness : parseFor (DurationString (-5400500000000)) = -5400500000000.
Proof. apply parseFor_DurationString; [unfold in_int64, int64_min, int64_max; lia | reflexivity]. Defined.

End Roundtrip.
