(* ===== verification/Trace.v ===== *)
(** * The events of a run

    What every event [engine.Run] (src/internal/engine/engine.go) hands
    to its reporter looks like, and that every rule of the configuration
    is reported.  [event_wf] is the shape of the reporter's arguments the
    code guarantees: a state string among the three of [AlertState], a
    duration in the int64 range, annotations exactly on FIRING results,
    and the SILENT result with no labels, zero duration and no
    annotations.  The text reporter's [else] branch (report.go:53-55)
    prints [PENDING] for every state other than FIRING and SILENT; the
    shape shows that it only ever sees PENDING. *)

From S2P Require Import Prelude Duration Template Rules Engine.
Import Duration Template Config Engine.

Module Trace.

(** The shape of an event. *)
Definition event_wf (ev : Event) : bool :=
  match ev with
  | EvAddResult _ metric duration state annotations =>
      (int64_min <=? duration)%Z && (duration <=? int64_max)%Z &&
      (if String.eqb state "FIRING" then bool_decide (is_Some annotations)
       else if String.eqb state "PENDING" then bool_decide (annotations = None)
       else String.eqb state "SILENT" && bool_decide (metric = ∅) && (duration =? 0)%Z &&
            bool_decide (annotations = None))
  | EvQueryError _ | EvFlush => true
  end.

(** ** Lemmas *)

Section Lemmas.

Context `{TE : TemplateEngine}.
Variable QueryRange : string → Range → result Model.QueryValue string.

Abbreviation query rule start end_ :=
  (QueryRange (Config.Expr rule) (mkRange start end_ (1 * Minute))).

(** A property of every event each rule emits holds of the events of
    the loop over the rules, whether it ends normally or panics. *)
Lemma run_rules_Forall (P : Event → Prop) (rules : list Rule) (start end_ : GoTime)
    (evs : list Event) (p : option Panic) :
  (∀ r evs, r ∈ rules → evaluateRule QueryRange r start end_ = GoOk evs → Forall P evs) →
  run_rules QueryRange rules start end_ = (evs, p) → Forall P evs.
Proof.
  revert evs p. induction rules as [|r rules IH]; simpl; intros evs p HP E.
  - by injection E as <-.
  - destruct (evaluateRule QueryRange r start end_) as [evs1|p'] eqn:Hr; [| by injection E as <-].
    destruct (run_rules QueryRange rules start end_) as [evs2 p2] eqn:E2. injection E as <- ->.
    apply Forall_app. split; [apply (HP r); [left | done] |].
    apply (IH _ p); [| done]. intros r' evs' Hin. apply HP. by right.
Qed.

(** A loop over the rules that ends normally emitted the events of every
    rule. *)
Lemma run_rules_each (rules : list Rule) (start end_ : GoTime) (evs : list Event) :
  run_rules QueryRange rules start end_ = (evs, None) →
  ∀ r, r ∈ rules → ∃ evs_r, evaluateRule QueryRange r start end_ = GoOk evs_r ∧ evs_r ⊆ evs.
Proof.
  revert evs. induction rules as [|r rules IH]; simpl; intros evs E r' Hin; [set_solver |].
  destruct (evaluateRule QueryRange r start end_) as [evs1|p'] eqn:Hr; [| done].
  destruct (run_rules QueryRange rules start end_) as [evs2 p2] eqn:E2. injection E as <- ->.
  apply elem_of_cons in Hin as [->|Hin].
  - exists evs1. split; [done | set_solver].
  - destruct (IH evs2 eq_refl r' Hin) as (evs_r & H1 & H2). exists evs_r. split; [done | set_solver].
Qed.

(** The result of an evaluable series has the shape. *)
Lemma series_result_wf (fd : Z) (rule : Rule) (s : Model.SampleStream) :
  evaluable fd s → event_wf (result_event rule (series_result fd rule s)) = true.
Proof.
  destruct s as [metric vs]. unfold evaluable. simpl. intros Hev.
  unfold result_event, series_result, series_annotations, series_state, series_duration. simpl.
  destruct vs as [|x [|y vs]].
  - destruct (Z.eqb_spec fd 0); [by destruct Hev |]. reflexivity.
  - by destruct (Z.eqb_spec fd 0).
  - destruct (last (x :: y :: vs)) as [l|] eqn:El; [| by apply last_None in El].
    pose proof (clamp_int64_in_range ((Model.Timestamp l - Model.Timestamp x) * Millisecond)) as [H1 H2].
    apply Z.leb_le in H1, H2. rewrite H1, H2.
    by destruct (fd <=? _)%Z.
Qed.

(** Every event of a rule's evaluation has the shape. *)
Lemma evaluateRule_wf (rule : Rule) (start end_ : GoTime) (evs : list Event) :
  evaluateRule QueryRange rule start end_ = GoOk evs → Forall (λ ev, event_wf ev = true) evs.
Proof.
  unfold evaluateRule. destruct (query rule start end_) as [[m|]|err]; [| intros [= <-]; repeat constructor ..].
  destruct m as [|s m]; [by intros [= <-]; repeat constructor |].
  destruct (calculateAlerts _ _) as [rs|] eqn:Hc; [| done]. intros [= <-].
  apply calculateAlerts_ok_inv in Hc as [Hm ->].
  rewrite map_map. apply Forall_map. eapply Forall_impl; [exact Hm |].
  intros s'. apply series_result_wf.
Qed.

End Lemmas.

(** ** Theorems *)

Section Theorems.

Context `{TE : TemplateEngine}.
Variable QueryRange : string → Range → result Model.QueryValue string.

(** C36. Every event of a run, whether it ends normally or panics, has
    the shape [event_wf]: each result's state is the string of one of
    the three states, its duration an int64, its annotations present
    exactly when it is FIRING, and a SILENT result has no labels, zero
    duration and no annotations. *)
Theorem Run_events_wf (cfg : Config.Config) :
  Forall (λ ev, event_wf ev = true) (Run QueryRange cfg).1.
Proof.
  destruct (Run QueryRange cfg) as [evs [p|]] eqn:E; simpl.
  - apply Run_panic_inv in E. eapply run_rules_Forall; [| exact E].
    intros r evs' _. apply evaluateRule_wf.
  - apply Run_ok_inv in E as (evs' & E & ->). apply Forall_app. split; [| by repeat constructor].
    eapply run_rules_Forall; [| exact E]. intros r evs'' _. apply evaluateRule_wf.
Qed.

(** C37. A run that ends normally reports every rule of every group:
    a rule whose query fails has its error on stderr, and a rule whose
    query returns a matrix has at least one result handed to the
    reporter. *)
Theorem Run_reports_every_rule (cfg : Config.Config) (evs : list Event) :
  Run QueryRange cfg = (evs, None) →
  ∀ rule, rule ∈ all_rules cfg →
  match QueryRange (Config.Expr rule) (mkRange (Config.Start cfg) (Config.End cfg) (1 * Minute)) with
  | Err err => EvQueryError err ∈ evs
  | Ok (Model.ValMatrix _) => ∃ metric d st a, EvAddResult rule metric d st a ∈ evs
  | Ok Model.ValOther => True
  end.
Proof.
  intros (evs' & E & ->)%Run_ok_inv rule Hin.
  destruct (run_rules_each QueryRange _ _ _ _ E rule Hin) as (evs_r & Hr & Hsub).
  unfold evaluateRule in Hr.
  destruct (QueryRange _ _) as [[m|]|err]; [| done | injection Hr as <-; set_solver].
  destruct m as [|s m].
  { injection Hr as <-. do 4 eexists. apply elem_of_app. left. apply Hsub. left. }
  destruct (calculateAlerts _ _) as [rs|] eqn:Hc; [| done]. injection Hr as <-.
  apply calculateAlerts_ok_inv in Hc as [_ ->]. simpl in Hsub.
  do 4 eexists. apply elem_of_app. left. apply Hsub. left.
Qed.

End Theorems.

(** ** Witnesses *)

Import Engine.Examples.

Lemma Run_reports_every_rule_witness :
  ∃ metric d st a, EvAddResult (rule_for "5m") metric d st a
    ∈ (@Run engine (answer (Ok (Model.ValMatrix [ten_minutes]))) (config [rule_for "5m"])).1.
Proof.
  assert (Hr : @Run engine (answer (Ok (Model.ValMatrix [ten_minutes]))) (config [rule_for "5m"])
               = ((@Run engine (answer (Ok (Model.ValMatrix [ten_minutes]))) (config [rule_for "5m"])).1, None))
    by (vm_compute; reflexivity).
  exact (@Run_reports_every_rule engine _ _ _ Hr (rule_for "5m") ltac:(simpl; left)).
Defined.

End Trace.
