(* ===== verification/EngineTest.v ===== *)
(** * The unit test of the engine

    [TestCalculateAlerts] of src/internal/engine/engine_test.go: four
    cases, each a rule, a matrix and the expected states.  A case passes
    when [calculateAlerts] returns as many results as expected, with the
    expected states, in order; a panic fails it.  The test reads the
    clock once ([model.Now()]); here that reading is a parameter, and
    the theorem says for which readings the test passes. *)

From S2P Require Import Prelude Duration Template TextTemplate Rules Engine.
From Stdlib Require Import SpecFloat.
Import Duration Template Config Engine.

Module EngineTest.

(** [model.Time.Add]: [t + Time(d/minimumTick)], in int64 arithmetic. *)
Definition Time_Add (t d : Z) : Z := wrap_i64 (t + Z.quot d Millisecond).

(** The anonymous struct of the table. *)
Record test_case : Type := mkCase {
  name : string;
  rule : Rule;
  matrix : list Model.SampleStream;
  expected : list AlertState
}.

(** [config.Rule{For: f}]: every other field at its zero value. *)
Definition rule_with_for (f : string) : Rule := mkRule "" "" f ∅ ∅.

Definition foo_bar : gmap string string := {[ "foo" := "bar" ]}.
Definition one : spec_float := S754_finite false 1 0.

(** The series sampled ten minutes before [now] and at [now]. *)
Definition ten_minutes (now : Z) : list Model.SampleStream :=
  [Model.mkStream foo_bar [Model.mkSample (Time_Add now (-10 * Minute)) one; Model.mkSample now one]].

(** The series with the single sample at [now]. *)
Definition single_point (now : Z) : list Model.SampleStream :=
  [Model.mkStream foo_bar [Model.mkSample now one]].

Definition tests (now : Z) : list test_case :=
  [mkCase "Firing: Duration > For" (rule_with_for "5m") (ten_minutes now) [StateFiring];
   mkCase "Pending: Duration < For" (rule_with_for "15m") (ten_minutes now) [StatePending];
   mkCase "Firing: For is 0 (Instant)" (rule_with_for "0s") (single_point now) [StateFiring];
   mkCase "Firing: No 'For' specified (Default 0)" (rule_with_for "") (single_point now)
     [StateFiring]].

Section Test.

Context `{TE : TemplateEngine}.

(** The checks of the subtest: the number of results, then each state. *)
Definition check_results (rs : list AlertResult) (exp : list AlertState) : bool :=
  (length rs =? length exp)%nat && forallb (λ p, bool_decide (State p.1 = p.2)) (zip rs exp).

Definition run_case (tt : test_case) : bool :=
  match calculateAlerts (matrix tt) (rule tt) with
  | GoOk rs => check_results rs (expected tt)
  | GoPanic _ => false
  end.

(** The test passes when every subtest passes. *)
Definition TestCalculateAlerts (now : Z) : bool := forallb run_case (tests now).

End Test.

(** ** Theorems *)

Section Facts.

Context `{TE : TemplateEngine}.

Lemma Time_Add_ten_minutes (now : Z) :
  in_int64 (now - 600000) → Time_Add now (-10 * Minute) = (now - 600000)%Z.
Proof.
  intros Hr. unfold Time_Add.
  replace (Z.quot (-10 * Minute) Millisecond) with (-600000)%Z by reflexivity.
  apply wrap_i64_id. by replace (now + -600000)%Z with (now - 600000)%Z by lia.
Qed.

(** Below the int64 minimum the subtraction wraps to the top of the range. *)
Lemma Time_Add_ten_minutes_wrap (now : Z) :
  in_int64 now → (now - 600000 < int64_min)%Z →
  Time_Add now (-10 * Minute) = (now - 600000 + 2 ^ 64)%Z.
Proof.
  intros Hn Hr. unfold Time_Add.
  replace (Z.quot (-10 * Minute) Millisecond) with (-600000)%Z by reflexivity.
  int_lia.
Qed.

(** The subtest's checks compare the list of states. *)
Lemma check_results_spec (rs : list AlertResult) (exp : list AlertState) :
  check_results rs exp = true ↔ map State rs = exp.
Proof.
  unfold check_results. revert exp.
  induction rs as [|r rs IH]; intros [|e exp]; simpl; [done | done | done |].
  rewrite !andb_true_iff, bool_decide_eq_true. specialize (IH exp).
  rewrite andb_true_iff in IH. split.
  - intros (Hl & He & Hf). f_equal; [done | by apply IH].
  - intros [= He Hs]. apply IH in Hs as [? ?]. done.
Qed.

Lemma check_results_states (rs : list AlertResult) (exp : list AlertState) :
  check_results rs exp = bool_decide (map State rs = exp).
Proof.
  apply eq_bool_prop_intro. rewrite Is_true_true, check_results_spec.
  by rewrite bool_decide_spec.
Qed.

(** A case of the table, run through the refinement of [calculateAlerts]. *)
Lemma run_case_states (tt : test_case) :
  Forall (λ s, Model.Values s ≠ []) (matrix tt) →
  run_case tt = bool_decide (map State (map (series_result (parseFor (Config.For (rule tt)))
                                                     (rule tt)) (matrix tt)) = expected tt).
Proof.
  intros Hm. unfold run_case, calculateAlerts. rewrite calculate_loop_ok.
  - by rewrite check_results_states.
  - eapply Forall_impl; [exact Hm |]. by left.
Qed.

(** The state of the two-sample series of the table under a threshold. *)
Lemma ten_minutes_state (now fd : Z) (r : Rule) :
  map State (map (series_result fd r) (ten_minutes now))
  = [if (fd <=? clamp_int64 ((now - Time_Add now (-10 * Minute)) * Millisecond))%Z
     then StateFiring else StatePending].
Proof. done. Qed.

(** The elapsed time the two-sample series shows: ten minutes, or, when
    the first timestamp wrapped, the int64 minimum. *)
Lemma ten_minutes_duration (now : Z) :
  in_int64 now →
  clamp_int64 ((now - Time_Add now (-10 * Minute)) * Millisecond)
  = if bool_decide (in_int64 (now - 600000)) then 600000000000%Z else int64_min.
Proof.
  intros Hn. case_bool_decide as Hr.
  - rewrite Time_Add_ten_minutes by done.
    replace ((now - (now - 600000)) * Millisecond)%Z with 600000000000%Z
      by (unfold Millisecond, Microsecond, Nanosecond; lia).
    apply clamp_int64_id. int_lia.
  - rewrite Time_Add_ten_minutes_wrap by (unfold in_int64 in *; lia).
    unfold clamp_int64, Millisecond, Microsecond, Nanosecond. int_lia.
Qed.

End Facts.

(** C26. The unit test [TestCalculateAlerts] passes exactly when the
    clock reading [model.Now()] lies at least ten minutes above the int64
    minimum: below it [now.Add(-10 * time.Minute)] wraps to the top of
    the range, the series' first sample comes after its last, and the
    case ["Firing: Duration > For"] sees a PENDING result. *)
Theorem TestCalculateAlerts_passes `{TE : TemplateEngine} (now : Z) :
  in_int64 now → TestCalculateAlerts now = true ↔ in_int64 (now - 600000).
Proof.
  intros Hn. unfold TestCalculateAlerts, tests. cbn [forallb].
  rewrite !run_case_states by (repeat constructor; discriminate).
  cbn [matrix rule expected Config.For rule_with_for]. rewrite !ten_minutes_state.
  rewrite ten_minutes_duration by done.
  replace (parseFor "5m") with 300000000000%Z by (vm_compute; reflexivity).
  replace (parseFor "15m") with 900000000000%Z by (vm_compute; reflexivity).
  replace (parseFor "0s") with 0%Z by (vm_compute; reflexivity).
  replace (parseFor "") with 0%Z by reflexivity.
  destruct (decide (in_int64 (now - 600000))) as [Hr|Hr].
  - rewrite (bool_decide_eq_true_2 (in_int64 (now - 600000))) by done. split; [intros _; exact Hr | intros _; vm_compute; reflexivity].
  - rewrite (bool_decide_eq_false_2 (in_int64 (now - 600000))) by done. split; [intros H; vm_compute in H; discriminate | done].
Qed.

(** ** Witnesses *)

Lemma TestCalculateAlerts_passes_witness :
  in_int64 1700000000000 ∧ @TestCalculateAlerts (TextTemplate.text_template TextTemplate.fmt_integral) 1700000000000 = true.
Proof.
  assert (H : in_int64 1700000000000) by int_lia. split; [exact H |].
  apply (TestCalculateAlerts_passes 1700000000000 H). int_lia.
Defined.


End EngineTest.
