(* ===== verification/Pipeline.v ===== *)
(** * The engine and its reporter

    [engine.Run] (src/internal/engine/engine.go) calls the reporter's
    methods as it goes: [AddResult] for each result, [Flush] at the end;
    a failed query is printed on stderr.  [Engine] records these calls as
    the trace of [Run]; [deliver] performs them, in order, on a reporter
    built by [report.New] (src/internal/report/report.go), and returns the
    reporter, what it printed on stdout, and the lines printed on stderr.

    The theorems say what a user sees: the JSON document of every result
    in the order the engine produced them, and nothing at all from the
    JSON and YAML reporters when a rule's evaluation panics. *)

From S2P Require Import Prelude Duration Format Template TextTemplate Render Rules Engine Json Report.
Import Duration Template Config Engine Report.

Module Pipeline.

Section Deliver.

Context {S : Type} `{R : Reporter S}.

(** [fmt.Fprintf(os.Stderr, "❌ Query Error: %v\n", err)] *)
Definition query_error_line (err : string) : string := "❌ Query Error: " +:+ err +:+ newline.

(** The calls of a trace, performed in order. *)
Fixpoint deliver (st : S) (evs : list Event) : S * string * string :=
  match evs with
  | [] => (st, EmptyString, EmptyString)
  | ev :: rest =>
      let '(st1, out1, err1) :=
        match ev with
        | EvAddResult rule metric duration state annotations =>
            let '(st', out) := AddResult st rule metric duration state annotations in
            (st', out, EmptyString)
        | EvQueryError e => (st, EmptyString, query_error_line e)
        | EvFlush => let '(st', out) := Flush st in (st', out, EmptyString)
        end in
      let '(st2, out2, err2) := deliver st1 rest in
      (st2, out1 +:+ out2, err1 +:+ err2)
  end.

End Deliver.

(** The results a trace hands to a collecting reporter, in order. *)
Fixpoint added (evs : list Event) : list Result :=
  match evs with
  | [] => []
  | EvAddResult rule metric duration state annotations :: rest =>
      result_of rule metric duration state annotations :: added rest
  | _ :: rest => added rest
  end.

(** What the text reporter prints for the results of a trace. *)
Fixpoint text_of (order : gmap string string → list (string * string)) (evs : list Event) : string :=
  match evs with
  | [] => EmptyString
  | EvAddResult _ metric duration state annotations :: rest =>
      TextAddResult order metric duration state annotations +:+ text_of order rest
  | _ :: rest => text_of order rest
  end.

(** ** Lemmas *)

Section Lemmas.

Variable order : gmap string string → list (string * string).
Variable yaml_encode : list Result → string.

Abbreviation deliver_any := (@deliver AnyReporter (AnyReporter_Reporter order yaml_encode)).

(** Before [Flush], a collecting reporter prints nothing and keeps the
    results in the order they come. *)
Lemma deliver_collect (evs : list Event) (rs : list Result) :
  EvFlush ∉ evs →
  (∃ err, deliver_any (JSONRep rs) evs = (JSONRep (rs ++ added evs), EmptyString, err)) ∧
  (∃ err, deliver_any (YAMLRep rs) evs = (YAMLRep (rs ++ added evs), EmptyString, err)).
Proof.
  revert rs. induction evs as [|ev evs IH]; intros rs Hf.
  - split; exists EmptyString; by rewrite app_nil_r.
  - apply not_elem_of_cons in Hf as [Hev Hf].
    destruct ev as [rule metric duration state annotations|e|]; [| | done]; cbn [deliver added].
    + destruct (IH (rs ++ [result_of rule metric duration state annotations]) Hf)
        as [[e1 H1] [e2 H2]].
      cbn. rewrite H1, H2, <- !app_assoc. split; eexists; reflexivity.
    + destruct (IH rs Hf) as [[e1 H1] [e2 H2]]. cbn. rewrite H1, H2. split; eexists; reflexivity.
Qed.

(** The text reporter prints each result as it comes, and nothing at
    [Flush]. *)
Lemma deliver_text (evs : list Event) :
  ∃ err, deliver_any TextRep evs = (TextRep, text_of order evs, err).
Proof.
  induction evs as [|ev evs [e IH]]; [by exists EmptyString |].
  destruct ev as [rule metric duration state annotations|err|]; cbn [deliver text_of]; cbn;
    rewrite IH; eexists; reflexivity.
Qed.

(** A trace, then a [Flush]. *)
Lemma deliver_snoc_flush {S} `{Reporter S} (st st1 st2 : S) (evs : list Event) (o1 e1 o2 : string) :
  deliver st evs = (st1, o1, e1) → Flush st1 = (st2, o2) →
  deliver st (evs ++ [EvFlush]) = (st2, o1 +:+ (o2 +:+ EmptyString), e1 +:+ EmptyString).
Proof.
  intros Hd Hf. revert st o1 e1 Hd. induction evs as [|ev evs IH]; intros st o1 e1 Hd.
  - injection Hd as <- <- <-. cbn. by rewrite Hf.
  - cbn [app deliver] in *.
    destruct ev as [rule metric duration state annotations|err|];
      [destruct (AddResult st rule metric duration state annotations) as [st' out'] | |
       destruct (Flush st) as [st' out']];
      destruct (deliver _ evs) as [[st'' o''] e''] eqn:Ed; injection Hd as <- <- <-;
      erewrite IH by done; by rewrite !string_app_assoc.
Qed.

Lemma added_snoc_flush (evs : list Event) : added (evs ++ [EvFlush]) = added evs.
Proof. induction evs as [|[] evs IH]; simpl; by rewrite ?IH. Qed.

End Lemmas.

(** ** Theorems *)

Section Runs.

Context `{TE : TemplateEngine}.
Variable QueryRange : string → Range → result Model.QueryValue string.
Variable order : gmap string string → list (string * string).
Variable yaml_encode : list Result → string.

Abbreviation deliver_any := (@deliver AnyReporter (AnyReporter_Reporter order yaml_encode)).

(** C31. After a run that ends normally, the JSON reporter has printed
    exactly one document, the indented JSON array of every result the
    engine produced, in the engine's order; the YAML reporter likewise
    prints the YAML encoding of that list. *)
Theorem Pipeline_collecting_output (cfg : Config.Config) (evs : list Event) :
  Run QueryRange cfg = (evs, None) →
  (deliver_any (New "json") evs).1.2 = json_encode (added evs) ∧
  (deliver_any (New "yaml") evs).1.2 = yaml_encode (added evs).
Proof.
  intros (evs' & Hr & ->)%Run_ok_inv.
  pose proof (run_rules_flush_free _ _ _ _ _ _ Hr) as Hf.
  destruct (deliver_collect order yaml_encode evs' [] Hf) as [[e1 H1] [e2 H2]].
  rewrite added_snoc_flush. cbn [New String.eqb Ascii.eqb Bool.eqb].
  rewrite (deliver_snoc_flush _ _ _ _ _ _ _ H1 eq_refl),
          (deliver_snoc_flush _ _ _ _ _ _ _ H2 eq_refl).
  simpl. by rewrite !string_app_nil_r.
Qed.

(** C32. When a rule's evaluation panics, the JSON and YAML reporters
    have printed nothing: the results of the rules evaluated before the
    panic are lost, while the text reporter has already printed them. *)
Theorem Pipeline_panic_output (cfg : Config.Config) (evs : list Event) (p : Panic) :
  Run QueryRange cfg = (evs, Some p) →
  (deliver_any (New "json") evs).1.2 = EmptyString ∧
  (deliver_any (New "yaml") evs).1.2 = EmptyString ∧
  (deliver_any (New "text") evs).1.2 = text_of order evs.
Proof.
  intros Hr%Run_panic_inv. pose proof (run_rules_flush_free _ _ _ _ _ _ Hr) as Hf.
  destruct (deliver_collect order yaml_encode evs [] Hf) as [[e1 H1] [e2 H2]].
  destruct (deliver_text order yaml_encode evs) as [e3 H3].
  cbn [New String.eqb Ascii.eqb Bool.eqb]. by rewrite H1, H2, H3.
Qed.

End Runs.

(** ** Witnesses *)

Import Engine.Examples.

Abbreviation deliver_ex := (@deliver AnyReporter (AnyReporter_Reporter map_to_list (λ _, EmptyString))).
Abbreviation run_ex m rules := (@Run engine (answer (Ok (Model.ValMatrix m))) (config rules)).

Lemma Pipeline_collecting_output_witness :
  (deliver_ex (New "json") (run_ex [ten_minutes] [rule_for "5m"]).1).1.2
  = json_encode [mkResult "InstanceDown" "InstanceDown" (MetricString api) 600000000000 "FIRING"
                   (Some {[ "summary" := "api at 1" ]})] ∧
  (deliver_ex (New "yaml") (run_ex [ten_minutes] [rule_for "5m"]).1).1.2 = EmptyString.
Proof.
  assert (Hr : run_ex [ten_minutes] [rule_for "5m"] = ((run_ex [ten_minutes] [rule_for "5m"]).1, None))
    by (vm_compute; reflexivity).
  destruct (@Pipeline_collecting_output engine (answer (Ok (Model.ValMatrix [ten_minutes])))
              map_to_list (λ _, EmptyString) (config [rule_for "5m"]) _ Hr) as [H1 H2].
  rewrite H1, H2. split; [vm_compute; reflexivity | reflexivity].
Defined.

Lemma Pipeline_panic_output_witness :
  (deliver_ex (New "json") (run_ex [no_floats] [rule_for "5m"; rule_for ""]).1).1.2 = EmptyString ∧
  (deliver_ex (New "yaml") (run_ex [no_floats] [rule_for "5m"; rule_for ""]).1).1.2 = EmptyString ∧
  (deliver_ex (New "text") (run_ex [no_floats] [rule_for "5m"; rule_for ""]).1).1.2
  = TextAddResult map_to_list api 0 "PENDING" None.
Proof.
  assert (Hr : run_ex [no_floats] [rule_for "5m"; rule_for ""]
               = ((run_ex [no_floats] [rule_for "5m"; rule_for ""]).1, Some (IndexOutOfRange (-1) 0)))
    by (vm_compute; reflexivity).
  destruct (@Pipeline_panic_output engine (answer (Ok (Model.ValMatrix [no_floats])))
              map_to_list (λ _, EmptyString) (config [rule_for "5m"; rule_for ""]) _ _ Hr)
    as (H1 & H2 & H3).
  split_and!; [exact H1 | exact H2 | rewrite H3; vm_compute; reflexivity].
Defined.

End Pipeline.
